(** * Exam-document renaming pipeline and repository path checker

    A shallow embedding of [ai_rename_exam_docs.py] and
    [scripts/path_validity_checker.py].

    Python [str] values are sequences of Unicode code points, so a string is
    a [list N]; dictionaries produced by [json.loads] or by dict literals are
    insertion-ordered association lists; console input, the remote
    classification service and [time.sleep] are threaded through a small
    state-and-exception monad whose trace records what the program did.

    Text extraction ([get_file_info]) and the remote service are inputs of
    the model. The model of [process_file_with_ai] stops where the output
    name has been chosen; copying or converting the file is not modelled. *)

From Stdlib Require Import ZArith NArith QArith Bool Ascii String Lia.
From Stdlib Require Import DecimalNat DecimalString.
From stdpp Require Import base list gmap.

Local Open Scope N_scope.

(** ** Python strings *)

Module PyStr.

(** Strings are written in the development as UTF-8 literals and decoded to
    code points once, at definition time. *)
Fixpoint utf8_decode (bs : list N) : list N :=
  match bs with
  | [] => []
  | b0 :: r0 =>
    if b0 <? 0x80 then b0 :: utf8_decode r0
    else match r0 with
    | [] => []
    | b1 :: r1 =>
      if b0 <? 0xE0 then
        ((b0 - 0xC0) * 64 + (b1 - 0x80)) :: utf8_decode r1
      else match r1 with
      | [] => []
      | b2 :: r2 =>
        if b0 <? 0xF0 then
          ((b0 - 0xE0) * 4096 + (b1 - 0x80) * 64 + (b2 - 0x80))
            :: utf8_decode r2
        else match r2 with
        | [] => []
        | b3 :: r3 =>
          ((b0 - 0xF0) * 262144 + (b1 - 0x80) * 4096
           + (b2 - 0x80) * 64 + (b3 - 0x80)) :: utf8_decode r3
        end
      end
    end
  end.

Fixpoint bytes_of_string (s : string) : list N :=
  match s with
  | EmptyString => []
  | String a s' => N_of_ascii a :: bytes_of_string s'
  end.

Definition lit (s : string) : list N := utf8_decode (bytes_of_string s).

(** [py"..."] is the code-point sequence of a literal, decoded when the
    definition that mentions it is elaborated. *)
Notation "'py' s" :=
  (ltac:(let v := eval vm_compute in (lit s%string) in exact v))
  (at level 1, s at level 0, only parsing).

(** [s.startswith(p)] *)
Fixpoint startswith (p s : list N) : bool :=
  match p, s with
  | [], _ => true
  | _ :: _, [] => false
  | a :: p', b :: s' => (a =? b) && startswith p' s'
  end.

(** [s.endswith(p)] *)
Definition endswith (p s : list N) : bool :=
  startswith (rev p) (rev s).

(** [needle in hay] *)
Fixpoint contains (needle hay : list N) : bool :=
  startswith needle hay ||
  match hay with
  | [] => false
  | _ :: hay' => contains needle hay'
  end.

(** [Py_UNICODE_ISSPACE]: the characters removed by [str.strip()]. *)
Definition isspace (c : N) : bool :=
  ((0x09 <=? c) && (c <=? 0x0D)) || ((0x1C <=? c) && (c <=? 0x20))
  || (c =? 0x85) || (c =? 0xA0) || (c =? 0x1680)
  || ((0x2000 <=? c) && (c <=? 0x200A))
  || (c =? 0x2028) || (c =? 0x2029) || (c =? 0x202F) || (c =? 0x205F)
  || (c =? 0x3000).

Fixpoint lstrip (s : list N) : list N :=
  match s with
  | c :: s' => if isspace c then lstrip s' else s
  | [] => []
  end.

Definition rstrip (s : list N) : list N := rev (lstrip (rev s)).

(** [s.strip()] *)
Definition strip (s : list N) : list N := rstrip (lstrip s).

(** [s.split(sep)] for a one-character separator; the result is never
    empty. *)
Fixpoint split (sep : N) (s : list N) : list (list N) :=
  match s with
  | [] => [[]]
  | c :: s' =>
    if c =? sep then [] :: split sep s'
    else match split sep s' with
         | w :: ws => (c :: w) :: ws
         | [] => [[c]]
         end
  end.

(** Scanning from the right for the last occurrence of [sep]: the reversed
    tail after it and the reversed head before it. *)
Fixpoint rbreak (sep : N) (rs : list N) (acc : list N)
  : option (list N * list N) :=
  match rs with
  | [] => None
  | c :: rs' =>
    if c =? sep then Some (rev rs', acc) else rbreak sep rs' (c :: acc)
  end.

(** [s.rsplit(sep, 1)] for a one-character separator. *)
Definition rsplit1 (sep : N) (s : list N) : list (list N) :=
  match rbreak sep (rev s) [] with
  | Some (h, t) => [h; t]
  | None => [s]
  end.

(** [str(n)] for a non-negative [int]: decimal digits, most significant
    first. *)
Definition str_of_nat (n : nat) : list N :=
  bytes_of_string (NilEmpty.string_of_uint (Nat.to_uint n)).

(** [Py_UNICODE_ISDECIMAL]: the class matched by [\d] in a [str] pattern.
    Decimal digits come in runs of ten consecutive code points; the table
    lists the zero of every run (Unicode 14.0, general category Nd). *)
Definition decimal_zeros : list N :=
  [ 0x30; 0x660; 0x6F0; 0x7C0; 0x966; 0x9E6; 0xA66; 0xAE6; 0xB66; 0xBE6;
    0xC66; 0xCE6; 0xD66; 0xDE6; 0xE50; 0xED0; 0xF20; 0x1040; 0x1090;
    0x17E0; 0x1810; 0x1946; 0x19D0; 0x1A80; 0x1A90; 0x1B50; 0x1BB0;
    0x1C40; 0x1C50; 0xA620; 0xA8D0; 0xA900; 0xA9D0; 0xA9F0; 0xAA50;
    0xABF0; 0xFF10; 0x104A0; 0x10D30; 0x11066; 0x110F0; 0x11136; 0x111D0;
    0x112F0; 0x11450; 0x114D0; 0x11650; 0x116C0; 0x11730; 0x118E0;
    0x11950; 0x11C50; 0x11D50; 0x11DA0; 0x16A60; 0x16AC0; 0x16B50;
    0x1D7CE; 0x1D7D8; 0x1D7E2; 0x1D7EC; 0x1D7F6;
    0x1E140; 0x1E2F0; 0x1E950; 0x1FBF0 ].

Definition isdecimal (c : N) : bool :=
  existsb (fun z => (z <=? c) && (c <? z + 10)) decimal_zeros.

End PyStr.

Import PyStr.

(** ** The fragment of Python's [re] used by the two scripts

    Literals, character classes, [^], concatenation, alternation, greedy
    [+] over a character class and capturing groups, run by a backtracking
    matcher in continuation-passing style: alternatives are tried left to
    right and [+] tries the longest run first, as [sre] does. *)

Module Re.

Inductive regex : Type :=
| REps
| RChar (c : N)
| RClass (p : N -> bool)
| RBol
| RSeq (r1 r2 : regex)
| RAlt (r1 r2 : regex)
| RPlus (p : N -> bool)
| RGroup (i : nat) (r : regex).

Definition captures := list (nat * list N).

Record match_obj := MatchObj {
  m_start : nat;
  m_end : nat;
  m_groups : captures
}.

(** [m.group(i)] for a group that took part in the match. *)
Fixpoint group_in (i : nat) (cs : captures) : list N :=
  match cs with
  | [] => []
  | (j, s) :: cs' => if Nat.eqb i j then s else group_in i cs'
  end.

Definition group (i : nat) (m : match_obj) : list N :=
  group_in i (m_groups m).

Section Exec.
Context {R : Type}.

Fixpoint exec_plus (p : N -> bool) (pos : nat) (s : list N)
    (k : nat -> list N -> option R) : option R :=
  match s with
  | c :: s' =>
    if p c then
      match exec_plus p (S pos) s' k with
      | Some x => Some x
      | None => k (S pos) s'
      end
    else None
  | [] => None
  end.

Fixpoint exec (r : regex) (pos : nat) (s : list N) (cs : captures)
    (k : nat -> list N -> captures -> option R) : option R :=
  match r with
  | REps => k pos s cs
  | RChar c =>
    match s with
    | x :: s' => if x =? c then k (S pos) s' cs else None
    | [] => None
    end
  | RClass p =>
    match s with
    | x :: s' => if p x then k (S pos) s' cs else None
    | [] => None
    end
  | RBol => if Nat.eqb pos 0 then k pos s cs else None
  | RSeq r1 r2 =>
    exec r1 pos s cs (fun pos' s' cs' => exec r2 pos' s' cs' k)
  | RAlt r1 r2 =>
    match exec r1 pos s cs k with
    | Some x => Some x
    | None => exec r2 pos s cs k
    end
  | RPlus p => exec_plus p pos s (fun pos' s' => k pos' s' cs)
  | RGroup i r =>
    exec r pos s cs
      (fun pos' s' cs' => k pos' s' ((i, take (pos' - pos) s) :: cs'))
  end.
End Exec.

(** A match of [r] starting exactly at offset [pos], where [s] is the rest
    of the subject from that offset. *)
Definition match_at (r : regex) (pos : nat) (s : list N) : option match_obj :=
  exec r pos s [] (fun e _ cs => Some (MatchObj pos e cs)).

(** [re.match(r, s)] *)
Definition re_match (r : regex) (s : list N) : option match_obj :=
  match_at r 0 s.

Fixpoint search_from (r : regex) (pos : nat) (s : list N) : option match_obj :=
  match match_at r pos s with
  | Some m => Some m
  | None =>
    match s with
    | [] => None
    | _ :: s' => search_from r (S pos) s'
    end
  end.

(** [re.search(r, s)]: the match at the leftmost offset that has one. *)
Definition re_search (r : regex) (s : list N) : option match_obj :=
  search_from r 0 s.

(** The truth value of what [re.match] or [re.search] returns. *)
Definition matched (m : option match_obj) : bool :=
  match m with
  | Some _ => true
  | None => false
  end.

(** A literal string. *)
Fixpoint RLit (s : list N) : regex :=
  match s with
  | [] => REps
  | [c] => RChar c
  | c :: s' => RSeq (RChar c) (RLit s')
  end.

(** [\d] and [\d{4}] *)
Definition RDigit : regex := RClass isdecimal.
Definition RDigit4 : regex := RSeq RDigit (RSeq RDigit (RSeq RDigit RDigit)).

(** [[^/]] *)
Definition not_slash (c : N) : bool := negb (c =? 0x2F).

End Re.

Import Re.

(** ** Python values

    The values [json.loads] can build, which are also the values the
    pipeline's dict literals hold. A [float] is its exact rational value, or
    one of the three special values the JSON decoder accepts. *)

Local Set Warnings "-register-all".

Inductive pyfloat : Type :=
| FFinite (q : Q)
| FNaN
| FPosInf
| FNegInf.

Inductive pyval : Type :=
| PNone
| PBool (b : bool)
| PInt (z : Z)
| PFloat (f : pyfloat)
| PStr (s : list N)
| PList (l : list pyval)
| PDict (d : list (list N * pyval)).

(** [a == b] on strings. *)
Fixpoint pystr_eqb (a b : list N) : bool :=
  match a, b with
  | [], [] => true
  | x :: a', y :: b' => (x =? y) && pystr_eqb a' b'
  | _, _ => false
  end.

(** [d.get(key)] on the association list of a dict. *)
Fixpoint dict_lookup (key : list N) (d : list (list N * pyval)) : option pyval :=
  match d with
  | [] => None
  | (k, v) :: d' => if pystr_eqb key k then Some v else dict_lookup key d'
  end.

(** [d.get(key, default)] *)
Definition dict_get (key : list N) (default : pyval) (d : list (list N * pyval))
  : pyval :=
  match dict_lookup key d with
  | Some v => v
  | None => default
  end.

(** Truth value of an object, as tested by [if x:] and [not x]. *)
Definition truthy (v : pyval) : bool :=
  match v with
  | PNone => false
  | PBool b => b
  | PInt z => negb (z =? 0)%Z
  | PFloat (FFinite q) => negb (Qeq_bool q 0)
  | PFloat _ => true
  | PStr s => match s with [] => false | _ => true end
  | PList l => match l with [] => false | _ => true end
  | PDict d => match d with [] => false | _ => true end
  end.

(** [v == s] for a string literal [s]. *)
Definition pyval_is_str (s : list N) (v : pyval) : bool :=
  match v with
  | PStr s' => pystr_eqb s' s
  | _ => false
  end.

Definition is_dict (v : pyval) : bool :=
  match v with PDict _ => true | _ => false end.

Definition is_none (v : pyval) : bool :=
  match v with PNone => true | _ => false end.

(** ** The rule engine: [fallback_rule_engine] *)

(** [(\d{4})年] *)
Definition year_pattern : regex :=
  RSeq (RGroup 1 RDigit4) (RChar 0x5E74).

(** [(\d{4})-(\d{4})] *)
Definition academic_year_pattern : regex :=
  RSeq (RGroup 1 RDigit4) (RSeq (RChar 0x2D) (RGroup 2 RDigit4)).

Definition answer_keywords : list (list N) :=
  [py"答案"; py"参考答案"; py"解答"; py"-ans"; py"含答案"; py"ans"].

Definition fallback_rule_engine (text_content file_name : list N) : pyval :=
  let exam_type :=
    if contains py"期中" text_content || contains py"期中" file_name
    then py"期中" else py"期末" in
  let semester :=
    match re_search year_pattern (text_content ++ file_name) with
    | Some year_match =>
      let year := group 1 year_match in
      let semester :=
        match re_search academic_year_pattern (text_content ++ file_name) with
        | Some academic_year_match =>
          group 1 academic_year_match ++ py"-" ++ group 2 academic_year_match
        | None => year
        end in
      let combined_text := text_content ++ file_name in
      if contains py"春季" combined_text || contains py"春" combined_text
      then semester ++ py"春季"
      else if contains py"秋季" combined_text || contains py"秋" combined_text
      then semester ++ py"秋季"
      else semester
    | None => py"未知学期"
    end in
  let combined_text := text_content ++ file_name in
  let has_answer :=
    if existsb (fun keyword => contains keyword combined_text) answer_keywords
    then py"带答案" else py"无答案" in
  PDict [ (py"exam_type", PStr exam_type);
          (py"semester", PStr semester);
          (py"has_answer", PStr has_answer);
          (py"confidence", PFloat (FFinite (1 # 2)));
          (py"reasoning", PStr py"规则引擎备选方案") ].

(** ** Effects: console, remote service, clock

    A run reads lines from standard input, sends requests to the
    classification service, sleeps and prints. The state holds what is left
    of standard input, the number of requests served so far and the trace of
    everything done, oldest event first. Printed text is recorded by the
    template it comes from, and printing always succeeds. *)

Inductive exn : Type :=
| EOFError            (* [input()] at end of input *)
| KeyError (key : list N)
| IndexError
| TypeError
| AttributeError
| OverflowError
| JSONDecodeError
| ServiceError        (* any exception out of the request itself *)
| DecoderError        (* any other exception out of [json.loads] *)
| OSError             (* out of [Path.exists()]: a name too long, for one *)
| KeyboardInterrupt.  (* Ctrl-C at [input()]; not an [Exception] *)

(** [except Exception]: every exception of the model but
    [KeyboardInterrupt]. *)
Definition is_Exception (e : exn) : bool :=
  match e with
  | KeyboardInterrupt => false
  | _ => true
  end.

(** What the console has for the next [input()]: a line, or Ctrl-C. *)
Inductive keyed : Type :=
| Line (s : list N)
| CtrlC.

Inductive prompt : Type :=
| AskConfirm          (* "是否进行人工确认? (y/N): " *)
| AskExamType         (* "考试类型 (期中/期末) [默认: 期末]: " *)
| AskSemester         (* "学期信息 [默认: 未知学期]: " *)
| AskHasAnswer.       (* "答案状态 (带答案/无答案) [默认: 无答案]: " *)

Inductive message : Type :=
| MsgNoConfig | MsgClientInitFailed
| MsgInvalidJson | MsgRawResponse (content : list N)
| MsgApiException (attempt : nat)
| MsgManualHeader (file_name : list N) | MsgContentPreview
| MsgAiAnalysis | MsgEnterInfo
| MsgProcessing (file_name : list N) | MsgUnreadable | MsgPreview
| MsgAiFailed | MsgLowConfidence | MsgAiOk | MsgBadFormat
| MsgUseRuleEngine.

Inductive event : Type :=
| EvPrint (m : message)
| EvInput (p : prompt)
| EvRequest (file_name text_content : list N)
| EvSleep (seconds : nat).

Record world := World {
  stdin : list keyed;
  served : nat;
  trace : list event
}.

(** What a computation ends in: a value, a Python exception, or a loop that
    was still running when its iteration bound ran out. *)
Inductive outcome (A : Type) : Type :=
| Ok (a : A)
| Raise (e : exn)
| Diverges.

Arguments Ok {A} a.
Arguments Raise {A} e.
Arguments Diverges {A}.

Definition io (A : Type) : Type := world -> outcome A * world.

Definition ret {A} (a : A) : io A := fun w => (Ok a, w).

Definition bind {A B} (m : io A) (f : A -> io B) : io B :=
  fun w =>
    match m w with
    | (Ok a, w') => f a w'
    | (Raise e, w') => (Raise e, w')
    | (Diverges, w') => (Diverges, w')
    end.

Definition raise {A} (e : exn) : io A := fun w => (Raise e, w).

(** [try: m  except <those e with h e = Some _>: handler] *)
Definition try_except {A} (m : io A) (h : exn -> option (io A)) : io A :=
  fun w =>
    match m w with
    | (Raise e, w') =>
      match h e with
      | Some handler => handler w'
      | None => (Raise e, w')
      end
    | r => r
    end.

Declare Scope io_scope.
Delimit Scope io_scope with io.
Notation "x <- m ;; k" := (bind m (fun x => k))
  (at level 100, m at next level, right associativity) : io_scope.
Notation "m ;; k" := (bind m (fun _ => k))
  (at level 100, right associativity) : io_scope.
Local Open Scope io_scope.

Definition emit (e : event) : io unit :=
  fun w => (Ok tt, World (stdin w) (served w) (trace w ++ [e])).

Definition print (m : message) : io unit := emit (EvPrint m).

(** [time.sleep(seconds)] *)
Definition sleep (seconds : nat) : io unit := emit (EvSleep seconds).

(** [input(p)]: the next line of standard input, [KeyboardInterrupt] when
    Ctrl-C is pressed instead, or [EOFError]. *)
Definition input (p : prompt) : io (list N) :=
  fun w =>
    match stdin w with
    | Line line :: rest =>
      (Ok line, World rest (served w) (trace w ++ [EvInput p]))
    | CtrlC :: rest =>
      (Raise KeyboardInterrupt,
       World rest (served w) (trace w ++ [EvInput p]))
    | [] => (Raise EOFError, World [] (served w) (trace w ++ [EvInput p]))
    end.

Definition lift {A} (o : outcome A) : io A := fun w => (o, w).

(** [s.lower() == 'y']: the only strings whose lower-casing is ["y"] are
    ["y"] and ["Y"]. *)
Definition lower_is_y (s : list N) : bool :=
  pystr_eqb s py"y" || pystr_eqb s py"Y".

(** The [float] literals [0.7] and [1.0] of the script, as the exact values
    of their doubles; that of [0.7] is a little below 7/10. *)
Definition float_0_7 : Q := 3152519739159347 # 4503599627370496.
Definition float_1_0 : Q := 1.

(** [v < x] for a finite [float] constant [x]: exact comparison on numbers,
    [TypeError] on anything else. *)
Definition lt_float (v : pyval) (x : Q) : outcome bool :=
  match v with
  | PBool b => Ok (negb (Qle_bool x (if b then 1 else 0)))
  | PInt z => Ok (negb (Qle_bool x (inject_Z z)))
  | PFloat (FFinite q) => Ok (negb (Qle_bool x q))
  | PFloat FNegInf => Ok true
  | PFloat FNaN | PFloat FPosInf => Ok false
  | PNone | PStr _ | PList _ | PDict _ => Raise TypeError
  end.

(** Evaluating [f"{v:.2f}"] on a number: an [int] too large for a [float]
    raises [OverflowError]; the text produced is not kept. *)
Definition format_2f (v : pyval) : outcome unit :=
  match v with
  | PInt z =>
    if (2 ^ 1024 - 2 ^ 970 <=? Z.abs z)%Z then Raise OverflowError else Ok tt
  | PBool _ | PFloat _ => Ok tt
  | PNone | PStr _ | PList _ | PDict _ => Raise TypeError
  end.

(** ** The classification pipeline of [ai_rename_exam_docs.py] *)

(** The process environment and the remote service. [respond n] is what the
    [n]-th request of the run comes back with: an exception, or a reply
    whose [message.content] is a string or [None]. *)
Inductive reply : Type :=
| ReplyRaises
| ReplyContent (content : option (list N)).

Record service := Service {
  OPENAI_BASE_URL : option (list N);
  OPENAI_API_KEY : option (list N);
  client_init_ok : bool;
  respond : nat -> reply
}.

(** [not v] for an optional string read from the environment. *)
Definition unset (v : option (list N)) : bool :=
  match v with
  | None | Some [] => true
  | Some (_ :: _) => false
  end.

(** The outcome of [json.loads]. *)
Inductive loads_result : Type :=
| Loaded (v : pyval)
| LoadsDecodeError        (* json.JSONDecodeError *)
| LoadsOtherError.        (* ValueError, RecursionError *)

(** The output directory as [Path.exists()] sees it: the finite set of the
    names that exist in it, and the names for which the lookup itself fails
    (a name longer than the file system allows, a directory that may not be
    searched). *)
Record directory := Directory {
  entries : gset (list N);
  refused : list N -> bool
}.

(** One file to process: its name, what [get_file_info] extracts from it,
    and the output directory. *)
Record file_task := FileTask {
  file_name : list N;
  extracted : list N;
  output_dir : directory
}.

(** [(output_dir / name).exists()]: [False] for a name that is not there,
    [OSError] when [stat] fails for another reason. *)
Definition exists_in (dir : directory) (name : list N) : outcome bool :=
  if refused dir name then Raise OSError
  else Ok (bool_decide (name ∈ entries dir)).

Section Pipeline.

(** [json.loads], and [str()] of an object that is not a [str]; both
    belong to the Python runtime. *)
Variable json_loads : list N -> loads_result.
Variable obj_str : pyval -> outcome (list N).

Variable svc : service.

(** [client.chat.completions.create(...)] followed by
    [response.choices[0].message.content]. *)
Definition create_completion (file_name text_content : list N)
  : io (option (list N)) :=
  fun w =>
    let w' := World (stdin w) (S (served w))
                (trace w ++ [EvRequest file_name text_content]) in
    match respond svc (served w) with
    | ReplyRaises => (Raise ServiceError, w')
    | ReplyContent c => (Ok c, w')
    end.

(** The clean-up of a Markdown code fence around the reply. *)
Definition clean_content (content : list N) : list N :=
  let content :=
    if startswith py"```json" content then drop 7 content else content in
  let content :=
    if endswith py"```" content
    then take (length content - 3) content else content in
  strip content.

Definition loads (content : list N) : io pyval :=
  match json_loads content with
  | Loaded v => ret v
  | LoadsDecodeError => raise JSONDecodeError
  | LoadsOtherError => raise DecoderError
  end.

(** One round of the retry loop of [call_ai_api] (lines 86-116): [Some v]
    when the function returns [v], [None] when the loop goes on to the next
    attempt. *)
Definition attempt_once (file_name text_content : list N) (attempt : nat)
  : io (option pyval) :=
  try_except
    (content <- create_completion file_name text_content ;;
     match content with
     | None => raise AttributeError
     | Some content =>
       try_except
         (let content := clean_content content in
          parsed_result <- loads content ;;
          ret (Some parsed_result))
         (fun e =>
            match e with
            | JSONDecodeError =>
              Some (print MsgInvalidJson ;;
                    print (MsgRawResponse (clean_content content)) ;;
                    ret None)
            | _ => None
            end)
     end)
    (fun e =>
       if is_Exception e then
         Some (print (MsgApiException attempt) ;;
               sleep (2 ^ attempt) ;;
               ret None)
       else None).

(** [for attempt in <attempts>: ...] followed by [return None]
    (lines 85-118). *)
Fixpoint retry_loop (file_name text_content : list N) (attempts : list nat)
  : io pyval :=
  match attempts with
  | [] => ret PNone
  | attempt :: rest =>
    r <- attempt_once file_name text_content attempt ;;
    match r with
    | Some parsed_result => ret parsed_result
    | None => retry_loop file_name text_content rest
    end
  end.

Definition call_ai_api (file_name text_content : list N) : io pyval :=
  if unset (OPENAI_BASE_URL svc) || unset (OPENAI_API_KEY svc) then
    print MsgNoConfig ;; ret PNone
  else if negb (client_init_ok svc) then
    print MsgClientInitFailed ;; ret PNone
  else retry_loop file_name text_content (seq 0 3).

(** [x = input(p).strip()] and then [if not x: x = default]. *)
Definition input_or_default (p : prompt) (default : list N) : io (list N) :=
  line <- input p ;;
  let answer := strip line in
  ret (match answer with [] => default | _ => answer end).

Definition manual_intervention
    (file_name text_content : list N) (ai_result : pyval) : io pyval :=
  print (MsgManualHeader file_name) ;;
  (if truthy (PStr text_content) then print MsgContentPreview else ret tt) ;;
  (if truthy ai_result then
     print MsgAiAnalysis ;;
     match ai_result with
     | PDict _ => ret tt
     | _ => raise AttributeError      (* ai_result.get *)
     end
   else ret tt) ;;
  print MsgEnterInfo ;;
  exam_type <- input_or_default AskExamType py"期末" ;;
  semester <- input_or_default AskSemester py"未知学期" ;;
  has_answer <- input_or_default AskHasAnswer py"无答案" ;;
  ret (PDict [ (py"exam_type", PStr exam_type);
               (py"semester", PStr semester);
               (py"has_answer", PStr has_answer);
               (py"confidence", PFloat (FFinite float_1_0));
               (py"reasoning", PStr py"人工介入") ]).

(** [d[key]] *)
Definition subscript (d : pyval) (key : list N) : io pyval :=
  match d with
  | PDict items =>
    match dict_lookup key items with
    | Some v => ret v
    | None => raise (KeyError key)
    end
  | _ => raise TypeError
  end.

(** [l[i]] on a list of strings. *)
Definition index (l : list (list N)) (i : nat) : io (list N) :=
  match l !! i with
  | Some x => ret x
  | None => raise IndexError
  end.

(** [f"{v}"] *)
Definition format_value (v : pyval) : io (list N) :=
  match v with
  | PStr s => ret s
  | _ => lift (obj_str v)
  end.

(** The duplicate-name loop (lines 265-268), run for at most [fuel] tests
    of the directory. *)
Fixpoint dedup_loop (fuel : nat) (dir : directory)
    (new_name : list N) (counter : nat) (final_name : list N)
  : io (list N) :=
  match fuel with
  | O => lift Diverges
  | S fuel' =>
    present <- lift (exists_in dir final_name) ;;
    if (present : bool) then
      let name_parts := rsplit1 0x2E new_name in
      stem <- index name_parts 0 ;;
      ext <- index name_parts 1 ;;
      let final_name := stem ++ py"_" ++ str_of_nat counter ++ py"." ++ ext in
      dedup_loop fuel' dir new_name (S counter) final_name
    else ret final_name
  end.

(** Lines 263-268. The directory is finite, so one test more than it has
    entries always ends the loop. *)
Definition unique_name (dir : directory) (new_name : list N)
  : io (list N) :=
  dedup_loop (S (size (entries dir))) dir new_name 1 new_name.

(** From [final_result] to the name the file is written under
    (lines 252-268). *)
Definition build_name (dir : directory) (final_result : pyval)
  : io (list N) :=
  exam_type <- subscript final_result py"exam_type" ;;
  semester <- subscript final_result py"semester" ;;
  has_answer <- subscript final_result py"has_answer" ;;
  exam_type <- format_value exam_type ;;
  semester <- format_value semester ;;
  let new_name :=
    if pyval_is_str py"带答案" has_answer
    then exam_type ++ py"-" ++ semester ++ py"-带答案.pdf"
    else exam_type ++ py"-" ++ semester ++ py"-无答案.pdf" in
  unique_name dir new_name.

(** The decision taken on the service's answer when manual review is not
    forced (lines 226-240): the new value of [use_manual]. *)
Definition escalation (ai_result : pyval) : io bool :=
  if is_none ai_result then
    print MsgAiFailed ;; ret true
  else
    match ai_result with
    | PDict d =>
      let confidence := dict_get py"confidence" (PInt 0) d in
      low <- lift (lt_float confidence float_0_7) ;;
      if (low : bool) then
        lift (format_2f confidence) ;;
        print MsgLowConfidence ;;
        line <- input AskConfirm ;;
        let confirm := strip line in
        if lower_is_y confirm then ret true else ret false
      else
        lift (format_2f confidence) ;;
        print MsgAiOk ;;
        ret false
    | _ => print MsgBadFormat ;; ret true
    end.

(** [process_file_with_ai] up to the choice of the output name (lines
    203-270); returns [final_result] and [final_name]. *)
Definition process_file_with_ai (f : file_task) (force_manual : bool)
  : io (pyval * list N) :=
  print (MsgProcessing (file_name f)) ;;
  let text_content := extracted f in
  text_content <-
    (if negb (truthy (PStr (strip text_content)))
     then print MsgUnreadable ;; ret (file_name f)
     else ret text_content) ;;
  print MsgPreview ;;
  decided <-
    (if negb force_manual then
       ai_result <- call_ai_api (file_name f) text_content ;;
       use_manual <- escalation ai_result ;;
       ret (ai_result, use_manual)
     else ret (PNone, force_manual)) ;;
  let ai_result := fst decided in
  let use_manual := snd decided in
  final_result <-
    (if (use_manual : bool) then
       manual_intervention (file_name f) text_content ai_result
     else if truthy ai_result && is_dict ai_result then
       ret ai_result
     else
       print MsgUseRuleEngine ;;
       ret (fallback_rule_engine text_content (file_name f))) ;;
  final_name <- build_name (output_dir f) final_result ;;
  ret (final_result, final_name).

End Pipeline.

(** ** A reference Python runtime for the worked examples

    The theorems below hold for every [json_loads] and [obj_str]. The
    examples run the pipeline on concrete replies, and use this decoder:
    the default [json.loads] on a [str] (strict mode, [NaN] and [Infinity]
    accepted, a repeated key keeps its first position and its last value),
    with the two limits of CPython 3.11 at its default settings: an [int]
    literal of more than 4300 digits raises [ValueError], and inside
    [call_ai_api], itself called from [process_file_with_ai] and [main], a
    container nested in 992 others raises [RecursionError]. *)

Module Json.

(** What scanning a piece of the document gives: a value and the rest, a
    [JSONDecodeError], or one of the two other exceptions. *)
Inductive scan (A : Type) : Type :=
| Scanned (a : A)
| Malformed
| Refused.
Arguments Scanned {A} a.
Arguments Malformed {A}.
Arguments Refused {A}.

(** [sys.get_int_max_str_digits()] *)
Definition max_str_digits : nat := 4300.

(** The containers that may be open at once: [sys.getrecursionlimit()],
    1000, less the frames in use when the scanner starts. *)
Definition max_nesting : nat := 992.

Definition is_ws (c : N) : bool :=
  (c =? 0x20) || (c =? 0x09) || (c =? 0x0A) || (c =? 0x0D).

Fixpoint skip_ws (s : list N) : list N :=
  match s with
  | c :: s' => if is_ws c then skip_ws s' else s
  | [] => []
  end.

Definition is_digit (c : N) : bool := (0x30 <=? c) && (c <=? 0x39).

(** A run of ASCII digits: its value after [acc], how many there were, and
    the rest. *)
Fixpoint digits (s : list N) (acc : Z) (n : nat) : Z * nat * list N :=
  match s with
  | c :: s' =>
    if is_digit c then digits s' (10 * acc + Z.of_N (c - 0x30))%Z (S n)
    else (acc, n, s)
  | [] => (acc, n, [])
  end.

Definition hex_value (c : N) : option N :=
  if is_digit c then Some (c - 0x30)
  else if (0x41 <=? c) && (c <=? 0x46) then Some (c - 0x41 + 10)
  else if (0x61 <=? c) && (c <=? 0x66) then Some (c - 0x61 + 10)
  else None.

Definition hex4 (s : list N) : option (N * list N) :=
  match s with
  | a :: b :: c :: d :: rest =>
    match hex_value a, hex_value b, hex_value c, hex_value d with
    | Some a, Some b, Some c, Some d =>
      Some (((a * 16 + b) * 16 + c) * 16 + d, rest)
    | _, _, _, _ => None
    end
  | _ => None
  end.

(** Round a rational to the nearest binary64 value, ties to even. *)
Definition round_half_even (a : Z) (b : Z) : Z :=
  let fl := (a / b)%Z in
  let r := (a mod b)%Z in
  match (2 * r ?= b)%Z with
  | Lt => fl
  | Gt => (fl + 1)%Z
  | Eq => if Z.even fl then fl else (fl + 1)%Z
  end.

Definition round_pos (n d : Z) : pyfloat :=
  let e0 := (Z.log2 n - Z.log2 d)%Z in
  let ge :=
    if (0 <=? e0)%Z then (d * 2 ^ e0 <=? n)%Z else (d <=? n * 2 ^ (- e0))%Z in
  let e := if ge then e0 else (e0 - 1)%Z in
  let u := Z.max (e - 52) (-1074) in
  let m :=
    if (0 <=? u)%Z then round_half_even n (d * 2 ^ u)
    else round_half_even (n * 2 ^ (- u)) d in
  if (0 <=? u)%Z then
    if (2 ^ 1024 <=? m * 2 ^ u)%Z then FPosInf
    else FFinite (inject_Z (m * 2 ^ u))
  else FFinite (Qred (Qmake m (Z.to_pos (2 ^ (- u))))).

Definition round_binary64 (n d : Z) : pyfloat :=
  if (n =? 0)%Z then FFinite 0
  else if (0 <? n)%Z then round_pos n d
  else match round_pos (- n) d with
       | FFinite q => FFinite (Qred (- q))
       | FPosInf => FNegInf
       | f => f
       end.

(** A number: an optional minus sign, an integer part without leading zeros,
    an optional fraction and an optional exponent, all in ASCII digits. It is
    an [int] when it has neither fraction nor exponent, else a [float]. *)
Definition number (s : list N) : scan (pyval * list N) :=
  let '(neg, s1) :=
    match s with
    | 0x2D :: r => (true, r)
    | _ => (false, s)
    end in
  let int_part :=
    match s1 with
    | 0x30 :: r => Some (0%Z, 1%nat, r)
    | c :: _ =>
      if is_digit c then Some (digits s1 0 0) else None
    | [] => None
    end in
  match int_part with
  | None => Malformed
  | Some (i, id, s2) =>
    let '(has_frac, f, fd, s3) :=
      match s2 with
      | 0x2E :: r =>
        let '(v, n, r') := digits r 0 0 in
        match n with
        | O => (false, 0%Z, O, s2)
        | _ => (true, v, n, r')
        end
      | _ => (false, 0%Z, O, s2)
      end in
    let '(has_exp, e, s4) :=
      match s3 with
      | c :: r =>
        if (c =? 0x65) || (c =? 0x45) then
          let '(sgn, r1) :=
            match r with
            | 0x2D :: r1 => ((-1)%Z, r1)
            | 0x2B :: r1 => (1%Z, r1)
            | _ => (1%Z, r)
            end in
          let '(v, n, r2) := digits r1 0 0 in
          match n with
          | O => (false, 0%Z, s3)
          | _ => (true, (sgn * v)%Z, r2)
          end
        else (false, 0%Z, s3)
      | [] => (false, 0%Z, s3)
      end in
    if has_frac || has_exp then
      let mant := (i * 10 ^ Z.of_nat fd + f)%Z in
      let e10 := (e - Z.of_nat fd)%Z in
      let '(n, d) :=
        if (0 <=? e10)%Z then ((mant * 10 ^ e10)%Z, 1%Z)
        else (mant, (10 ^ (- e10))%Z) in
      Scanned (PFloat (round_binary64 (if neg then - n else n)%Z d), s4)
    else if (max_str_digits <? id)%nat then Refused
    else Scanned (PInt (if neg then - i else i)%Z, s4)
  end.

(** The body of a string, after the opening quote. *)
Fixpoint string_body (fuel : nat) (s : list N) (acc : list N)
  : option (list N * list N) :=
  match fuel with
  | O => None
  | S fuel' =>
    match s with
    | [] => None
    | 0x22 :: rest => Some (rev acc, rest)
    | 0x5C :: esc :: rest =>
      let simple (c : N) := string_body fuel' rest (c :: acc) in
      if esc =? 0x22 then simple 0x22
      else if esc =? 0x5C then simple 0x5C
      else if esc =? 0x2F then simple 0x2F
      else if esc =? 0x62 then simple 0x08
      else if esc =? 0x66 then simple 0x0C
      else if esc =? 0x6E then simple 0x0A
      else if esc =? 0x72 then simple 0x0D
      else if esc =? 0x74 then simple 0x09
      else if esc =? 0x75 then
        match hex4 rest with
        | None => None
        | Some (hi, rest1) =>
          let lone := string_body fuel' rest1 (hi :: acc) in
          if (0xD800 <=? hi) && (hi <=? 0xDBFF) then
            match rest1 with
            | 0x5C :: 0x75 :: rest2 =>
              match hex4 rest2 with
              | Some (lo, rest3) =>
                if (0xDC00 <=? lo) && (lo <=? 0xDFFF) then
                  string_body fuel' rest3
                    ((0x10000 + (hi - 0xD800) * 1024 + (lo - 0xDC00)) :: acc)
                else lone
              | None => lone
              end
            | _ => lone
            end
          else lone
        end
      else None
    | 0x5C :: [] => None
    | c :: rest => if c <? 0x20 then None else string_body fuel' rest (c :: acc)
    end
  end.

(** Storing a key: a repeated key keeps its position and takes the new
    value. *)
Fixpoint dict_set (k : list N) (v : pyval) (d : list (list N * pyval))
  : list (list N * pyval) :=
  match d with
  | [] => [(k, v)]
  | (k', v') :: d' =>
    if pystr_eqb k k' then (k', v) :: d' else (k', v') :: dict_set k v d'
  end.

Section Containers.
(** The scanner for one value, used for elements and members. *)
Variable value : list N -> scan (pyval * list N).

(** After a first element has been seen to start. *)
Fixpoint elements (fuel : nat) (s : list N) (acc : list pyval)
  : scan (pyval * list N) :=
  match fuel with
  | O => Malformed
  | S fuel' =>
    match value s with
    | Malformed => Malformed
    | Refused => Refused
    | Scanned (v, rest) =>
      match skip_ws rest with
      | 0x5D :: rest' => Scanned (PList (rev (v :: acc)), rest')
      | 0x2C :: rest' => elements fuel' (skip_ws rest') (v :: acc)
      | _ => Malformed
      end
    end
  end.

Fixpoint members (fuel : nat) (s : list N) (acc : list (list N * pyval))
  : scan (pyval * list N) :=
  match fuel with
  | O => Malformed
  | S fuel' =>
    match s with
    | 0x22 :: body =>
      match string_body (length body) body [] with
      | None => Malformed
      | Some (key, rest) =>
        match skip_ws rest with
        | 0x3A :: rest1 =>
          match value (skip_ws rest1) with
          | Malformed => Malformed
          | Refused => Refused
          | Scanned (v, rest2) =>
            let acc := dict_set key v acc in
            match skip_ws rest2 with
            | 0x7D :: rest3 => Scanned (PDict acc, rest3)
            | 0x2C :: rest3 => members fuel' (skip_ws rest3) acc
            | _ => Malformed
            end
          end
        | _ => Malformed
        end
      end
    | _ => Malformed
    end
  end.
End Containers.

(** One value, with [depth] containers still allowed to open. *)
Fixpoint value (depth : nat) (s : list N) : scan (pyval * list N) :=
  match s with
  | 0x22 :: body =>
    match string_body (length body) body [] with
    | Some (str, rest) => Scanned (PStr str, rest)
    | None => Malformed
    end
  | 0x7B :: rest =>
    match depth with
    | O => Refused
    | S depth' =>
      match skip_ws rest with
      | 0x7D :: rest' => Scanned (PDict [], rest')
      | rest' => members (value depth') (length rest') rest' []
      end
    end
  | 0x5B :: rest =>
    match depth with
    | O => Refused
    | S depth' =>
      match skip_ws rest with
      | 0x5D :: rest' => Scanned (PList [], rest')
      | rest' => elements (value depth') (length rest') rest' []
      end
    end
  | _ =>
    if startswith py"null" s then Scanned (PNone, drop 4 s)
    else if startswith py"true" s then Scanned (PBool true, drop 4 s)
    else if startswith py"false" s then Scanned (PBool false, drop 5 s)
    else match number s with
    | Scanned r => Scanned r
    | Refused => Refused
    | Malformed =>
      if startswith py"NaN" s then Scanned (PFloat FNaN, drop 3 s)
      else if startswith py"Infinity" s
      then Scanned (PFloat FPosInf, drop 8 s)
      else if startswith py"-Infinity" s
      then Scanned (PFloat FNegInf, drop 9 s)
      else Malformed
    end
  end.

(** [json.loads(s)] *)
Definition loads (s : list N) : loads_result :=
  match value max_nesting (skip_ws s) with
  | Scanned (v, rest) =>
    match skip_ws rest with
    | [] => Loaded v
    | _ => LoadsDecodeError
    end
  | Malformed => LoadsDecodeError
  | Refused => LoadsOtherError
  end.

End Json.

(** [str()] of the objects whose text is immediate: [None], [bool], [int]
    and the special floats. No example below formats another object; on
    those the function returns the empty string. *)
Definition str_of_scalar (v : pyval) : outcome (list N) :=
  match v with
  | PNone => Ok py"None"
  | PBool true => Ok py"True"
  | PBool false => Ok py"False"
  | PInt z =>
    Ok (if (z <? 0)%Z then py"-" ++ str_of_nat (Z.abs_nat z)
        else str_of_nat (Z.abs_nat z))
  | PFloat FNaN => Ok py"nan"
  | PFloat FPosInf => Ok py"inf"
  | PFloat FNegInf => Ok py"-inf"
  | _ => Ok []
  end.

(** ** The path checker of [scripts/path_validity_checker.py] *)

Module PathChecker.

(** [fold] of [RSeq] over the pieces of a pattern. *)
Definition rcat (rs : list regex) : regex := foldr RSeq REps rs.

Definition exam_group : regex := RGroup 1 (RAlt (RLit py"期中") (RLit py"期末")).

(** [^[^/]+/试卷/(期中|期末)-\d{4}-\d{4}学年第(一|二)学期] *)
Definition exam_pattern1 : regex :=
  rcat [ RBol; RPlus not_slash; RLit py"/试卷/"; exam_group;
         RChar 0x2D; RDigit4; RChar 0x2D; RDigit4; RLit py"学年第";
         RGroup 2 (RAlt (RLit py"一") (RLit py"二")); RLit py"学期" ].

(** [[0-9\-]] *)
Definition digit_or_dash (c : N) : bool :=
  ((0x30 <=? c) && (c <=? 0x39)) || (c =? 0x2D).

(** [^[^/]+/试卷/(期中|期末)-([0-9\-])级] *)
Definition exam_pattern2 : regex :=
  rcat [ RBol; RPlus not_slash; RLit py"/试卷/"; exam_group;
         RChar 0x2D; RGroup 2 (RClass digit_or_dash); RLit py"级" ].

(** [\d{4}(春|秋)] *)
Definition term_pattern : regex :=
  rcat [ RDigit4; RGroup 1 (RAlt (RLit py"春") (RLit py"秋")) ].

(** [^[^/]+/[^/]+/[^/]+/(课件|作业)] *)
Definition folder_pattern : regex :=
  rcat [ RBol; RPlus not_slash; RChar 0x2F; RPlus not_slash; RChar 0x2F;
         RPlus not_slash; RChar 0x2F;
         RGroup 1 (RAlt (RLit py"课件") (RLit py"作业")) ].

(** [\d{2}-[^/]+] *)
Definition slide_pattern : regex :=
  rcat [ RDigit; RDigit; RChar 0x2D; RPlus not_slash ].

Definition obind {A B} (m : outcome A) (f : A -> outcome B) : outcome B :=
  match m with
  | Ok a => f a
  | Raise e => Raise e
  | Diverges => Diverges
  end.

Declare Scope out_scope.
Delimit Scope out_scope with out.
Notation "x <- m ;; k" := (obind m (fun x => k))
  (at level 100, m at next level, right associativity) : out_scope.
Local Open Scope out_scope.

(** [l[i]] *)
Definition item (l : list (list N)) (i : nat) : outcome (list N) :=
  match l !! i with
  | Some x => Ok x
  | None => Raise IndexError
  end.

(** [l[-1]] *)
Definition last_item (l : list (list N)) : outcome (list N) :=
  match last l with
  | Some x => Ok x
  | None => Raise IndexError
  end.

(** [re.match(pattern)]: the call of line 23, which leaves out the string
    to match and so raises [TypeError] whatever the pattern. *)
Definition re_match_without_string (r : regex) : outcome (option match_obj) :=
  Raise TypeError.

(** [x in l] on strings. *)
Definition in_list (x : list N) (l : list (list N)) : bool :=
  existsb (pystr_eqb x) l.

(** A returned pair, or [None] where the function runs off its end. *)
Definition verdict : Type := option (bool * list N).

Definition checker (file_path : list N) : outcome verdict :=
  let splitted_path := split 0x2F file_path in
  if (length splitted_path <? 2)%nat then Ok (Some (true, py"跳过"))
  else
  top <- item splitted_path 0 ;;
  if in_list top [py".git"; py".github"; py"script"]
  then Ok (Some (true, py"跳过"))
  else
  second <- item splitted_path 1 ;;
  if pystr_eqb second py"试卷" then
    name <- last_item splitted_path ;;
    if matched (re_match exam_pattern1 name) then Ok (Some (true, py"试卷"))
    else
    name <- last_item splitted_path ;;
    if matched (re_match exam_pattern2 name) then Ok (Some (true, py"试卷"))
    else
    name <- last_item splitted_path ;;
    Ok (Some (false, py"试卷命名 " ++ name ++ py" 不符合规范"))
  else if pystr_eqb second py"笔记" then
    Ok (Some (true, py"课程笔记"))
  else
  term <- re_match_without_string term_pattern ;;
  if matched term then
    if (length splitted_path =? 3)%nat then Ok (Some (true, py"文件"))
    else if negb (matched (re_match folder_pattern file_path))
    then Ok (Some (false, py"课件/作业文件夹命名不符合命名规范"))
    else
    folder <- item splitted_path 3 ;;
    if pystr_eqb folder py"课件" then
      name <- last_item splitted_path ;;
      if matched (re_match slide_pattern name)
      then Ok (Some (false, py"课件命名 " ++ name ++ py" 不符合规范"))
      else Ok (Some (true, py"课件"))
    else
    folder <- item splitted_path 3 ;;
    if pystr_eqb folder py"作业" then Ok (Some (true, py"作业"))
    else Ok None
  else if (length splitted_path =? 2)%nat then Ok (Some (true, py"文件"))
  else
  second <- item splitted_path 1 ;;
  Ok (Some (false, py"二级目录 " ++ second ++ py" 不符合命名规范")).

End PathChecker.

(** ** Vocabulary of the statements *)

(** Reading a field of a result. *)
Definition field (key : list N) (result : pyval) : option pyval :=
  match result with
  | PDict d => dict_lookup key d
  | _ => None
  end.

(** The sentence of the keyword test. *)
Definition keyword_sentence : list N := py"2023-2024学年第一学期 期中 含答案".

(** Four decimal digits. *)
Definition digits4 (y : list N) : Prop :=
  length y = 4%nat /\ forallb isdecimal y = true.

(** A year token at offset [i] of [s]: four digits followed by [年]. *)
Definition year_token_at (s : list N) (i : nat) (y : list N) : Prop :=
  digits4 y /\ exists rest, drop i s = y ++ py"年" ++ rest.

(** An academic-year token "YYYY-YYYY" at offset [i] of [s]. *)
Definition academic_year_at (s : list N) (i : nat) (a b : list N) : Prop :=
  digits4 a /\ digits4 b /\ exists rest, drop i s = a ++ py"-" ++ b ++ rest.

(** The season suffix the rule engine appends to a semester. *)
Definition season_suffix (combined_text : list N) : list N :=
  if contains py"春" combined_text then py"春季"
  else if contains py"秋" combined_text then py"秋季"
  else [].

(** The prompts among the events of a trace, and the waits. *)
Definition prompts_in (t : list event) : list prompt :=
  omap (fun e => match e with EvInput p => Some p | _ => None end) t.

Definition sleeps_in (t : list event) : list nat :=
  omap (fun e => match e with EvSleep n => Some n | _ => None end) t.

Definition requests_in (t : list event) : nat :=
  length (omap (fun e => match e with EvRequest _ _ => Some tt | _ => None end) t).

(** The result [manual_intervention] builds from the three lines typed. *)
Definition or_default (line default : list N) : list N :=
  let answer := strip line in
  match answer with
  | [] => default
  | _ => answer
  end.

Definition manual_result (l1 l2 l3 : list N) : pyval :=
  PDict [ (py"exam_type", PStr (or_default l1 py"期末"));
          (py"semester", PStr (or_default l2 py"未知学期"));
          (py"has_answer", PStr (or_default l3 py"无答案"));
          (py"confidence", PFloat (FFinite 1));
          (py"reasoning", PStr py"人工介入") ].

(** A dict shaped as the data model's ClassificationResult. *)
Definition ClassificationResult_shaped (d : list (list N * pyval)) : Prop :=
  exists e s h c r,
    dict_lookup py"exam_type" d = Some (PStr e)
    /\ (e = py"期中" \/ e = py"期末")
    /\ dict_lookup py"semester" d = Some (PStr s)
    /\ dict_lookup py"has_answer" d = Some (PStr h)
    /\ (h = py"带答案" \/ h = py"无答案")
    /\ dict_lookup py"confidence" d = Some (PFloat (FFinite c))
    /\ (0 <= c)%Q /\ (c <= 1)%Q
    /\ dict_lookup py"reasoning" d = Some (PStr r).

(** [confidence] is a finite float, at least [x]. *)
Definition confidence_at_least (x : Q) (d : list (list N * pyval)) : Prop :=
  exists c,
    dict_lookup py"confidence" d = Some (PFloat (FFinite c)) /\ (x <= c)%Q.

(** The state in which [process_file_with_ai] reaches its classification
    step, and the text it classifies. *)
Definition effective_text (f : file_task) : list N :=
  if negb (truthy (PStr (strip (extracted f)))) then file_name f
  else extracted f.

(** The rest of [process_file_with_ai] once [ai_result] and [use_manual]
    are known (lines 242-270): the choice of [final_result] and of the
    output name. *)
Definition finish (obj_str : pyval -> outcome (list N)) (f : file_task)
    (ai_result : pyval) (use_manual : bool) : io (pyval * list N) :=
  final_result <-
    (if use_manual then
       manual_intervention (file_name f) (effective_text f) ai_result
     else if truthy ai_result && is_dict ai_result then
       ret ai_result
     else
       print MsgUseRuleEngine ;;
       ret (fallback_rule_engine (effective_text f) (file_name f))) ;;
  final_name <- build_name obj_str (output_dir f) final_result ;;
  ret (final_result, final_name).

Definition after_preamble (f : file_task) (w : world) : world :=
  World (stdin w) (served w)
    (trace w ++ [EvPrint (MsgProcessing (file_name f))]
       ++ (if negb (truthy (PStr (strip (extracted f))))
           then [EvPrint MsgUnreadable] else [])
       ++ [EvPrint MsgPreview]).

(** The names the duplicate-name loop tries, in order: the base name, then
    the stem with [_1], [_2], ... before the extension. *)
Definition candidate (stem : list N) (k : nat) : list N :=
  match k with
  | O => stem ++ py".pdf"
  | S _ => stem ++ py"_" ++ str_of_nat k ++ py".pdf"
  end.

(** The stem of the name built from the three naming fields. *)
Definition name_stem (e s h : list N) : list N :=
  e ++ py"-" ++ s ++ py"-"
    ++ (if pystr_eqb h py"带答案" then py"带答案" else py"无答案").

(** How the choice of a name ends once the loop has stopped at [name]:
    with [OSError] when [name] cannot be looked up, else with the result
    under that name. *)
Definition named {A} (dir : directory) (name : list N) (r : A)
  : outcome (A * list N) :=
  if refused dir name then Raise OSError else Ok (r, name).

(** Every name the loop can come to try for [stem] can be looked up in
    [dir]: the loop tests at most one candidate more than the directory has
    entries. *)
Definition lookups_succeed (dir : directory) (stem : list N) : Prop :=
  forall k, (k <= size (entries dir))%nat ->
            refused dir (candidate stem k) = false.

(** What reading [n] lines from the console ends in when it cannot give
    them: [KeyboardInterrupt] at a Ctrl-C, [EOFError] at the end. *)
Fixpoint console_exn (n : nat) (items : list keyed) : option exn :=
  match n with
  | O => None
  | S n' =>
    match items with
    | [] => Some EOFError
    | CtrlC :: _ => Some KeyboardInterrupt
    | Line _ :: items' => console_exn n' items'
    end
  end.

(** The retry budget in the words of the specification: what each attempt
    comes to, and from that the value returned, the requests sent and the
    waits. *)
Inductive attempt_class : Type :=
| Succeeds (v : pyval)
| Malformed
| Fails.

Definition classify_reply (json_loads : list N -> loads_result) (r : reply)
  : attempt_class :=
  match r with
  | ReplyRaises | ReplyContent None => Fails
  | ReplyContent (Some content) =>
    match json_loads (clean_content content) with
    | Loaded v => Succeeds v
    | LoadsDecodeError => Malformed
    | LoadsOtherError => Fails
    end
  end.

Fixpoint budget (attempt : nat) (cls : list attempt_class)
  : pyval * nat * list nat :=
  match cls with
  | [] => (PNone, O, [])
  | Succeeds v :: _ => (v, 1%nat, [])
  | Malformed :: rest =>
    let '(v, n, waits) := budget (S attempt) rest in (v, S n, waits)
  | Fails :: rest =>
    let '(v, n, waits) := budget (S attempt) rest in
    (v, S n, (2 ^ attempt)%nat :: waits)
  end.

Definition configured (svc : service) : Prop :=
  unset (OPENAI_BASE_URL svc) = false /\ unset (OPENAI_API_KEY svc) = false
  /\ client_init_ok svc = true.

(** The events [call_ai_api] can add to the trace, and those of the manual
    review. *)
Definition api_event (e : event) : bool :=
  match e with
  | EvRequest _ _ | EvSleep _ => true
  | EvPrint (MsgNoConfig | MsgClientInitFailed | MsgInvalidJson
             | MsgRawResponse _ | MsgApiException _) => true
  | _ => false
  end.

Definition manual_event (e : event) : bool :=
  match e with
  | EvInput (AskExamType | AskSemester | AskHasAnswer) => true
  | EvPrint (MsgManualHeader _ | MsgContentPreview | MsgAiAnalysis
             | MsgEnterInfo) => true
  | _ => false
  end.

(** Every event but the notice that the rule engine is being used. *)
Definition not_rule_engine_notice (e : event) : bool :=
  match e with
  | EvPrint MsgUseRuleEngine => false
  | _ => true
  end.

(** [adds P m]: whatever [m] does, it only appends events satisfying [P]. *)
Definition adds {A} (P : event -> bool) (m : io A) : Prop :=
  forall w, exists t,
    trace (snd (m w)) = trace w ++ t /\ forallb P t = true.

(** ** Inputs of the worked examples *)

Module Examples.

(** A configured service that answers every request with [content]. *)
Definition always (content : list N) : service :=
  Service (Some py"https://example.invalid/v1") (Some py"key") true
    (fun _ => ReplyContent (Some content)).

(** A configured service whose every request raises. *)
Definition unreachable : service :=
  Service (Some py"https://example.invalid/v1") (Some py"key") true
    (fun _ => ReplyRaises).

(** A transport failure, then a malformed reply, then an empty object. *)
Definition flaky : service :=
  Service (Some py"https://example.invalid/v1") (Some py"key") true
    (fun n =>
       match n with
       | O => ReplyRaises
       | S O => ReplyContent (Some py"Sorry, I cannot classify this.")
       | _ => ReplyContent (Some py"{}")
       end).

(** JSON text is written with ['] standing for the double quote. *)
Definition json (s : list N) : list N :=
  map (fun c => if c =? 0x27 then 0x22 else c) s.

(** A directory in which every name can be looked up. *)
Definition folder (names : gset (list N)) : directory :=
  Directory names (fun _ => false).

(** A scanned paper with no extractable text, and an empty output
    directory. *)
Definition scan : file_task := FileTask py"scan.pdf" [] (folder ∅).

(** A console on which the given lines are typed. *)
Definition console (lines : list (list N)) : world :=
  World (map Line lines) 0 [].

End Examples.

(** ** Further vocabulary *)

(** A string with no white space at either end. *)
Definition stripped (s : list N) : Prop :=
  (forall x t, s = x :: t -> isspace x = false)
  /\ (forall t x, s = t ++ [x] -> isspace x = false).

(** Total time slept. *)
Definition total_sleep (t : list event) : nat :=
  foldr Nat.add 0%nat (sleeps_in t).

(** [halts m]: [m] never runs past an iteration bound. *)
Definition halts {A} (m : io A) : Prop :=
  forall w, fst (m w) <> Diverges.

(** The objects that cannot be compared with a [float]. *)
Definition not_a_number (v : pyval) : bool :=
  match v with
  | PNone | PStr _ | PList _ | PDict _ => true
  | PBool _ | PInt _ | PFloat _ => false
  end.

(** [f"{v}"] without the state. *)
Definition text_of (obj_str : pyval -> outcome (list N)) (v : pyval)
  : outcome (list N) :=
  match v with
  | PStr s => Ok s
  | _ => obj_str v
  end.

(** The stem of the name of a result (lines 252-261): its [exam_type] and
    [semester] as formatted, and the answer tag; [None] when a field is
    missing or cannot be formatted. *)
Definition result_stem (obj_str : pyval -> outcome (list N)) (r : pyval)
  : option (list N) :=
  match r with
  | PDict d =>
    match dict_lookup py"exam_type" d, dict_lookup py"semester" d,
          dict_lookup py"has_answer" d with
    | Some ve, Some vs, Some vh =>
      match text_of obj_str ve, text_of obj_str vs with
      | Ok e, Ok s =>
        Some (e ++ py"-" ++ s
                ++ (if pyval_is_str py"带答案" vh
                    then py"-带答案" else py"-无答案"))
      | _, _ => None
      end
    | _, _, _ => None
    end
  | _ => None
  end.

(** ** The command line of the checker ([main] of path_validity_checker.py) *)

Module CheckerMain.

(** [s.replace(old, new)] for one-character [old] and [new]. *)
Definition replace (old new : N) (s : list N) : list N :=
  map (fun c => if c =? old then new else c) s.

Definition usage_line : list N :=
  py"Usage: check_paths.py <file1> <file2> ...".

(** The strings printed after the loop; the first and the third start with
    a line feed. *)
Definition invalid_header : list N :=
  10 :: py"❌ Invalid file paths detected:".

Definition report_line (f r : list N) : list N :=
  py"  - " ++ f ++ py" (" ++ r ++ py")".

Definition warning_line : list N :=
  10 :: py"::warning title=Invalid File Paths::Some files do not follow the required structure.".

Definition guide_line : list N := py"Please refer to the contribution guide.".

Definition valid_line : list N := py"🎉 All file paths are valid!".

Section Main.

(** [Path(path_str).exists()], which can itself raise (a permission error on
    a parent directory, for one). *)
Variable path_exists : list N -> outcome bool.

(** The loop of lines 48-57 over [sys.argv[1:]], with the list it appends
    to.  [is_valid, reason = checker(...)] cannot unpack [None]. *)
Fixpoint check_paths (paths : list (list N))
    (invalid_files : list (list N * list N))
  : outcome (list (list N * list N)) :=
  match paths with
  | [] => Ok invalid_files
  | path_str :: paths' =>
    PathChecker.obind (path_exists path_str) (fun present =>
    if negb present then check_paths paths' invalid_files
    else
    PathChecker.obind
      (PathChecker.checker (replace 0x5C 0x2F path_str)) (fun v =>
    match v with
    | None => Raise TypeError
    | Some (is_valid, reason) =>
      if negb is_valid
      then check_paths paths' (invalid_files ++ [(path_str, reason)])
      else check_paths paths' invalid_files
    end))
  end.

(** [main()]: what it prints, one string for each [print], and how it ends.
    [sys.exit(status=0)] raises [TypeError], since [sys.exit] takes no
    keyword argument. *)
Definition main (argv : list (list N)) : list (list N) * outcome unit :=
  if (length argv <? 2)%nat then ([usage_line], Raise TypeError)
  else
  match check_paths (tail argv) [] with
  | Ok [] => ([valid_line], Ok tt)
  | Ok invalid_files =>
    ([invalid_header]
       ++ map (fun fr => report_line (fst fr) (snd fr)) invalid_files
       ++ [warning_line; guide_line],
     Ok tt)
  | Raise e => ([], Raise e)
  | Diverges => ([], Diverges)
  end.

End Main.

End CheckerMain.

(** Where the checker files a path: by its first two components only. *)
Inductive place : Type :=
| Skipped
| ExamPaper (name : list N)
| Notes
| CourseFile.

Definition place_of (file_path : list N) : place :=
  match split 0x2F file_path with
  | top :: second :: rest =>
    if PathChecker.in_list top [py".git"; py".github"; py"script"]
    then Skipped
    else if pystr_eqb second py"试卷" then ExamPaper (List.last rest second)
    else if pystr_eqb second py"笔记" then Notes
    else CourseFile
  | _ => Skipped
  end.

(** A command-line argument that names a course file, and the complaint
    about one that names an exam paper. *)
Definition course_file (path_str : list N) : bool :=
  match place_of (CheckerMain.replace 0x5C 0x2F path_str) with
  | CourseFile => true
  | _ => false
  end.

Definition complaint (path_str : list N) : option (list N * list N) :=
  match place_of (CheckerMain.replace 0x5C 0x2F path_str) with
  | ExamPaper name =>
    Some (path_str, py"试卷命名 " ++ name ++ py" 不符合规范")
  | _ => None
  end.

(** ** Reading the head of a document (lines 16-49) *)

Module Extract.

(** What a call into PyPDF2 or python-docx gives: a value, or an
    [Exception] with its message.  ([KeyboardInterrupt] and the like are not
    [Exception]s and are left out.) *)
Inductive attempt (A : Type) : Type :=
| Got (a : A)
| Failed (reason : list N).

Arguments Got {A} a.
Arguments Failed {A} reason.

(** [name.rfind(c)], scanning from the right with the number of characters
    to the left of the one looked at. *)
Fixpoint rfind_rev (c : N) (rs : list N) : option nat :=
  match rs with
  | [] => None
  | x :: rs' => if x =? c then Some (length rs') else rfind_rev c rs'
  end.

Definition rfind (c : N) (s : list N) : option nat := rfind_rev c (rev s).

(** [PurePath.name] of a relative path as [rglob] yields it: the last
    component. *)
Definition path_name (file_path : list N) : list N :=
  List.last (split 0x2F file_path) [].

(** [PurePath.suffix]: from the last dot of the name on, unless that dot is
    the first or the last character. *)
Definition suffix (file_path : list N) : list N :=
  let name := path_name file_path in
  match rfind 0x2E name with
  | Some i =>
    if ((0 <? i) && (i <? length name - 1))%nat then drop i name else []
  | None => []
  end.

(** [s.lower()] on the letters A to Z.  No other character has a lower case
    that contains a letter of ".pdf", ".doc" or ".docx", so the comparisons
    below see [str.lower] itself. *)
Definition lower (s : list N) : list N :=
  map (fun c => if (0x41 <=? c) && (c <=? 0x5A) then c + 32 else c) s.

Section Readers.

(** [PdfReader(file_path)], [len(reader.pages) > 0] and
    [reader.pages[0].extract_text()]: the text of the first page, [None] for
    a document without pages. *)
Variable pdf_first_page : list N -> attempt (option (list N)).

(** [Document(file_path).paragraphs], each with its [text], which is read
    only when the loop reaches the paragraph. *)
Variable docx_paragraphs : list N -> attempt (list (attempt (list N))).

(** The text returned and the lines printed. *)
Definition extracted_text : Type := list N * list (list N).

Definition extract_info_from_pdf (file_path : list N) : extracted_text :=
  match pdf_first_page file_path with
  | Got (Some text) => (take 800 text, [])
  | Got None => ([], [])
  | Failed e => ([], [py"Error reading PDF " ++ file_path ++ py": " ++ e])
  end.

(** The loop of lines 33-36 with its [break]. *)
Fixpoint docx_loop (paragraphs : list (attempt (list N))) (text : list N)
  : attempt (list N) :=
  match paragraphs with
  | [] => Got text
  | paragraph :: paragraphs' =>
    match paragraph with
    | Got paragraph_text =>
      let text := text ++ (paragraph_text ++ [10]) in
      if (800 <? length text)%nat then Got text
      else docx_loop paragraphs' text
    | Failed e => Failed e
    end
  end.

Definition extract_info_from_docx (file_path : list N) : extracted_text :=
  match docx_paragraphs file_path with
  | Got paragraphs =>
    match docx_loop (take 15 paragraphs) [] with
    | Got text => (take 800 text, [])
    | Failed e => ([], [py"Error reading DOCX " ++ file_path ++ py": " ++ e])
    end
  | Failed e => ([], [py"Error reading DOCX " ++ file_path ++ py": " ++ e])
  end.

Definition get_file_info (file_path : list N) : extracted_text :=
  if pystr_eqb (lower (suffix file_path)) py".pdf"
  then extract_info_from_pdf file_path
  else if pystr_eqb (lower (suffix file_path)) py".doc"
          || pystr_eqb (lower (suffix file_path)) py".docx"
  then extract_info_from_docx file_path
  else ([], []).

End Readers.

(** The first paragraphs as the loop joins them: each followed by a line
    feed. *)
Definition joined (texts : list (list N)) : list N :=
  concat (map (fun t => t ++ [10]) texts).

End Extract.

(** ** The whole run: the file operations of lines 270-304 and [main] *)

Module Run.

(** Why "文件操作失败" is printed: an exception out of [docx2pdf], [rename]
    or [copy2], with its message, or one out of formatting the reasoning. *)
Inductive failure : Type :=
| StoreFailed (reason : list N)
| ReasoningFailed (e : exn).

(** What [main] and the end of [process_file_with_ai] print. *)
Inductive run_message : Type :=
| MsgEnvMissing           (* "警告: 未设置 OPENAI_BASE_URL 或 ..." *)
| MsgEnvRuleEngine        (* "将使用规则引擎作为主要分析方法，AI功能不可用" *)
| MsgNoFiles              (* "未找到需要处理的文件" *)
| MsgFound (n : nat)      (* "找到 {len(files)} 个文件需要处理" *)
| MsgNoInput              (* "无法读取输入，默认不进行人工确认" *)
| MsgRenamed (final_name : list N)    (* "  重命名为: {final_name}" *)
| MsgReasoning (reasoning : list N)   (* "  分析理由: {...}" *)
| MsgFileOpFailed (why : failure)     (* "  文件操作失败: {e}" *)
| MsgInterrupted          (* "\n用户中断处理" *)
| MsgFileError (file_name : list N) (e : exn)
                         (* "处理文件 {file_path.name} 时发生错误: {e}" *)
| MsgDone (processed_count total : nat)
                         (* "处理完成! 成功处理 {processed_count}/{len(files)} 个文件" *)
| MsgSavedIn.             (* "重命名后的文件保存在: {output_dir}" *)

(** The events of a run: those of the classification of a file, what the
    run itself prints, and the question asked before the first file. *)
Inductive run_event : Type :=
| Inner (e : event)
| Said (m : run_message)
| AskedAll.               (* "是否对所有文件进行人工确认? (y/N): " *)

Record run_world := RunWorld {
  rstdin : list keyed;
  rserved : nat;
  rtrace : list run_event
}.

(** A file found by [rglob]: its path, what [get_file_info] reads from it,
    the names present in the output directory when its turn comes, and what
    the file operations do for the name chosen (conversion or copy,
    according to the suffix). *)
Record found_file := Found {
  found_path : list N;
  found_text : list N;
  found_listing : directory;
  found_store : list N -> Extract.attempt unit
}.

Definition task (f : found_file) : file_task :=
  FileTask (Extract.path_name (found_path f)) (found_text f)
    (found_listing f).

(** How [main] ends: it returns, [mkdir] raises, or a step did not end. *)
Inductive ending : Type :=
| Returned
| MkdirError (reason : list N)
| Unfinished.

Definition say (m : run_message) (rw : run_world) : run_world :=
  RunWorld (rstdin rw) (rserved rw) (rtrace rw ++ [Said m]).

(** A computation of the pipeline inside a run: it reads the same input and
    calls the same service, and its events are appended to the run's. *)
Definition lift_io {A} (m : io A) (rw : run_world)
  : outcome A * run_world :=
  let '(o, w) := m (World (rstdin rw) (rserved rw) []) in
  (o, RunWorld (stdin w) (served w) (rtrace rw ++ map Inner (trace w))).

Section Main.

Variable json_loads : list N -> loads_result.
Variable obj_str : pyval -> outcome (list N).
Variable svc : service.

(** Lines 273-304.  Every exception is caught inside. *)
Definition file_operations (f : found_file) (final_result : pyval)
    (final_name : list N) (rw : run_world) : outcome unit * run_world :=
  match found_store f final_name with
  | Extract.Failed reason =>
    (Ok tt, say (MsgFileOpFailed (StoreFailed reason)) rw)
  | Extract.Got _ =>
    let rw := say (MsgRenamed final_name) rw in
    let reasoning :=
      match final_result with
      | PDict d =>
        format_value obj_str (dict_get py"reasoning" (PStr py"N/A") d)
      | _ => raise AttributeError
      end in
    match lift_io reasoning rw with
    | (Ok text, rw) => (Ok tt, say (MsgReasoning text) rw)
    | (Raise e, rw) =>
      if is_Exception e
      then (Ok tt, say (MsgFileOpFailed (ReasoningFailed e)) rw)
      else (Raise e, rw)
    | (Diverges, rw) => (Diverges, rw)
    end
  end.

(** [process_file_with_ai] as a whole. *)
Definition process_file (f : found_file) (force_manual : bool)
    (rw : run_world) : outcome unit * run_world :=
  match lift_io (process_file_with_ai json_loads obj_str svc (task f)
                   force_manual) rw with
  | (Ok (final_result, final_name), rw) =>
    file_operations f final_result final_name rw
  | (Raise e, rw) => (Raise e, rw)
  | (Diverges, rw) => (Diverges, rw)
  end.

(** Lines 332-337: the question, and what Ctrl-C or an end of input
    does ([except (EOFError, KeyboardInterrupt)]). *)
Definition ask_all (rw : run_world) : bool * run_world :=
  match rstdin rw with
  | Line line :: rest =>
    (lower_is_y (strip line),
     RunWorld rest (rserved rw) (rtrace rw ++ [AskedAll]))
  | CtrlC :: rest =>
    (false,
     say MsgNoInput (RunWorld rest (rserved rw) (rtrace rw ++ [AskedAll])))
  | [] =>
    (false,
     say MsgNoInput (RunWorld [] (rserved rw) (rtrace rw ++ [AskedAll])))
  end.

(** The loop of lines 341-349 with its counter: [KeyboardInterrupt] leaves
    the loop, any [Exception] is reported and the loop goes on. *)
Fixpoint process_all (files : list found_file) (force_manual : bool)
    (processed_count : nat) (rw : run_world) : outcome nat * run_world :=
  match files with
  | [] => (Ok processed_count, rw)
  | f :: files' =>
    match process_file f force_manual rw with
    | (Ok _, rw) => process_all files' force_manual (S processed_count) rw
    | (Raise e, rw) =>
      if is_Exception e then
        process_all files' force_manual processed_count
          (say (MsgFileError (Extract.path_name (found_path f)) e) rw)
      else (Ok processed_count, say MsgInterrupted rw)
    | (Diverges, rw) => (Diverges, rw)
    end
  end.

(** The files [main] works on: the three searches one after the other,
    without the paths that contain "重命名". *)
Definition files_of (rglob : list N -> list found_file) : list found_file :=
  List.filter (fun f => negb (contains py"重命名" (found_path f)))
    (rglob py"*.pdf" ++ rglob py"*.doc" ++ rglob py"*.docx").

Definition main (mkdir : Extract.attempt unit)
    (rglob : list N -> list found_file) (rw : run_world)
  : ending * run_world :=
  let rw :=
    if unset (OPENAI_BASE_URL svc) || unset (OPENAI_API_KEY svc)
    then say MsgEnvRuleEngine (say MsgEnvMissing rw)
    else rw in
  match mkdir with
  | Extract.Failed reason => (MkdirError reason, rw)
  | Extract.Got _ =>
    let files := files_of rglob in
    match files with
    | [] => (Returned, say MsgNoFiles rw)
    | _ :: _ =>
      let rw := say (MsgFound (length files)) rw in
      let '(force_manual, rw) := ask_all rw in
      match process_all files force_manual 0 rw with
      | (Ok processed_count, rw) =>
        (Returned,
         say MsgSavedIn (say (MsgDone processed_count (length files)) rw))
      | (Raise _, rw) | (Diverges, rw) => (Unfinished, rw)
      end
    end
  end.

End Main.

(** The answer that sets [force_manual] (lines 332-337): "y" in either
    case; Ctrl-C and the end of input count as "no". *)
Definition forced_by (items : list keyed) : bool :=
  match items with
  | Line line :: _ => lower_is_y (strip line)
  | _ => false
  end.

(** Counting in the events of a run. *)
Definition count (p : run_event -> bool) (t : list run_event) : nat :=
  length (List.filter p t).

Definition is_file_error (e : run_event) : bool :=
  match e with Said (MsgFileError _ _) => true | _ => false end.

Definition is_renamed (e : run_event) : bool :=
  match e with Said (MsgRenamed _) => true | _ => false end.

Definition is_store_failure (e : run_event) : bool :=
  match e with Said (MsgFileOpFailed (StoreFailed _)) => true | _ => false end.

Definition is_interrupted (e : run_event) : bool :=
  match e with Said MsgInterrupted => true | _ => false end.

Definition is_request (e : run_event) : bool :=
  match e with Inner (EvRequest _ _) => true | _ => false end.

(** The files announced by "处理文件: ...", in order. *)
Definition announced (t : list run_event) : list (list N) :=
  omap (fun e => match e with
                 | Inner (EvPrint (MsgProcessing name)) => Some name
                 | _ => None
                 end) t.

End Run.

(** What the decision of lines 226-240 can print or ask. *)
Definition escalation_event (e : event) : bool :=
  match e with
  | EvInput AskConfirm => true
  | EvPrint (MsgAiFailed | MsgLowConfidence | MsgAiOk | MsgBadFormat) => true
  | _ => false
  end.

(** A run over two files: a scan that is stored, and a Word file whose copy
    fails. *)
Module RunExamples.

Definition scan : Run.found_file :=
  Run.Found py"离散数学/试卷/scan.pdf" [] (Examples.folder ∅)
    (fun _ => Extract.Got tt).

Definition notes : Run.found_file :=
  Run.Found py"离散数学/试卷/notes.docx" [] (Examples.folder ∅)
    (fun _ => Extract.Failed py"Permission denied").

Definition rglob (pattern : list N) : list Run.found_file :=
  if pystr_eqb pattern py"*.pdf" then [scan]
  else if pystr_eqb pattern py"*.docx" then [notes]
  else [].

Definition console (lines : list (list N)) : Run.run_world :=
  Run.RunWorld (map Line lines) 0 [].

End RunExamples.

(** * Properties *)

(** ** Strings *)

Lemma pystr_eqb_eq (a b : list N) : pystr_eqb a b = true <-> a = b.
Proof.
  revert b; induction a as [|x a IH]; intros [|y b]; simpl;
    try (split; [discriminate | discriminate]); [tauto|].
  rewrite andb_true_iff, N.eqb_eq, IH. split.
  - intros [-> ->]. reflexivity.
  - intros H. injection H as -> ->. auto.
Qed.

Lemma pystr_eqb_neq (a b : list N) : pystr_eqb a b = false <-> a <> b.
Proof.
  rewrite <- pystr_eqb_eq. destruct (pystr_eqb a b); split; congruence.
Qed.

Lemma startswith_spec (p s : list N) :
  startswith p s = true <-> exists post, s = p ++ post.
Proof.
  revert s; induction p as [|a p IH]; intros s; simpl.
  - split; [exists s; reflexivity | reflexivity].
  - destruct s as [|b s].
    + split; [discriminate | intros [post H]; discriminate].
    + rewrite andb_true_iff, N.eqb_eq, IH. split.
      * intros [-> [post ->]]. exists post. reflexivity.
      * intros [post H]. injection H as -> ->. eauto.
Qed.

Lemma contains_spec (needle hay : list N) :
  contains needle hay = true <-> exists pre post, hay = pre ++ needle ++ post.
Proof.
  induction hay as [|c hay IH]; simpl.
  - rewrite orb_false_r, startswith_spec. split.
    + intros [post H]. exists [], post. exact H.
    + intros [pre [post H]]. destruct pre; [|discriminate]. eauto.
  - rewrite orb_true_iff, startswith_spec, IH. split.
    + intros [[post H] | [pre [post H]]].
      * exists [], post. exact H.
      * exists (c :: pre), post. rewrite H. reflexivity.
    + intros [pre [post H]]. destruct pre as [|c' pre]; simpl in H.
      * left. eauto.
      * right. injection H as -> ->. eauto.
Qed.

Lemma contains_app_l (needle a b : list N) :
  contains needle a = true -> contains needle (a ++ b) = true.
Proof.
  rewrite !contains_spec. intros [pre [post ->]].
  exists pre, (post ++ b). rewrite <- !app_assoc. reflexivity.
Qed.

Lemma contains_trans (a b c : list N) :
  contains a b = true -> contains b c = true -> contains a c = true.
Proof.
  rewrite !contains_spec. intros [p1 [q1 ->]] [p2 [q2 ->]].
  exists (p2 ++ p1), (q1 ++ q2). rewrite <- !app_assoc. reflexivity.
Qed.

(** Looking for a one-character needle is looking for an element; so the
    two-character season tests of the rule engine add nothing. *)
Lemma contains_prefix_absorbs (a b s : list N) :
  contains a b = true ->
  contains b s || contains a s = contains a s.
Proof.
  intros Hab. destruct (contains b s) eqn:Hb; [|reflexivity].
  simpl. symmetry. exact (contains_trans _ _ _ Hab Hb).
Qed.

(** ** Searching for the two patterns of the rule engine *)

Lemma search_from_spec (r : regex) (s : list N) (pos : nat) (m : match_obj) :
  search_from r pos s = Some m <->
  exists i, (i <= length s)%nat
    /\ match_at r (pos + i) (drop i s) = Some m
    /\ forall j, (j < i)%nat -> match_at r (pos + j) (drop j s) = None.
Proof.
  revert pos; induction s as [|c s IH]; intros pos; simpl.
  - destruct (match_at r pos []) eqn:E.
    + split.
      * intros H. exists 0%nat. rewrite Nat.add_0_r. simpl.
        repeat split; [lia | congruence | lia].
      * intros [i [Hi [Hm _]]]. assert (i = 0%nat) as -> by (simpl in Hi; lia).
        rewrite Nat.add_0_r in Hm. simpl in Hm. congruence.
    + split; [discriminate|].
      intros [i [Hi [Hm _]]]. assert (i = 0%nat) as -> by (simpl in Hi; lia).
      rewrite Nat.add_0_r in Hm. simpl in Hm. congruence.
  - destruct (match_at r pos (c :: s)) eqn:E.
    + split.
      * intros H. exists 0%nat. rewrite Nat.add_0_r. simpl.
        repeat split; [lia | congruence | lia].
      * intros [i [Hi [Hm Hmin]]]. destruct i as [|i].
        -- rewrite Nat.add_0_r in Hm. simpl in Hm. congruence.
        -- specialize (Hmin 0%nat ltac:(lia)). rewrite Nat.add_0_r in Hmin.
           simpl in Hmin. congruence.
    + rewrite IH. split.
      * intros [i [Hi [Hm Hmin]]]. exists (S i).
        replace (pos + S i)%nat with (S pos + i)%nat by lia. simpl.
        repeat split; [lia | exact Hm |].
        intros [|j] Hj.
        -- rewrite Nat.add_0_r. exact E.
        -- replace (pos + S j)%nat with (S pos + j)%nat by lia.
           simpl. apply Hmin. lia.
      * intros [i [Hi [Hm Hmin]]]. destruct i as [|i].
        -- rewrite Nat.add_0_r in Hm. simpl in Hm. congruence.
        -- exists i. replace (pos + S i)%nat with (S pos + i)%nat in Hm by lia.
           simpl in Hm. repeat split; [lia | exact Hm |].
           intros j Hj. specialize (Hmin (S j) ltac:(lia)).
           replace (pos + S j)%nat with (S pos + j)%nat in Hmin by lia.
           exact Hmin.
Qed.

Lemma search_from_none (r : regex) (s : list N) (pos : nat) :
  search_from r pos s = None <->
  forall i, (i <= length s)%nat -> match_at r (pos + i) (drop i s) = None.
Proof.
  revert pos; induction s as [|c s IH]; intros pos; simpl.
  - destruct (match_at r pos []) eqn:E.
    + split; [discriminate|]. intros H. specialize (H 0%nat ltac:(lia)).
      rewrite Nat.add_0_r in H. simpl in H. congruence.
    + split; [|reflexivity]. intros _ i Hi.
      assert (i = 0%nat) as -> by lia. rewrite Nat.add_0_r. exact E.
  - destruct (match_at r pos (c :: s)) eqn:E.
    + split; [discriminate|]. intros H. specialize (H 0%nat ltac:(lia)).
      rewrite Nat.add_0_r in H. simpl in H. congruence.
    + rewrite IH. split.
      * intros H [|i] Hi.
        -- rewrite Nat.add_0_r. exact E.
        -- replace (pos + S i)%nat with (S pos + i)%nat by lia.
           simpl. apply H. lia.
      * intros H i Hi. specialize (H (S i) ltac:(lia)).
        replace (pos + S i)%nat with (S pos + i)%nat in H by lia. exact H.
Qed.

Lemma digits4_inv (y : list N) :
  digits4 y ->
  exists a b c d, y = [a; b; c; d]
    /\ isdecimal a = true /\ isdecimal b = true
    /\ isdecimal c = true /\ isdecimal d = true.
Proof.
  intros [Hlen Hall].
  destruct y as [|a [|b [|c [|d [|e y]]]]]; try discriminate.
  simpl in Hall. rewrite !andb_true_iff in Hall.
  exists a, b, c, d. intuition.
Qed.

Lemma digits4_intro (a b c d : N) :
  isdecimal a = true -> isdecimal b = true ->
  isdecimal c = true -> isdecimal d = true -> digits4 [a; b; c; d].
Proof.
  intros Ha Hb Hc Hd. split; [reflexivity|].
  simpl. rewrite Ha, Hb, Hc, Hd. reflexivity.
Qed.

Lemma take_after (p : nat) (k : nat) (s : list N) :
  take (k + p - p) s = take k s.
Proof. f_equal. lia. Qed.

(** [(\d{4})年] at one offset. *)
Lemma match_at_year (p : nat) (s : list N) (m : match_obj) :
  match_at year_pattern p s = Some m <->
  exists y rest, s = y ++ py"年" ++ rest /\ digits4 y
    /\ m = MatchObj p (5 + p) [(1%nat, y)].
Proof.
  unfold match_at, year_pattern, RDigit4, RDigit. split.
  - destruct s as [|a [|b [|c [|d [|e rest]]]]]; simpl;
      repeat match goal with
             | |- context [if ?x then _ else _] => destruct x eqn:?
             end; try discriminate.
    intros H. injection H as <-.
    exists [a; b; c; d], rest.
    match goal with H : (e =? _) = true |- _ => apply N.eqb_eq in H; subst e end.
    split; [reflexivity|]. split; [apply digits4_intro; assumption|].
    change (S (S (S (S p)))) with (4 + p)%nat. rewrite take_after.
    reflexivity.
  - intros [y [rest [-> [Hy ->]]]].
    destruct (digits4_inv y Hy) as [a [b [c [d [-> [Ha [Hb [Hc Hd]]]]]]]].
    simpl. rewrite Ha, Hb, Hc, Hd. simpl.
    change (S (S (S (S p)))) with (4 + p)%nat. rewrite take_after.
    reflexivity.
Qed.

(** [(\d{4})-(\d{4})] at one offset. *)
Lemma match_at_academic_year (p : nat) (s : list N) (m : match_obj) :
  match_at academic_year_pattern p s = Some m <->
  exists a b rest, s = a ++ py"-" ++ b ++ rest /\ digits4 a /\ digits4 b
    /\ m = MatchObj p (9 + p) [(2%nat, b); (1%nat, a)].
Proof.
  unfold match_at, academic_year_pattern, RDigit4, RDigit. split.
  - destruct s as [|a1 [|a2 [|a3 [|a4 [|e [|b1 [|b2 [|b3 [|b4 rest]]]]]]]]];
      simpl;
      repeat match goal with
             | |- context [if ?x then _ else _] => destruct x eqn:?
             end; try discriminate.
    intros H. injection H as <-.
    exists [a1; a2; a3; a4], [b1; b2; b3; b4], rest.
    match goal with H : (e =? _) = true |- _ => apply N.eqb_eq in H; subst e end.
    split; [reflexivity|].
    split; [apply digits4_intro; assumption|].
    split; [apply digits4_intro; assumption|].
    change (S (S (S (S p)))) with (4 + p)%nat. rewrite take_after.
    change (S (S (S (S (S (5 + p)))))) with (4 + (5 + p))%nat.
    rewrite take_after. reflexivity.
  - intros [a [b [rest [-> [Ha [Hb ->]]]]]].
    destruct (digits4_inv a Ha) as [a1 [a2 [a3 [a4 [-> [H1 [H2 [H3 H4]]]]]]]].
    destruct (digits4_inv b Hb) as [b1 [b2 [b3 [b4 [-> [G1 [G2 [G3 G4]]]]]]]].
    simpl. rewrite H1, H2, H3, H4, G1, G2, G3, G4. simpl.
    change (S (S (S (S p)))) with (4 + p)%nat. rewrite take_after.
    change (S (S (S (S (S (5 + p)))))) with (4 + (5 + p))%nat.
    rewrite take_after. reflexivity.
Qed.

(** ** The rule engine *)

Lemma year_search_found (s : list N) (i : nat) (y : list N) :
  year_token_at s i y -> exists m, re_search year_pattern s = Some m.
Proof.
  intros [Hy [rest Hdrop]].
  destruct (re_search year_pattern s) as [m|] eqn:E; [eauto|].
  exfalso. unfold re_search in E.
  assert (Hi : (i <= length s)%nat).
  { destruct (le_lt_dec i (length s)) as [H|H]; [exact H|].
    rewrite drop_ge in Hdrop by lia.
    destruct (digits4_inv y Hy) as [a [b [c [d [-> _]]]]]. discriminate. }
  pose proof (proj1 (search_from_none _ _ _) E i Hi) as Hnone.
  simpl in Hnone.
  assert (Hsome : match_at year_pattern i (drop i s)
                  = Some (MatchObj i (5 + i) [(1%nat, y)])).
  { apply match_at_year. exists y, rest. auto. }
  congruence.
Qed.

Lemma academic_year_search (s : list N) (j : nat) (a b : list N) :
  academic_year_at s j a b ->
  (forall j' a' b', academic_year_at s j' a' b' -> (j <= j')%nat) ->
  exists m, re_search academic_year_pattern s = Some m
    /\ group 1 m = a /\ group 2 m = b.
Proof.
  intros [Ha [Hb [rest Hdrop]]] Hleft.
  assert (Hj : (j <= length s)%nat).
  { destruct (le_lt_dec j (length s)) as [H|H]; [exact H|].
    rewrite drop_ge in Hdrop by lia.
    destruct (digits4_inv a Ha) as [a1 [a2 [a3 [a4 [-> _]]]]]. discriminate. }
  assert (Hsome : match_at academic_year_pattern j (drop j s)
                  = Some (MatchObj j (9 + j) [(2%nat, b); (1%nat, a)])).
  { apply match_at_academic_year. exists a, b, rest. auto. }
  destruct (re_search academic_year_pattern s) as [m|] eqn:E.
  - exists m. split; [reflexivity|].
    unfold re_search in E. apply search_from_spec in E.
    destruct E as [i [Hi [Hm Hmin]]]. simpl in Hm.
    assert (Hij : i = j).
    { destruct (Nat.lt_trichotomy i j) as [H|[H|H]]; [|exact H|].
      - apply match_at_academic_year in Hm.
        destruct Hm as [a' [b' [rest' [Hd [Ha' [Hb' _]]]]]].
        assert (j <= i)%nat; [|lia].
        apply (Hleft i a' b').
        split; [exact Ha'|]. split; [exact Hb'|]. exists rest'. exact Hd.
      - specialize (Hmin j H). simpl in Hmin. congruence. }
    subst i. rewrite Hsome in Hm. injection Hm as <-. split; reflexivity.
  - exfalso. unfold re_search in E.
    pose proof (proj1 (search_from_none _ _ _) E j Hj). simpl in *.
    congruence.
Qed.

Lemma season_suffix_app (semester combined_text : list N) :
  (if contains py"春季" combined_text || contains py"春" combined_text
   then semester ++ py"春季"
   else if contains py"秋季" combined_text || contains py"秋" combined_text
   then semester ++ py"秋季" else semester)
  = semester ++ season_suffix combined_text.
Proof.
  unfold season_suffix.
  rewrite (contains_prefix_absorbs py"春" py"春季") by reflexivity.
  rewrite (contains_prefix_absorbs py"秋" py"秋季") by reflexivity.
  destruct (contains py"春" combined_text); [reflexivity|].
  destruct (contains py"秋" combined_text); [reflexivity|].
  rewrite app_nil_r. reflexivity.
Qed.

Lemma rule_engine_semester (text_content file_name : list N)
    (i : nat) (y : list N) (j : nat) (a b : list N) :
  year_token_at (text_content ++ file_name) i y ->
  academic_year_at (text_content ++ file_name) j a b ->
  (forall j' a' b',
     academic_year_at (text_content ++ file_name) j' a' b' -> (j <= j')%nat) ->
  field py"semester" (fallback_rule_engine text_content file_name)
  = Some (PStr (a ++ py"-" ++ b
                ++ season_suffix (text_content ++ file_name))).
Proof.
  intros Hy Ha Hleft.
  destruct (year_search_found _ _ _ Hy) as [ym Hym].
  destruct (academic_year_search _ _ _ _ Ha Hleft) as [m [Hm [G1 G2]]].
  unfold fallback_rule_engine. rewrite Hym, Hm, G1, G2.
  rewrite season_suffix_app. cbn. rewrite <- !app_assoc. reflexivity.
Qed.

Lemma rule_engine_keywords (text_content file_name : list N) :
  contains keyword_sentence text_content = true ->
  field py"exam_type" (fallback_rule_engine text_content file_name)
  = Some (PStr py"期中")
  /\ field py"has_answer" (fallback_rule_engine text_content file_name)
     = Some (PStr py"带答案").
Proof.
  intros Hs.
  assert (Hmid : contains py"期中" text_content = true).
  { apply (contains_trans _ keyword_sentence); [reflexivity | exact Hs]. }
  assert (Hans : contains py"答案" (text_content ++ file_name) = true).
  { apply contains_app_l.
    apply (contains_trans _ keyword_sentence); [reflexivity | exact Hs]. }
  unfold fallback_rule_engine. rewrite Hmid.
  unfold answer_keywords. cbn [existsb]. rewrite Hans. cbn.
  split; reflexivity.
Qed.

(** C8. The rule engine is total: on every text and file name it returns a
    dict with the five fields, [exam_type] one of 期中 and 期末, [has_answer]
    one of 带答案 and 无答案, [confidence] 0.5 and the fixed [reasoning]; on the
    empty text and the empty file name it returns 期末, 未知学期, 无答案, 0.5. *)
Theorem fallback_rule_engine_total_and_default :
  (forall text_content file_name : list N,
     exists e s h,
       fallback_rule_engine text_content file_name
       = PDict [ (py"exam_type", PStr e); (py"semester", PStr s);
                 (py"has_answer", PStr h);
                 (py"confidence", PFloat (FFinite (1 # 2)));
                 (py"reasoning", PStr py"规则引擎备选方案") ]
       /\ (e = py"期中" \/ e = py"期末")
       /\ (h = py"带答案" \/ h = py"无答案"))
  /\ fallback_rule_engine [] []
     = PDict [ (py"exam_type", PStr py"期末");
               (py"semester", PStr py"未知学期");
               (py"has_answer", PStr py"无答案");
               (py"confidence", PFloat (FFinite (1 # 2)));
               (py"reasoning", PStr py"规则引擎备选方案") ].
Proof.
  split; [|reflexivity].
  intros text_content file_name. unfold fallback_rule_engine.
  eexists _, _, _. split; [reflexivity|]. split.
  - destruct (contains _ text_content || contains _ file_name); auto.
  - destruct (existsb _ answer_keywords); auto.
Qed.

(** C1, as amended. For a text that contains the sentence
    "2023-2024学年第一学期 期中 含答案", with any file name, the rule engine
    returns [exam_type] 期中 and [has_answer] 带答案. Whenever the text followed
    by the file name has a year token (four decimal digits and then 年) and
    an academic-year token "YYYY-YYYY", the returned [semester] is the
    leftmost such range followed by the season suffix: 春季 if 春 occurs,
    else 秋季 if 秋 occurs, else nothing. *)
Theorem rule_engine_sentence_and_academic_year
    (text_content file_name : list N) :
  (contains keyword_sentence text_content = true ->
   field py"exam_type" (fallback_rule_engine text_content file_name)
   = Some (PStr py"期中")
   /\ field py"has_answer" (fallback_rule_engine text_content file_name)
      = Some (PStr py"带答案"))
  /\ (forall (i : nat) (y : list N) (j : nat) (a b : list N),
        year_token_at (text_content ++ file_name) i y ->
        academic_year_at (text_content ++ file_name) j a b ->
        (forall j' a' b',
           academic_year_at (text_content ++ file_name) j' a' b' ->
           (j <= j')%nat) ->
        field py"semester" (fallback_rule_engine text_content file_name)
        = Some (PStr (a ++ py"-" ++ b
                      ++ season_suffix (text_content ++ file_name)))).
Proof.
  split.
  - apply rule_engine_keywords.
  - apply rule_engine_semester.
Qed.

(** The sentence of the test, in a file named "2024年春.pdf": the year token
    comes from the file name, the range from the sentence. *)
Lemma rule_engine_sentence_and_academic_year_witness :
  field py"exam_type" (fallback_rule_engine keyword_sentence py"2024年春.pdf")
  = Some (PStr py"期中")
  /\ field py"has_answer"
       (fallback_rule_engine keyword_sentence py"2024年春.pdf")
     = Some (PStr py"带答案")
  /\ field py"semester"
       (fallback_rule_engine keyword_sentence py"2024年春.pdf")
     = Some (PStr py"2023-2024春季").
Proof.
  destruct (rule_engine_sentence_and_academic_year
              keyword_sentence py"2024年春.pdf") as [Hkw Hsem].
  destruct (Hkw eq_refl) as [He Hh].
  split; [exact He|]. split; [exact Hh|].
  apply (Hsem 22%nat py"2024" 0%nat py"2023" py"2024").
  - split; [split; reflexivity|]. exists py"春.pdf". reflexivity.
  - split; [split; reflexivity|]. split; [split; reflexivity|].
    eexists. reflexivity.
  - intros; lia.
Defined.

(** C1 as stated fails on the sentence itself with the empty file name: no
    four digits are followed by 年, so the semester is 未知学期, not the range.
    With a year token present the range is kept but a season suffix may
    follow it. *)
Lemma rule_engine_sentence_semester_counterexample :
  field py"semester" (fallback_rule_engine keyword_sentence [])
  = Some (PStr py"未知学期")
  /\ field py"semester" (fallback_rule_engine keyword_sentence [])
     <> Some (PStr py"2023-2024")
  /\ field py"semester"
       (fallback_rule_engine py"2023年 2023-2024 春季学期" py"a.pdf")
     = Some (PStr py"2023-2024春季").
Proof.
  split; [reflexivity|]. split; [discriminate|]. reflexivity.
Qed.

(** ** The path checker *)

Section PathCheckerFacts.
Import PathChecker.

Lemma split_components (sep : N) (s : list N) :
  Forall (fun w => forallb (fun c => negb (c =? sep)) w = true) (split sep s).
Proof.
  induction s as [|c s IH]; simpl.
  - repeat constructor.
  - destruct (c =? sep) eqn:E.
    + constructor; [reflexivity | exact IH].
    + destruct (split sep s) as [|w ws]; [repeat constructor; simpl; rewrite E; reflexivity|].
      inversion IH as [|? ? Hw Hws]; subst.
      constructor; [|exact Hws]. simpl. rewrite E, Hw. reflexivity.
Qed.

Lemma last_components {A} (P : A -> Prop) (l : list A) (x : A) :
  Forall P l -> last l = Some x -> P x.
Proof.
  intros HF Hl. apply last_Some in Hl. destruct Hl as [l' ->].
  apply Forall_app in HF. destruct HF as [_ HF].
  inversion HF; assumption.
Qed.

(** [+] over a class fails when the continuation fails on every suffix. *)
Lemma exec_plus_none {R} (p : N -> bool) (s : list N)
    (k : nat -> list N -> option R) (pos : nat) :
  (forall n pre t, s = pre ++ t -> k n t = None) ->
  exec_plus p pos s k = None.
Proof.
  revert pos; induction s as [|c s IH]; intros pos Hk; simpl;
    [reflexivity|].
  destruct (p c); [|reflexivity].
  rewrite IH.
  - apply (Hk _ [c]). reflexivity.
  - intros n pre t ->. apply (Hk n (c :: pre)). reflexivity.
Qed.

(** Both exam patterns ask for a [/] after a first run of other
    characters, so they match no string without [/]. *)
Lemma exam_patterns_need_slash (name : list N) :
  forallb not_slash name = true ->
  re_match exam_pattern1 name = None /\ re_match exam_pattern2 name = None.
Proof.
  intros Hname.
  assert (Hsuffix : forall pre t, name = pre ++ t ->
            match t with x :: _ => (x =? 0x2F) = false | [] => True end).
  { intros pre t ->. rewrite forallb_app in Hname.
    apply andb_true_iff in Hname. destruct Hname as [_ Ht].
    destruct t as [|x t]; [exact I|]. simpl in Ht.
    apply andb_true_iff in Ht. destruct Ht as [Hx _].
    unfold not_slash in Hx. apply negb_true_iff in Hx. exact Hx. }
  split; unfold re_match, match_at, exam_pattern1, exam_pattern2, rcat;
    cbn [foldr exec Nat.eqb]; apply exec_plus_none;
    intros n pre t Ht; specialize (Hsuffix pre t Ht);
    destruct t as [|x t]; cbn; [reflexivity | | reflexivity | ];
    rewrite Hsuffix; reflexivity.
Qed.

End PathCheckerFacts.

(** C9. For every path whose second component is 试卷 and whose first
    component is not one of the skipped directories, the checker returns
    invalid: the two exam patterns begin with "^[^/]+/试卷/" but are matched
    against the last component, which has no "/". *)
Theorem checker_rejects_everything_under_exam_folder
    (file_path top : list N) (rest : list (list N)) :
  split 0x2F file_path = top :: py"试卷" :: rest ->
  PathChecker.in_list top [py".git"; py".github"; py"script"] = false ->
  exists name,
    last (split 0x2F file_path) = Some name
    /\ PathChecker.checker file_path
       = Ok (Some (false, py"试卷命名 " ++ name ++ py" 不符合规范")).
Proof.
  intros Hsplit Hskip.
  destruct (last (split 0x2F file_path)) as [name|] eqn:Hlast.
  2:{ rewrite Hsplit in Hlast. apply last_None in Hlast. discriminate. }
  exists name. split; [reflexivity|].
  assert (Hname : forallb not_slash name = true).
  { exact (last_components _ _ _ (split_components 0x2F file_path) Hlast). }
  destruct (exam_patterns_need_slash name Hname) as [H1 H2].
  unfold PathChecker.checker. rewrite Hsplit. rewrite Hsplit in Hlast.
  cbn [length Nat.ltb Nat.leb PathChecker.item lookup list_lookup
       PathChecker.obind].
  rewrite Hskip. unfold PathChecker.last_item. rewrite Hlast.
  cbn [PathChecker.obind pystr_eqb N.eqb Pos.eqb andb]. rewrite H1, H2.
  reflexivity.
Qed.

(** A well-named exam paper is rejected by the checker. *)
Lemma checker_rejects_everything_under_exam_folder_witness :
  exists name,
    last (split 0x2F py"离散数学/试卷/期中-2023-2024学年第一学期-带答案.pdf")
    = Some name
    /\ PathChecker.checker py"离散数学/试卷/期中-2023-2024学年第一学期-带答案.pdf"
       = Ok (Some (false, py"试卷命名 " ++ name ++ py" 不符合规范")).
Proof.
  apply (checker_rejects_everything_under_exam_folder
           py"离散数学/试卷/期中-2023-2024学年第一学期-带答案.pdf"
           py"离散数学" [py"期中-2023-2024学年第一学期-带答案.pdf"]);
    reflexivity.
Defined.

(** C10. For every path with at least two components whose first component
    is not skipped and whose second component is neither 试卷 nor 笔记, the
    checker reaches the call of [re.match] that has no string argument and
    raises [TypeError] instead of returning a pair. *)
Theorem checker_raises_TypeError_outside_exam_and_notes
    (file_path top second : list N) (rest : list (list N)) :
  split 0x2F file_path = top :: second :: rest ->
  PathChecker.in_list top [py".git"; py".github"; py"script"] = false ->
  second <> py"试卷" -> second <> py"笔记" ->
  PathChecker.checker file_path = Raise TypeError.
Proof.
  intros Hsplit Hskip H1 H2.
  apply pystr_eqb_neq in H1. apply pystr_eqb_neq in H2.
  unfold PathChecker.checker. rewrite Hsplit.
  cbn [length Nat.ltb Nat.leb PathChecker.item lookup list_lookup
       PathChecker.obind].
  rewrite Hskip, H1, H2. reflexivity.
Qed.

(** A course file in a term folder. *)
Lemma checker_raises_TypeError_outside_exam_and_notes_witness :
  PathChecker.checker py"离散数学/2023秋/课件/01-引言.pdf" = Raise TypeError.
Proof.
  apply (checker_raises_TypeError_outside_exam_and_notes
           py"离散数学/2023秋/课件/01-引言.pdf"
           py"离散数学" py"2023秋" [py"课件"; py"01-引言.pdf"]);
    [reflexivity | reflexivity | discriminate | discriminate].
Defined.

(** ** Output names *)

Lemma bytes_of_string_inj (a b : string) :
  bytes_of_string a = bytes_of_string b -> a = b.
Proof.
  revert b; induction a as [|x a IH]; intros [|y b]; simpl;
    try discriminate; [reflexivity|].
  intros H. injection H as Hxy Hab.
  f_equal; [|apply IH; exact Hab].
  rewrite <- (ascii_N_embedding x), <- (ascii_N_embedding y), Hxy.
  reflexivity.
Qed.

Lemma str_of_nat_inj (j k : nat) : str_of_nat j = str_of_nat k -> j = k.
Proof.
  unfold str_of_nat. intros H. apply bytes_of_string_inj in H.
  assert (Hu : Nat.to_uint j = Nat.to_uint k).
  { pose proof (NilEmpty.usu (Nat.to_uint j)) as Hj.
    pose proof (NilEmpty.usu (Nat.to_uint k)) as Hk.
    rewrite H in Hj. congruence. }
  rewrite <- (DecimalNat.Unsigned.of_to j), <- (DecimalNat.Unsigned.of_to k).
  rewrite Hu. reflexivity.
Qed.

Lemma candidate_inj (stem : list N) (j k : nat) :
  candidate stem j = candidate stem k -> j = k.
Proof.
  destruct j as [|j], k as [|k]; unfold candidate; intros H;
    apply app_inv_head in H; try discriminate; [reflexivity|].
  apply app_inv_head in H. apply app_inv_tail in H.
  apply str_of_nat_inj. exact H.
Qed.

Lemma rsplit1_pdf (stem : list N) :
  rsplit1 0x2E (stem ++ py".pdf") = [stem; py"pdf"].
Proof.
  unfold rsplit1. rewrite rev_app_distr. simpl.
  rewrite rev_involutive. reflexivity.
Qed.

(** The loop walks up the candidates until the first one that is free or
    cannot be looked up. *)
Lemma dedup_loop_stops (dir : directory) (stem : list N) (w : world)
    (fuel n k : nat) :
  (k <= n)%nat -> (n - k < fuel)%nat ->
  (forall j, (k <= j < n)%nat ->
     refused dir (candidate stem j) = false
     /\ candidate stem j ∈ entries dir) ->
  refused dir (candidate stem n) = true
  \/ (candidate stem n ∉ entries dir) ->
  dedup_loop fuel dir (stem ++ py".pdf") (S k) (candidate stem k) w
  = (if refused dir (candidate stem n) then Raise OSError
     else Ok (candidate stem n), w).
Proof.
  revert k; induction fuel as [|fuel IH]; intros k Hkn Hfuel Hbusy Hstop;
    [lia|].
  cbn [dedup_loop]. unfold bind, lift, exists_in.
  destruct (decide (k = n)) as [->|Hne].
  - destruct (refused dir (candidate stem n)); [reflexivity|].
    destruct Hstop as [Hstop|Hfree]; [discriminate Hstop|].
    rewrite bool_decide_eq_false_2 by exact Hfree. reflexivity.
  - destruct (Hbusy k) as [Hread Hin]; [lia|].
    rewrite Hread. rewrite bool_decide_eq_true_2 by exact Hin.
    rewrite rsplit1_pdf. unfold index, ret. simpl.
    apply (IH (S k)); [lia | lia | | exact Hstop].
    intros j Hj. apply Hbusy. lia.
Qed.

(** Among the first [size dir + 1] candidates one is free. *)
Lemma free_candidate_exists (dir : gset (list N)) (stem : list N) :
  exists n, (n <= size dir)%nat /\ candidate stem n ∉ dir.
Proof.
  destruct (decide (Forall (fun k => candidate stem k ∈ dir)
                      (seq 0 (S (size dir))))) as [Hall|Hsome].
  - exfalso.
    assert (Hnd : NoDup (candidate stem <$> seq 0 (S (size dir)))).
    { apply NoDup_fmap_2_strong; [|apply NoDup_seq].
      intros x y _ _ Hxy. exact (candidate_inj stem x y Hxy). }
    assert (Hsub : list_to_set (candidate stem <$> seq 0 (S (size dir)))
                   ⊆ dir).
    { intros x Hx. apply elem_of_list_to_set in Hx.
      apply list_elem_of_fmap in Hx. destruct Hx as [k [-> Hk]].
      rewrite Forall_forall in Hall. apply Hall. exact Hk. }
    apply subseteq_size in Hsub.
    rewrite size_list_to_set in Hsub by exact Hnd.
    rewrite length_fmap, length_seq in Hsub. lia.
  - apply not_Forall_Exists in Hsome; [|intros k; apply _].
    apply Exists_exists in Hsome. destruct Hsome as [n [Hn Hfree]].
    exists n. split; [|exact Hfree].
    apply elem_of_seq in Hn. lia.
Qed.

Lemma least_free_candidate (dir : gset (list N)) (stem : list N) :
  exists n, (n <= size dir)%nat /\ (candidate stem n ∉ dir)
    /\ forall j, (j < n)%nat -> candidate stem j ∈ dir.
Proof.
  destruct (free_candidate_exists dir stem) as [m [Hm Hfree]].
  revert Hm Hfree. induction m as [m IH] using lt_wf_ind. intros Hm Hfree.
  destruct (decide (Forall (fun k => candidate stem k ∈ dir) (seq 0 m)))
    as [Hall|Hsome].
  - exists m. repeat split; [exact Hm | exact Hfree |].
    intros j Hj. rewrite Forall_forall in Hall. apply Hall.
    apply elem_of_seq. lia.
  - apply not_Forall_Exists in Hsome; [|intros k; apply _].
    apply Exists_exists in Hsome. destruct Hsome as [n [Hn Hn']].
    apply elem_of_seq in Hn. apply (IH n); [lia | lia | exact Hn'].
Qed.

(** Where the loop stops: at the first candidate that cannot be looked up
    or is free, all candidates before it being there. *)
Lemma least_stop (dir : directory) (stem : list N) :
  exists n, (n <= size (entries dir))%nat
    /\ (forall j, (j < n)%nat ->
          refused dir (candidate stem j) = false
          /\ candidate stem j ∈ entries dir)
    /\ (refused dir (candidate stem n) = true
        \/ (candidate stem n ∉ entries dir)).
Proof.
  destruct (least_free_candidate (entries dir) stem) as [m [Hm [Hfree Hbusy]]].
  assert (Hex : exists m', (m' <= size (entries dir))%nat
            /\ (refused dir (candidate stem m') = true
                \/ (candidate stem m' ∉ entries dir))
            /\ forall j, (j < m')%nat -> candidate stem j ∈ entries dir).
  { exists m. auto. }
  clear m Hm Hfree Hbusy. destruct Hex as [m Hex]. revert Hex.
  induction m as [m IH] using lt_wf_ind. intros [Hm [Hstop Hbusy]].
  destruct (decide (Forall (fun k => refused dir (candidate stem k) = false)
                      (seq 0 m))) as [Hall|Hsome].
  - exists m. split; [exact Hm|]. split; [|exact Hstop].
    intros j Hj. split; [|apply Hbusy; exact Hj].
    rewrite Forall_forall in Hall. apply Hall. apply elem_of_seq. lia.
  - apply not_Forall_Exists in Hsome; [|intros k; apply _].
    apply Exists_exists in Hsome. destruct Hsome as [n [Hn Hn']].
    apply elem_of_seq in Hn. apply (IH n); [lia|].
    split; [lia|]. split.
    + left. apply not_false_iff_true. exact Hn'.
    + intros j Hj. apply Hbusy. lia.
Qed.

(** The duplicate-name loop ends: with the first free candidate, or with
    [OSError] at a candidate that cannot be looked up. *)
Lemma unique_name_spec (dir : directory) (stem : list N) (w : world) :
  exists n,
    (n <= size (entries dir))%nat
    /\ (forall j, (j < n)%nat ->
          refused dir (candidate stem j) = false
          /\ candidate stem j ∈ entries dir)
    /\ (refused dir (candidate stem n) = true
        \/ (candidate stem n ∉ entries dir))
    /\ unique_name dir (stem ++ py".pdf") w
       = (if refused dir (candidate stem n) then Raise OSError
          else Ok (candidate stem n), w).
Proof.
  destruct (least_stop dir stem) as [n [Hn [Hbusy Hstop]]].
  exists n. split; [exact Hn|]. split; [exact Hbusy|]. split; [exact Hstop|].
  unfold unique_name.
  apply (dedup_loop_stops dir stem w (S (size (entries dir))) n 0);
    [lia | lia | | exact Hstop].
  intros j Hj. apply Hbusy. lia.
Qed.

(** When every candidate can be looked up, the loop ends on the first free
    one. *)
Lemma unique_name_free (dir : directory) (stem : list N) (w : world) :
  lookups_succeed dir stem ->
  exists n,
    unique_name dir (stem ++ py".pdf") w = (Ok (candidate stem n), w)
    /\ (candidate stem n ∉ entries dir)
    /\ forall j, (j < n)%nat -> candidate stem j ∈ entries dir.
Proof.
  intros Hread.
  destruct (unique_name_spec dir stem w) as [n [Hn [Hbusy [Hstop Hrun]]]].
  exists n. rewrite (Hread n Hn) in Hrun, Hstop.
  split; [exact Hrun|]. split.
  - destruct Hstop as [H|H]; [discriminate H | exact H].
  - intros j Hj. apply Hbusy. exact Hj.
Qed.

(** The name built from a result whose three naming fields are strings. *)
Lemma build_name_strings (obj_str : pyval -> outcome (list N))
    (dir : directory) (d : list (list N * pyval))
    (e s h : list N) (w : world) :
  dict_lookup py"exam_type" d = Some (PStr e) ->
  dict_lookup py"semester" d = Some (PStr s) ->
  dict_lookup py"has_answer" d = Some (PStr h) ->
  build_name obj_str dir (PDict d) w
  = unique_name dir
      ((e ++ py"-" ++ s ++ py"-"
        ++ (if pystr_eqb h py"带答案" then py"带答案" else py"无答案"))
       ++ py".pdf") w.
Proof.
  intros He Hs Hh. unfold build_name, subscript, bind.
  rewrite He, Hs, Hh. unfold ret, format_value, pyval_is_str. simpl.
  destruct (pystr_eqb h _); f_equal;
    repeat (rewrite <- app_assoc; simpl); reflexivity.
Qed.

(** The name chosen for such a result: the first candidate of its stem
    that is free or cannot be looked up. *)
Lemma build_name_named (obj_str : pyval -> outcome (list N))
    (dir : directory) (d : list (list N * pyval))
    (e s h : list N) (w : world) :
  dict_lookup py"exam_type" d = Some (PStr e) ->
  dict_lookup py"semester" d = Some (PStr s) ->
  dict_lookup py"has_answer" d = Some (PStr h) ->
  exists n,
    build_name obj_str dir (PDict d) w
    = (if refused dir (candidate (name_stem e s h) n) then Raise OSError
       else Ok (candidate (name_stem e s h) n), w)
    /\ (refused dir (candidate (name_stem e s h) n) = true
        \/ (candidate (name_stem e s h) n ∉ entries dir))
    /\ forall j, (j < n)%nat ->
         refused dir (candidate (name_stem e s h) j) = false
         /\ candidate (name_stem e s h) j ∈ entries dir.
Proof.
  intros He Hs Hh.
  rewrite (build_name_strings obj_str dir d e s h w He Hs Hh).
  destruct (unique_name_spec dir (name_stem e s h) w)
    as [n [_ [Hbusy [Hstop Hrun]]]].
  exists n. split; [exact Hrun|]. split; [exact Hstop | exact Hbusy].
Qed.

(** C7. For every classification result whose [exam_type] and [semester]
    are strings and whose [has_answer] is 带答案 or 无答案, and every output
    directory in which the names tried can be looked up, name resolution
    tries "{exam_type}-{semester}-{has_answer}.pdf" and then the same stem
    with _1, _2, ... before the extension, testing the directory each time,
    and returns the first name that is not there.
    With "期末-未知学期-无答案.pdf" present it returns
    "期末-未知学期-无答案_1.pdf"; with both present, "期末-未知学期-无答案_2.pdf". *)
Theorem naming_resolves_collisions
    (obj_str : pyval -> outcome (list N)) (w : world) :
  (forall (dir : directory) (d : list (list N * pyval)) (e s h : list N),
     dict_lookup py"exam_type" d = Some (PStr e) ->
     dict_lookup py"semester" d = Some (PStr s) ->
     dict_lookup py"has_answer" d = Some (PStr h) ->
     h = py"带答案" \/ h = py"无答案" ->
     lookups_succeed dir (e ++ py"-" ++ s ++ py"-" ++ h) ->
     exists n,
       build_name obj_str dir (PDict d) w
       = (Ok (candidate (e ++ py"-" ++ s ++ py"-" ++ h) n), w)
       /\ (candidate (e ++ py"-" ++ s ++ py"-" ++ h) n ∉ entries dir)
       /\ forall j, (j < n)%nat ->
            candidate (e ++ py"-" ++ s ++ py"-" ++ h) j ∈ entries dir)
  /\ (forall fails : list N -> bool,
       fails py"期末-未知学期-无答案.pdf" = false ->
       fails py"期末-未知学期-无答案_1.pdf" = false ->
       build_name obj_str
         (Directory {[ py"期末-未知学期-无答案.pdf" ]} fails)
         (fallback_rule_engine [] []) w
       = (Ok py"期末-未知学期-无答案_1.pdf", w))
  /\ (forall fails : list N -> bool,
       fails py"期末-未知学期-无答案.pdf" = false ->
       fails py"期末-未知学期-无答案_1.pdf" = false ->
       fails py"期末-未知学期-无答案_2.pdf" = false ->
       build_name obj_str
         (Directory {[ py"期末-未知学期-无答案.pdf";
                       py"期末-未知学期-无答案_1.pdf" ]} fails)
         (fallback_rule_engine [] []) w
       = (Ok py"期末-未知学期-无答案_2.pdf", w)).
Proof.
  split; [|split].
  - intros dir d e s h He Hs Hh Hvalid Hread.
    rewrite (build_name_strings obj_str dir d e s h w He Hs Hh).
    assert (Hnorm : (if pystr_eqb h py"带答案" then py"带答案" else py"无答案")
                    = h).
    { destruct Hvalid as [-> | ->]; reflexivity. }
    rewrite Hnorm. apply unique_name_free. exact Hread.
  - intros fails H0 H1.
    unfold build_name, bind, subscript, ret, format_value, unique_name.
    cbn [fallback_rule_engine dict_lookup].
    change (dedup_loop 2
              (Directory {[ py"期末-未知学期-无答案.pdf" ]} fails)
              (py"期末-未知学期-无答案" ++ py".pdf") 1
              (candidate py"期末-未知学期-无答案" 0) w
            = (Ok py"期末-未知学期-无答案_1.pdf", w)).
    rewrite (dedup_loop_stops _ py"期末-未知学期-无答案" w 2 1 0);
      try lia.
    + cbn [refused]. change (candidate py"期末-未知学期-无答案" 1)
        with py"期末-未知学期-无答案_1.pdf". rewrite H1. reflexivity.
    + intros j Hj. assert (j = 0%nat) as -> by lia.
      split; [exact H0 | vm_compute; reflexivity].
    + right. vm_compute. intros H. discriminate H.
  - intros fails H0 H1 H2.
    unfold build_name, bind, subscript, ret, format_value, unique_name.
    cbn [fallback_rule_engine dict_lookup].
    change (dedup_loop 3
              (Directory {[ py"期末-未知学期-无答案.pdf";
                            py"期末-未知学期-无答案_1.pdf" ]} fails)
              (py"期末-未知学期-无答案" ++ py".pdf") 1
              (candidate py"期末-未知学期-无答案" 0) w
            = (Ok py"期末-未知学期-无答案_2.pdf", w)).
    rewrite (dedup_loop_stops _ py"期末-未知学期-无答案" w 3 2 0);
      try lia.
    + cbn [refused]. change (candidate py"期末-未知学期-无答案" 2)
        with py"期末-未知学期-无答案_2.pdf". rewrite H2. reflexivity.
    + intros j Hj.
      assert (j = 0 \/ j = 1)%nat as [-> | ->] by lia.
      * split; [exact H0 | vm_compute; reflexivity].
      * split; [exact H1 | vm_compute; reflexivity].
    + right. vm_compute. intros H. discriminate H.
Qed.

(** A manual result typed over a directory that already holds the base
    name: the free name is the one with [_1]. *)
Lemma naming_resolves_collisions_witness :
  exists n,
    build_name str_of_scalar
      (Examples.folder {[ py"期中-2023秋季-带答案.pdf" ]})
      (manual_result py"期中" py"2023秋季" py"带答案") (World [] 0 [])
    = (Ok (candidate py"期中-2023秋季-带答案" n), World [] 0 [])
    /\ (candidate py"期中-2023秋季-带答案" n
        ∉ entries (Examples.folder {[ py"期中-2023秋季-带答案.pdf" ]}))
    /\ forall j, (j < n)%nat ->
         candidate py"期中-2023秋季-带答案" j
         ∈ entries (Examples.folder {[ py"期中-2023秋季-带答案.pdf" ]}).
Proof.
  destruct (naming_resolves_collisions str_of_scalar (World [] 0 []))
    as [Hgen _].
  apply (Hgen (Examples.folder {[ py"期中-2023秋季-带答案.pdf" ]}) _
           py"期中" py"2023秋季" py"带答案");
    [reflexivity | reflexivity | reflexivity | left; reflexivity |].
  intros k _. reflexivity.
Defined.

(** ** What a computation adds to the trace *)

Section Traces.
Context {A B : Type}.
Implicit Types (P : event -> bool).

Lemma adds_ret P (a : A) : adds P (ret a).
Proof. intros w. exists []. rewrite app_nil_r. split; reflexivity. Qed.

Lemma adds_raise P (e : exn) : adds P (@raise A e).
Proof. intros w. exists []. rewrite app_nil_r. split; reflexivity. Qed.

Lemma adds_lift P (o : outcome A) : adds P (lift o).
Proof. intros w. exists []. rewrite app_nil_r. split; reflexivity. Qed.

Lemma adds_bind P (m : io A) (f : A -> io B) :
  adds P m -> (forall a, adds P (f a)) -> adds P (bind m f).
Proof.
  intros Hm Hf w. unfold bind. destruct (Hm w) as [t [Ht HP]].
  destruct (m w) as [[a|e|] w1]; simpl in *; [|eauto|eauto].
  destruct (Hf a w1) as [t' [Ht' HP']].
  exists (t ++ t'). rewrite Ht', Ht, app_assoc, forallb_app, HP, HP'.
  split; reflexivity.
Qed.

End Traces.

Lemma adds_emit P (e : event) : P e = true -> adds P (emit e).
Proof.
  intros He w. exists [e]. simpl. rewrite He. split; reflexivity.
Qed.

Lemma adds_input P (p : prompt) : P (EvInput p) = true -> adds P (input p).
Proof.
  intros He w. exists [EvInput p]. unfold input.
  destruct (stdin w) as [|[line|] rest]; simpl; rewrite He; split;
    reflexivity.
Qed.

Lemma adds_weaken {A} (P Q : event -> bool) (m : io A) :
  (forall e, P e = true -> Q e = true) -> adds P m -> adds Q m.
Proof.
  intros HPQ Hm w. destruct (Hm w) as [t [Ht HP]].
  exists t. split; [exact Ht|].
  rewrite forallb_forall in *. auto.
Qed.

Lemma forallb_api_event_prompts (t : list event) :
  forallb api_event t = true -> prompts_in t = [].
Proof.
  induction t as [|e t IH]; [reflexivity|]. simpl.
  intros H. apply andb_true_iff in H. destruct H as [He Ht].
  unfold prompts_in in *. simpl.
  destruct e; try discriminate; simpl; auto.
Qed.

Lemma prompts_in_app (t t' : list event) :
  prompts_in (t ++ t') = prompts_in t ++ prompts_in t'.
Proof. unfold prompts_in. apply omap_app. Qed.

Lemma sleeps_in_app (t t' : list event) :
  sleeps_in (t ++ t') = sleeps_in t ++ sleeps_in t'.
Proof. unfold sleeps_in. apply omap_app. Qed.

Lemma requests_in_app (t t' : list event) :
  requests_in (t ++ t') = (requests_in t + requests_in t')%nat.
Proof. unfold requests_in. rewrite omap_app, length_app. reflexivity. Qed.

(** ** The retry loop *)

Section RetryLoop.
Variable json_loads : list N -> loads_result.
Variable svc : service.
Variables file_name text_content : list N.

Lemma attempt_once_run (attempt : nat) (w : world) :
  exists t,
    attempt_once json_loads svc file_name text_content attempt w
    = (Ok (match classify_reply json_loads (respond svc (served w)) with
           | Succeeds v => Some v
           | _ => None
           end),
       World (stdin w) (S (served w)) (trace w ++ t))
    /\ forallb api_event t = true
    /\ requests_in t = 1%nat
    /\ sleeps_in t
       = match classify_reply json_loads (respond svc (served w)) with
         | Fails => [(2 ^ attempt)%nat]
         | _ => []
         end.
Proof.
  unfold attempt_once, try_except, bind, create_completion, classify_reply,
    loads, print, sleep, emit, ret, raise, is_Exception.
  destruct (respond svc (served w)) as [|[content|]]; cbn [stdin served trace].
  - eexists. split; [rewrite <- !app_assoc; reflexivity|].
    repeat split; reflexivity.
  - destruct (json_loads (clean_content content)); cbn [stdin served trace].
    + eexists. split; [reflexivity|]. repeat split; reflexivity.
    + eexists. split; [rewrite <- !app_assoc; reflexivity|].
      repeat split; reflexivity.
    + eexists. split; [rewrite <- !app_assoc; reflexivity|].
      repeat split; reflexivity.
  - eexists. split; [rewrite <- !app_assoc; reflexivity|].
    repeat split; reflexivity.
Qed.

Lemma retry_loop_run (n : nat) : forall (first : nat) (w : world),
  exists t,
    let '(v, used, waits) :=
      budget first
        (map (fun k => classify_reply json_loads
                         (respond svc (served w + k)%nat)) (seq 0 n)) in
    retry_loop json_loads svc file_name text_content (seq first n) w
    = (Ok v, World (stdin w) (served w + used)%nat (trace w ++ t))
    /\ forallb api_event t = true
    /\ requests_in t = used /\ (used <= n)%nat
    /\ sleeps_in t = waits.
Proof.
  induction n as [|n IH]; intros first w.
  - exists []. simpl. rewrite app_nil_r, Nat.add_0_r. unfold ret.
    destruct w; repeat split; reflexivity.
  - cbn [seq map budget retry_loop]. unfold bind.
    destruct (attempt_once_run first w) as [t1 [Hrun [Hapi [Hreq Hsl]]]].
    rewrite Hrun. rewrite Nat.add_0_r.
    rewrite <- seq_shift, map_map.
    destruct (classify_reply json_loads (respond svc (served w))) as [v| |].
    + exists t1. unfold ret. rewrite Nat.add_1_r.
      repeat split; [exact Hapi | exact Hreq | lia | exact Hsl].
    + destruct (IH (S first) (World (stdin w) (S (served w)) (trace w ++ t1)))
        as [t2 Hrest].
      cbn [stdin served trace] in Hrest.
      erewrite map_ext in Hrest
        by (intros k; rewrite Nat.add_succ_comm; reflexivity).
      destruct (budget (S first) _) as [[v used] waits].
      destruct Hrest as [Hloop [Hapi2 [Hreq2 [Hle Hsl2]]]].
      exists (t1 ++ t2). rewrite Hloop.
      rewrite <- app_assoc, Nat.add_succ_comm, forallb_app, Hapi, Hapi2.
      rewrite requests_in_app, sleeps_in_app, Hreq, Hreq2, Hsl, Hsl2.
      repeat split; lia.
    + destruct (IH (S first) (World (stdin w) (S (served w)) (trace w ++ t1)))
        as [t2 Hrest].
      cbn [stdin served trace] in Hrest.
      erewrite map_ext in Hrest
        by (intros k; rewrite Nat.add_succ_comm; reflexivity).
      destruct (budget (S first) _) as [[v used] waits].
      destruct Hrest as [Hloop [Hapi2 [Hreq2 [Hle Hsl2]]]].
      exists (t1 ++ t2). rewrite Hloop.
      rewrite <- app_assoc, Nat.add_succ_comm, forallb_app, Hapi, Hapi2.
      rewrite requests_in_app, sleeps_in_app, Hreq, Hreq2, Hsl, Hsl2.
      repeat split; lia.
Qed.

(** [call_ai_api] always returns, reads no input and adds only events of
    its own. *)
Lemma call_ai_api_returns (w : world) :
  exists v t,
    call_ai_api json_loads svc file_name text_content w
    = (Ok v, World (stdin w) (served w + requests_in t)%nat (trace w ++ t))
    /\ forallb api_event t = true.
Proof.
  unfold call_ai_api.
  destruct (unset (OPENAI_BASE_URL svc) || unset (OPENAI_API_KEY svc)).
  { exists PNone, [EvPrint MsgNoConfig]. simpl. rewrite Nat.add_0_r.
    split; reflexivity. }
  destruct (client_init_ok svc).
  2:{ exists PNone, [EvPrint MsgClientInitFailed]. simpl.
      rewrite Nat.add_0_r. split; reflexivity. }
  simpl negb. cbv iota.
  destruct (retry_loop_run 3 0 w) as [t Hrun].
  destruct (budget 0 _) as [[v used] waits].
  destruct Hrun as [Hloop [Hapi [Hreq _]]].
  exists v, t. rewrite Hreq. split; assumption.
Qed.
End RetryLoop.

(** C2, as amended. A reply whose content fails JSON parsing after the
    code-fence clean-up spends one of the three attempts of the retry
    budget, like a transport or service failure, but the next attempt
    follows it without a wait; the wait of 2^attempt time units
    (attempt = 0, 1, 2) comes only after a transport or service failure.
    Attempt by attempt, and for the whole call of a configured client. *)
Theorem malformed_reply_spends_attempt_without_wait
    (json_loads : list N -> loads_result) (svc : service)
    (file_name text_content : list N) (w : world) :
  (forall attempt : nat,
     exists t,
       attempt_once json_loads svc file_name text_content attempt w
       = (Ok (match classify_reply json_loads (respond svc (served w)) with
              | Succeeds v => Some v
              | _ => None
              end),
          World (stdin w) (S (served w)) (trace w ++ t))
       /\ requests_in t = 1%nat
       /\ sleeps_in t
          = match classify_reply json_loads (respond svc (served w)) with
            | Fails => [(2 ^ attempt)%nat]
            | _ => []
            end)
  /\ (configured svc ->
      forall (v : pyval) (used : nat) (waits : list nat),
        budget 0
          (map (fun k => classify_reply json_loads
                           (respond svc (served w + k)%nat)) (seq 0 3))
        = (v, used, waits) ->
        exists t,
          call_ai_api json_loads svc file_name text_content w
          = (Ok v, World (stdin w) (served w + used)%nat (trace w ++ t))
          /\ requests_in t = used /\ (used <= 3)%nat
          /\ sleeps_in t = waits).
Proof.
  split.
  - intros attempt.
    destruct (attempt_once_run json_loads svc file_name text_content
                attempt w) as [t [Hrun [_ [Hreq Hsl]]]].
    exists t. auto.
  - intros [Hurl [Hkey Hinit]] v used waits Hbudget.
    unfold call_ai_api. rewrite Hurl, Hkey, Hinit. simpl.
    destruct (retry_loop_run json_loads svc file_name text_content 3 0 w)
      as [t Hrun].
    rewrite Hbudget in Hrun.
    destruct Hrun as [Hloop [_ [Hreq [Hle Hsl]]]].
    exists t. auto.
Qed.

(** A transport failure, a malformed reply and then an empty object: three
    requests, one wait of one time unit. *)
Lemma malformed_reply_spends_attempt_without_wait_witness :
  exists t,
    call_ai_api Json.loads Examples.flaky py"scan.pdf" py"scan.pdf"
      (Examples.console [])
    = (Ok (PDict []), World [] 3 t)
    /\ requests_in t = 3%nat /\ (3 <= 3)%nat /\ sleeps_in t = [1%nat].
Proof.
  destruct (malformed_reply_spends_attempt_without_wait
              Json.loads Examples.flaky py"scan.pdf" py"scan.pdf"
              (Examples.console [])) as [_ Hcall].
  destruct (Hcall ltac:(repeat split) (PDict []) 3%nat [1%nat] eq_refl)
    as [t Ht].
  exists t. exact Ht.
Defined.

(** C2 as stated fails: three malformed replies use up the three attempts
    with no wait at all, where three transport failures wait 1, 2 and 4. *)
Lemma malformed_reply_wait_counterexample :
  (let run := call_ai_api Json.loads
                (Examples.always py"Sorry, I cannot classify this.")
                py"scan.pdf" py"scan.pdf" (Examples.console []) in
   fst run = Ok PNone
   /\ served (snd run) = 3%nat
   /\ sleeps_in (trace (snd run)) = [])
  /\ (let run := call_ai_api Json.loads Examples.unreachable
                   py"scan.pdf" py"scan.pdf" (Examples.console []) in
      fst run = Ok PNone
      /\ served (snd run) = 3%nat
      /\ sleeps_in (trace (snd run)) = [1; 2; 4]%nat).
Proof. vm_compute. repeat split. Qed.

(** ** The per-file pipeline *)

Section ProcessFile.
Variable json_loads : list N -> loads_result.
Variable obj_str : pyval -> outcome (list N).
Variable svc : service.
Variable f : file_task.

Lemma process_forced (w : world) :
  process_file_with_ai json_loads obj_str svc f true w
  = finish obj_str f PNone true (after_preamble f w).
Proof.
  unfold process_file_with_ai, finish, after_preamble, effective_text,
    bind, print, emit, ret.
  destruct (negb (truthy (PStr (strip (extracted f)))));
    cbn [stdin served trace negb fst snd];
    rewrite <- !app_assoc; reflexivity.
Qed.

Lemma process_unforced (w : world) :
  process_file_with_ai json_loads obj_str svc f false w
  = bind (call_ai_api json_loads svc (file_name f) (effective_text f))
      (fun ai_result =>
         bind (escalation ai_result)
           (fun use_manual => finish obj_str f ai_result use_manual))
      (after_preamble f w).
Proof.
  unfold process_file_with_ai, finish, after_preamble, effective_text,
    bind, print, emit, ret.
  destruct (negb (truthy (PStr (strip (extracted f)))));
    cbn [stdin served trace negb fst snd];
    rewrite <- !app_assoc; cbn [app];
    match goal with
    | |- context [call_ai_api ?a ?b ?c ?d ?w] =>
      destruct (call_ai_api a b c d w) as [[v|e|] w1]
    end; try reflexivity;
    destruct (escalation v w1) as [[um|e|] w2]; reflexivity.
Qed.

(** Choosing the output name touches neither the console nor the trace. *)
Lemma dedup_loop_pure (fuel : nat) (dir : directory)
    (new_name : list N) :
  forall (counter : nat) (final_name : list N) (w : world),
    snd (dedup_loop fuel dir new_name counter final_name w) = w.
Proof.
  induction fuel as [|fuel IH]; intros counter final_name w; simpl;
    [reflexivity|].
  unfold bind at 1. unfold lift, exists_in.
  destruct (refused dir final_name); [reflexivity|].
  destruct (bool_decide (final_name ∈ entries dir)); [|reflexivity].
  unfold bind, index, ret, raise.
  destruct (rsplit1 0x2E new_name !! 0%nat); [|reflexivity].
  destruct (rsplit1 0x2E new_name !! 1%nat); [|reflexivity].
  apply IH.
Qed.

Lemma build_name_pure (dir : directory) (r : pyval) (w : world) :
  snd (build_name obj_str dir r w) = w.
Proof.
  unfold build_name, bind, subscript, format_value, unique_name, ret,
    raise, lift.
  destruct r; try reflexivity.
  repeat match goal with
         | |- context [dict_lookup ?k ?d] =>
           destruct (dict_lookup k d) as [[]|]; try reflexivity
         end;
    repeat match goal with
           | |- context [obj_str ?v] =>
             destruct (obj_str v); try reflexivity
           end;
    apply dedup_loop_pure.
Qed.

Lemma build_name_manual (dir : directory) (l1 l2 l3 : list N)
    (w : world) :
  exists name,
    build_name obj_str dir (manual_result l1 l2 l3) w
    = (if refused dir name then Raise OSError else Ok name, w)
    /\ (refused dir name = true \/ (name ∉ entries dir)).
Proof.
  destruct (build_name_named obj_str dir _ _ _ _ w
              (eq_refl : dict_lookup py"exam_type"
                           [ (py"exam_type", PStr (or_default l1 py"期末"));
                             (py"semester", PStr (or_default l2 py"未知学期"));
                             (py"has_answer", PStr (or_default l3 py"无答案"));
                             (py"confidence", PFloat (FFinite 1));
                             (py"reasoning", PStr py"人工介入") ] = _)
              eq_refl eq_refl) as [n [Hrun [Hstop _]]].
  eexists. split; [exact Hrun | exact Hstop].
Qed.

(** Manual review when the context value can be shown: [None], a falsy
    value, or a dict.  The first question is always asked. *)
Lemma manual_intervention_run (text_content : list N) (v : pyval)
    (w : world) :
  (truthy v = true -> is_dict v = true) ->
  exists t,
    (forall l1 l2 l3 rest,
       stdin w = Line l1 :: Line l2 :: Line l3 :: rest ->
       manual_intervention (file_name f) text_content v w
       = (Ok (manual_result l1 l2 l3),
          World rest (served w) (trace w ++ t))
       /\ prompts_in t = [AskExamType; AskSemester; AskHasAnswer])
    /\ (forall e, console_exn 3 (stdin w) = Some e ->
        exists rest,
          manual_intervention (file_name f) text_content v w
          = (Raise e, World rest (served w) (trace w ++ t)))
    /\ forallb manual_event t = true
    /\ In (EvPrint (MsgManualHeader (file_name f))) t
    /\ exists ps, prompts_in t = AskExamType :: ps.
Proof using f.
  clear json_loads obj_str svc. intros Hshow.
  assert (Hv : (truthy v = true /\ exists d, v = PDict d)
               \/ truthy v = false).
  { destruct (truthy v) eqn:Tv; [left|right; reflexivity].
    split; [reflexivity|]. specialize (Hshow eq_refl).
    destruct v; try discriminate. eauto. }
  destruct w as [lines n tr].
  unfold manual_intervention, input_or_default, manual_result, or_default,
    bind, print, emit, input, ret, raise.
  destruct Hv as [[Tv [d ->]] | Tv]; rewrite Tv;
    destruct (truthy (PStr text_content));
    destruct lines as [|[l1|] [|[l2|] [|[l3|] rest]]];
    cbn [stdin served trace console_exn];
    eexists;
    (split;
     [ intros a b c r Heq;
       first [ discriminate Heq
             | injection Heq as <- <- <- <-;
               split; [rewrite <- ?app_assoc; reflexivity | reflexivity] ]
     | split;
       [ intros e He;
         first [ discriminate He
               | injection He as <-; eexists;
                 rewrite <- ?app_assoc; reflexivity ]
       | split; [reflexivity | split; [simpl; tauto | eexists; reflexivity]]
       ] ]).
Qed.

(** Manual review on a value that is truthy and not a dict stops at
    [ai_result.get]. *)
Lemma manual_intervention_adds (text_content : list N) (v : pyval) :
  adds manual_event (manual_intervention (file_name f) text_content v).
Proof.
  unfold manual_intervention, input_or_default.
  repeat first
    [ apply adds_bind; [|intros ?]
    | apply adds_emit; reflexivity
    | apply adds_input; reflexivity
    | apply adds_ret
    | apply adds_raise
    | match goal with
      | |- adds _ (if ?c then _ else _) => destruct c
      | |- adds _ (match ?x with _ => _ end) => destruct x
      end ].
Qed.

Lemma manual_intervention_header (text_content : list N) (v : pyval)
    (w : world) :
  exists t,
    trace (snd (manual_intervention (file_name f) text_content v w))
    = trace w ++ EvPrint (MsgManualHeader (file_name f)) :: t.
Proof.
  unfold manual_intervention at 1. unfold bind at 1. unfold print at 1.
  unfold emit at 1.
  match goal with
  | |- context [bind ?m ?k (World ?a ?b ?c)] =>
    pose proof (fun P H1 H2 => adds_bind (A:=unit) P m k H1 H2
                                 (World a b c)) as Hadd
  end.
  specialize (Hadd manual_event).
  destruct Hadd as [t [Ht _]].
  - destruct (truthy (PStr text_content));
      [apply adds_emit; reflexivity | apply adds_ret].
  - intros _. unfold input_or_default.
    repeat first
      [ apply adds_bind; [|intros ?]
      | apply adds_emit; reflexivity
      | apply adds_input; reflexivity
      | apply adds_ret
      | apply adds_raise
      | match goal with
        | |- adds _ (if ?c then _ else _) => destruct c
        | |- adds _ (match ?x with _ => _ end) => destruct x
        end ].
  - exists t. cbn [trace] in Ht. rewrite Ht, <- app_assoc. reflexivity.
Qed.

Lemma manual_intervention_result (text_content : list N) (v : pyval)
    (w : world) (r : pyval) (w' : world) :
  manual_intervention (file_name f) text_content v w = (Ok r, w') ->
  exists l1 l2 l3, r = manual_result l1 l2 l3.
Proof.
  destruct w as [lines n tr].
  unfold manual_intervention, input_or_default, manual_result, or_default,
    bind, print, emit, input, ret, raise.
  destruct (truthy (PStr text_content)); destruct (truthy v);
    try destruct v;
    destruct lines as [|[l1|] [|[l2|] [|[l3|] rest]]];
    cbn [stdin served trace]; intros H; try discriminate;
    injection H as <- _; eauto.
Qed.
End ProcessFile.

Lemma forallb_weaken {A} (P Q : A -> bool) (l : list A) :
  (forall x, P x = true -> Q x = true) ->
  forallb P l = true -> forallb Q l = true.
Proof. rewrite !forallb_forall. auto. Qed.

Lemma api_event_quiet (e : event) :
  api_event e = true -> not_rule_engine_notice e = true.
Proof. destruct e as [[]| | |]; simpl; congruence. Qed.

Lemma manual_event_quiet (e : event) :
  manual_event e = true -> not_rule_engine_notice e = true.
Proof. destruct e as [[]| | |]; simpl; congruence. Qed.

Lemma api_event_not_manual (e : event) :
  api_event e = true -> negb (manual_event e) = true.
Proof. destruct e as [[]|[]| |]; simpl; congruence. Qed.

Lemma preamble_events (f : file_task) (w : world) :
  exists t0,
    trace (after_preamble f w) = trace w ++ t0
    /\ forallb not_rule_engine_notice t0 = true
    /\ forallb (fun e => negb (manual_event e)) t0 = true
    /\ prompts_in t0 = []
    /\ stdin (after_preamble f w) = stdin w.
Proof.
  unfold after_preamble. eexists. split; [reflexivity|].
  destruct (negb (truthy (PStr (strip (extracted f))))); repeat split.
Qed.

(** What the classification call leaves behind, seen from the start of
    [process_file_with_ai]. *)
Lemma classification_events (json_loads : list N -> loads_result)
    (svc : service) (f : file_task) (w : world) (v : pyval) (w1 : world) :
  call_ai_api json_loads svc (file_name f) (effective_text f)
    (after_preamble f w) = (Ok v, w1) ->
  exists t1,
    w1 = World (stdin w) (served w1) (trace w ++ t1)
    /\ forallb not_rule_engine_notice t1 = true
    /\ forallb (fun e => negb (manual_event e)) t1 = true
    /\ prompts_in t1 = [].
Proof.
  destruct (preamble_events f w) as [t0 [Ht0 [Hq0 [Hm0 [Hp0 Hin]]]]].
  generalize dependent (after_preamble f w). intros w0 Ht0 Hin Hcall.
  destruct (call_ai_api_returns json_loads svc (file_name f)
              (effective_text f) w0) as [v' [t [Hrun Hapi]]].
  rewrite Hrun in Hcall. injection Hcall as -> <-.
  exists (t0 ++ t). cbn [served]. rewrite Ht0, Hin, <- app_assoc.
  split; [reflexivity|].
  rewrite !forallb_app, prompts_in_app, Hq0, Hm0, Hp0.
  rewrite (forallb_weaken _ _ _ api_event_quiet Hapi).
  rewrite (forallb_weaken _ _ _ api_event_not_manual Hapi).
  rewrite (forallb_api_event_prompts _ Hapi). repeat split.
Qed.

(** The route to manual review, once the decision has sent the file there
    with a context value that can be shown. *)
Lemma manual_review_route
    (json_loads : list N -> loads_result)
    (obj_str : pyval -> outcome (list N)) (svc : service) (f : file_task)
    (w w1 : world) (v : pyval) (m : message) :
  call_ai_api json_loads svc (file_name f) (effective_text f)
    (after_preamble f w) = (Ok v, w1) ->
  escalation v w1
  = (Ok true, World (stdin w1) (served w1) (trace w1 ++ [EvPrint m])) ->
  not_rule_engine_notice (EvPrint m) = true ->
  (truthy v = true -> is_dict v = true) ->
  exists t,
    forallb not_rule_engine_notice t = true
    /\ In (EvPrint (MsgManualHeader (file_name f))) t
    /\ (exists ps, prompts_in t = AskExamType :: ps)
    /\ (forall l1 l2 l3 rest,
          stdin w = Line l1 :: Line l2 :: Line l3 :: rest ->
          prompts_in t = [AskExamType; AskSemester; AskHasAnswer]
          /\ exists name,
               process_file_with_ai json_loads obj_str svc f false w
               = (named (output_dir f) name (manual_result l1 l2 l3),
                  World rest (served w1) (trace w ++ t))
               /\ (refused (output_dir f) name = true
                   \/ (name ∉ entries (output_dir f))))
    /\ (forall e, console_exn 3 (stdin w) = Some e ->
          exists rest,
            process_file_with_ai json_loads obj_str svc f false w
            = (Raise e, World rest (served w1) (trace w ++ t))).
Proof.
  intros Hcall Hesc Hquiet Hshow.
  destruct (classification_events _ _ _ _ _ _ Hcall)
    as [t1 [Hw1 [Hq1 [_ Hp1]]]].
  set (w2 := World (stdin w1) (served w1) (trace w1 ++ [EvPrint m])).
  assert (Hproc :
    process_file_with_ai json_loads obj_str svc f false w
    = bind (manual_intervention (file_name f) (effective_text f) v)
        (fun r => bind (build_name obj_str (output_dir f) r)
                    (fun name => ret (r, name))) w2).
  { rewrite process_unforced. unfold bind at 1. rewrite Hcall.
    unfold bind at 1. rewrite Hesc. reflexivity. }
  destruct (manual_intervention_run f (effective_text f) v w2 Hshow)
    as [t [Hok [Hfail [Hman [Hhead [ps Hps]]]]]].
  exists (t1 ++ [EvPrint m] ++ t).
  assert (Hstdin : stdin w2 = stdin w) by (subst w2; rewrite Hw1; reflexivity).
  assert (Htrace : trace w2 ++ t = trace w ++ t1 ++ [EvPrint m] ++ t).
  { subst w2. cbn [trace]. rewrite Hw1. cbn [trace].
    rewrite <- !app_assoc. reflexivity. }
  assert (Hpm : prompts_in [EvPrint m] = []) by reflexivity.
  split.
  { rewrite !forallb_app, Hq1.
    rewrite (forallb_weaken _ _ _ manual_event_quiet Hman).
    cbn [forallb]. rewrite Hquiet. reflexivity. }
  split.
  { apply in_or_app. right. apply in_or_app. right. exact Hhead. }
  split.
  { exists ps. rewrite !prompts_in_app, Hp1, Hpm, Hps. reflexivity. }
  split.
  - intros l1 l2 l3 rest Hin. rewrite <- Hstdin in Hin.
    destruct (Hok _ _ _ _ Hin) as [Hrun Hprompts].
    split; [rewrite !prompts_in_app, Hp1, Hpm, Hprompts; reflexivity|].
    destruct (build_name_manual obj_str (output_dir f) l1 l2 l3
                (World rest (served w2) (trace w2 ++ t)))
      as [name [Hname Hstop]].
    exists name. split; [|exact Hstop].
    rewrite Hproc. unfold bind at 1. rewrite Hrun. unfold bind at 1.
    rewrite Hname, Htrace. unfold named, ret.
    destruct (refused (output_dir f) name); reflexivity.
  - intros e He. rewrite <- Hstdin in He.
    destruct (Hfail e He) as [rest Hrun]. exists rest.
    rewrite Hproc. unfold bind at 1. rewrite Hrun, Htrace. reflexivity.
Qed.

(** C5. When the classification call returns [None] and manual review is
    not forced, the file goes to manual review and the first question is
    always asked. With three lines typed, the three questions are asked and
    the result is the one built from the three answers, under the name the
    naming loop stops at: the first candidate that is free (or, when that
    candidate cannot be looked up in the output directory, the run of this
    file ends in [OSError]). If Ctrl-C or the end of input comes before the
    third answer, the run ends in [KeyboardInterrupt] or [EOFError] with no
    result. The rule engine is not used. *)
Theorem failed_classification_goes_to_manual_review
    (json_loads : list N -> loads_result)
    (obj_str : pyval -> outcome (list N)) (svc : service) (f : file_task)
    (w w1 : world) :
  call_ai_api json_loads svc (file_name f) (effective_text f)
    (after_preamble f w) = (Ok PNone, w1) ->
  exists t,
    forallb not_rule_engine_notice t = true
    /\ In (EvPrint (MsgManualHeader (file_name f))) t
    /\ (exists ps, prompts_in t = AskExamType :: ps)
    /\ (forall l1 l2 l3 rest,
          stdin w = Line l1 :: Line l2 :: Line l3 :: rest ->
          prompts_in t = [AskExamType; AskSemester; AskHasAnswer]
          /\ exists name,
               process_file_with_ai json_loads obj_str svc f false w
               = (named (output_dir f) name (manual_result l1 l2 l3),
                  World rest (served w1) (trace w ++ t))
               /\ (refused (output_dir f) name = true
                   \/ (name ∉ entries (output_dir f))))
    /\ (forall e, console_exn 3 (stdin w) = Some e ->
          exists rest,
            process_file_with_ai json_loads obj_str svc f false w
            = (Raise e, World rest (served w1) (trace w ++ t))).
Proof.
  intros Hcall.
  apply (manual_review_route json_loads obj_str svc f w w1 PNone
           MsgAiFailed Hcall);
    [reflexivity | reflexivity | discriminate].
Qed.

(** With no endpoint configured, the operator answers the three questions
    with empty lines and the defaults are taken. *)
Lemma failed_classification_goes_to_manual_review_witness :
  exists t name,
    process_file_with_ai Json.loads str_of_scalar
      (Service None None true (fun _ => ReplyRaises))
      Examples.scan false (Examples.console [ []; []; [] ])
    = (Ok (manual_result [] [] [], name), World [] 0 t)
    /\ (name ∉ entries (output_dir Examples.scan))
    /\ prompts_in t = [AskExamType; AskSemester; AskHasAnswer].
Proof.
  destruct (failed_classification_goes_to_manual_review
              Json.loads str_of_scalar
              (Service None None true (fun _ => ReplyRaises))
              Examples.scan (Examples.console [ []; []; [] ])
              (World [ Line []; Line []; Line [] ] 0
                 [EvPrint (MsgProcessing py"scan.pdf"); EvPrint MsgUnreadable;
                  EvPrint MsgPreview; EvPrint MsgNoConfig])
              eq_refl) as [t [_ [_ [_ [Hthree _]]]]].
  destruct (Hthree [] [] [] [] eq_refl) as [Hp [name [Hrun Hstop]]].
  exists t, name. split; [exact Hrun|]. split; [|exact Hp].
  destruct Hstop as [H|H]; [discriminate H | exact H].
Defined.

Lemma adds_pure {A} (P : event -> bool) (m : io A) :
  (forall w, snd (m w) = w) -> adds P m.
Proof.
  intros Hm w. exists []. rewrite Hm, app_nil_r. split; reflexivity.
Qed.


(** The gate at 0.7 lets a confident result through without a question. *)
Lemma escalation_confident (d : list (list N * pyval)) (c : Q) (w : world) :
  dict_lookup py"confidence" d = Some (PFloat (FFinite c)) ->
  (float_0_7 <= c)%Q ->
  escalation (PDict d) w
  = (Ok false, World (stdin w) (served w) (trace w ++ [EvPrint MsgAiOk])).
Proof.
  intros Hc Hle. unfold escalation, dict_get. rewrite Hc.
  cbn [is_none lt_float].
  apply Qle_bool_iff in Hle. rewrite Hle. reflexivity.
Qed.

(** A value that is neither [None] nor a dict is sent to manual review. *)
Lemma escalation_bad_format (v : pyval) (w : world) :
  v <> PNone -> is_dict v = false ->
  escalation v w
  = (Ok true, World (stdin w) (served w) (trace w ++ [EvPrint MsgBadFormat])).
Proof.
  intros Hnone Hdict. destruct v; try reflexivity; simpl in *; congruence.
Qed.





Section Finish.
Variable obj_str : pyval -> outcome (list N).
Variable f : file_task.

Lemma build_name_adds (P : event -> bool) (r : pyval) :
  adds P (build_name obj_str (output_dir f) r).
Proof. apply adds_pure. intros w. apply build_name_pure. Qed.


End Finish.

(** C4. When the classification call returns a dict shaped as a
    ClassificationResult whose confidence is at least 0.7, and manual
    review is not forced, that dict is the final result, unchanged; no
    question is asked and no manual review takes place. The result comes
    with the name the naming loop stops at: the first candidate that is free
    (or, when that candidate cannot be looked up in the output directory,
    the run of this file ends in [OSError], still without a question). *)
Theorem confident_result_accepted_without_prompt
    (json_loads : list N -> loads_result)
    (obj_str : pyval -> outcome (list N)) (svc : service) (f : file_task)
    (w w1 : world) (d : list (list N * pyval)) :
  call_ai_api json_loads svc (file_name f) (effective_text f)
    (after_preamble f w) = (Ok (PDict d), w1) ->
  ClassificationResult_shaped d ->
  confidence_at_least float_0_7 d ->
  exists name t,
    process_file_with_ai json_loads obj_str svc f false w
    = (named (output_dir f) name (PDict d),
       World (stdin w) (served w1) (trace w ++ t))
    /\ prompts_in t = []
    /\ forallb (fun e => negb (manual_event e)) t = true
    /\ (refused (output_dir f) name = true
        \/ (name ∉ entries (output_dir f))).
Proof.
  intros Hcall Hshape [c [Hc Hle]].
  destruct Hshape as [e [s [h [c' [r [He [_ [Hs [Hh [Hvalid _]]]]]]]]]].
  destruct (classification_events _ _ _ _ _ _ Hcall)
    as [t1 [Hw1 [_ [Hm1 Hp1]]]].
  assert (Hnonempty : truthy (PDict d) && is_dict (PDict d) = true).
  { destruct d; [discriminate He | reflexivity]. }
  pose (w2 := World (stdin w1) (served w1) (trace w1 ++ [EvPrint MsgAiOk])).
  destruct (build_name_named obj_str (output_dir f) d e s h w2 He Hs Hh)
    as [n [Hname [Hstop _]]].
  exists (candidate (name_stem e s h) n), (t1 ++ [EvPrint MsgAiOk]).
  split.
  - rewrite process_unforced. unfold bind at 1. rewrite Hcall.
    unfold bind at 1. rewrite (escalation_confident d c w1 Hc Hle).
    unfold finish. rewrite Hnonempty. unfold bind at 1. unfold ret at 1.
    unfold bind at 1. fold w2. rewrite Hname. unfold named, ret, w2.
    rewrite Hw1. cbn [stdin served trace]. rewrite <- app_assoc.
    destruct (refused (output_dir f) (candidate (name_stem e s h) n));
      reflexivity.
  - rewrite prompts_in_app, forallb_app, Hp1, Hm1.
    repeat split. exact Hstop.
Qed.

(** A well-formed answer with confidence 0.9. *)
Lemma confident_result_accepted_without_prompt_witness :
  exists d name t,
    process_file_with_ai Json.loads str_of_scalar
      (Examples.always
         (Examples.json
            py"{'exam_type': '期中', 'semester': '2023秋季', 'has_answer': '带答案', 'confidence': 0.9, 'reasoning': 'title'}"))
      Examples.scan false (Examples.console [])
    = (Ok (PDict d, name), World [] 1 t)
    /\ dict_lookup py"semester" d = Some (PStr py"2023秋季")
    /\ prompts_in t = []
    /\ forallb (fun e => negb (manual_event e)) t = true
    /\ (name ∉ entries (output_dir Examples.scan)).
Proof.
  edestruct (confident_result_accepted_without_prompt
               Json.loads str_of_scalar
               (Examples.always
                  (Examples.json
                     py"{'exam_type': '期中', 'semester': '2023秋季', 'has_answer': '带答案', 'confidence': 0.9, 'reasoning': 'title'}"))
               Examples.scan (Examples.console []))
    as [name [t [Hrun [Hp [Hm Hstop]]]]].
  - vm_compute. reflexivity.
  - exists py"期中", py"2023秋季", py"带答案",
      (8106479329266893 # 9007199254740992), py"title".
    repeat split; try reflexivity; try (left; reflexivity);
      unfold Qle; simpl; lia.
  - exists (8106479329266893 # 9007199254740992).
    split; [reflexivity|]. unfold Qle; simpl; lia.
  - eexists _, name, t. split; [exact Hrun|].
    split; [reflexivity|]. split; [exact Hp|]. split; [exact Hm|].
    destruct Hstop as [H|H]; [discriminate H | exact H].
Defined.




(** A dict accepted at the 0.7 gate that has no [exam_type] makes the file
    fail: the three naming fields are read with [final_result[...]]. *)
Lemma accepted_dict_without_exam_type
    (json_loads : list N -> loads_result)
    (obj_str : pyval -> outcome (list N)) (svc : service) (f : file_task)
    (w w1 : world) (d : list (list N * pyval)) :
  call_ai_api json_loads svc (file_name f) (effective_text f)
    (after_preamble f w) = (Ok (PDict d), w1) ->
  confidence_at_least float_0_7 d ->
  dict_lookup py"exam_type" d = None ->
  fst (process_file_with_ai json_loads obj_str svc f false w)
  = Raise (KeyError py"exam_type").
Proof.
  intros Hcall [c [Hc Hle]] Hmissing.
  assert (Hnonempty : truthy (PDict d) && is_dict (PDict d) = true).
  { destruct d; [discriminate Hc | reflexivity]. }
  rewrite process_unforced. unfold bind at 1. rewrite Hcall.
  unfold bind at 1. rewrite (escalation_confident d c w1 Hc Hle).
  unfold finish. rewrite Hnonempty. unfold bind at 1. unfold ret at 1.
  unfold bind at 1. unfold build_name, bind at 1, subscript.
  rewrite Hmissing. reflexivity.
Qed.

(** C6 fails on the code. The service answers with an object that has a
    confidence of 0.9 and a reasoning but no [exam_type]: the object is
    accepted without a question, and building the file name raises
    [KeyError] on [exam_type]. *)
Theorem accepted_result_missing_key_raises_KeyError :
  let run :=
    process_file_with_ai Json.loads str_of_scalar
      (Examples.always
         (Examples.json
            py"{'confidence': 0.9, 'reasoning': 'no title on the first page'}"))
      Examples.scan false (Examples.console []) in
  fst run = Raise (KeyError py"exam_type")
  /\ In (EvPrint MsgAiOk) (trace (snd run))
  /\ prompts_in (trace (snd run)) = [].
Proof.
  vm_compute. split; [reflexivity|]. split; [|reflexivity].
  do 4 right. left. reflexivity.
Qed.

(** * Further properties of the two scripts *)

(** ** White space *)

Lemma lstrip_spec (s : list N) :
  exists sp, s = sp ++ lstrip s /\ forallb isspace sp = true
    /\ forall x t, lstrip s = x :: t -> isspace x = false.
Proof.
  induction s as [|c s IH]; simpl.
  - exists []. repeat split; intros; discriminate.
  - destruct (isspace c) eqn:E.
    + destruct IH as [sp [Hs [Hsp Hhead]]]. exists (c :: sp).
      simpl. rewrite E, Hsp. rewrite <- Hs. repeat split. exact Hhead.
    + exists []. repeat split. intros x t H. injection H as <- _. exact E.
Qed.

Lemma rstrip_spec (s : list N) :
  exists sp, s = rstrip s ++ sp /\ forallb isspace sp = true
    /\ forall t x, rstrip s = t ++ [x] -> isspace x = false.
Proof.
  unfold rstrip. destruct (lstrip_spec (rev s)) as [sp [Hs [Hsp Hhead]]].
  exists (rev sp). split; [|split].
  - rewrite <- rev_app_distr, <- Hs, rev_involutive. reflexivity.
  - rewrite forallb_forall in *. intros x Hx. apply Hsp.
    apply in_rev. exact Hx.
  - intros t x H. apply (f_equal (@rev N)) in H.
    rewrite rev_involutive, rev_app_distr in H. simpl in H.
    exact (Hhead _ _ H).
Qed.

Lemma strip_stripped (s : list N) : stripped (strip s).
Proof.
  unfold strip. split.
  - intros x t H.
    destruct (rstrip_spec (lstrip s)) as [sp [Hs _]].
    destruct (lstrip_spec s) as [_ [_ [_ Hhead]]].
    rewrite H in Hs. simpl in Hs. exact (Hhead _ _ Hs).
  - intros t x H.
    destruct (rstrip_spec (lstrip s)) as [_ [_ [_ Hlast]]].
    exact (Hlast _ _ H).
Qed.

Lemma lstrip_fixed (s : list N) :
  (forall x t, s = x :: t -> isspace x = false) -> lstrip s = s.
Proof.
  intros H. destruct s as [|c s]; [reflexivity|]. simpl.
  rewrite (H c s eq_refl). reflexivity.
Qed.

Lemma rstrip_fixed (s : list N) :
  (forall t x, s = t ++ [x] -> isspace x = false) -> rstrip s = s.
Proof.
  intros H. unfold rstrip. rewrite lstrip_fixed.
  - apply rev_involutive.
  - intros x t Hr. apply (H (rev t) x).
    rewrite <- (rev_involutive s), Hr. reflexivity.
Qed.

Lemma strip_fixed (s : list N) : stripped s -> strip s = s.
Proof.
  intros [Hh Hl]. unfold strip. rewrite (lstrip_fixed s Hh).
  apply rstrip_fixed. exact Hl.
Qed.

(** ** The rule engine, case by case *)

Lemma year_search_result (s : list N) (m : match_obj) :
  re_search year_pattern s = Some m ->
  exists i y,
    year_token_at s i y /\ group 1 m = y
    /\ forall i' y', year_token_at s i' y' -> (i <= i')%nat.
Proof.
  intros Hm. unfold re_search in Hm. apply search_from_spec in Hm.
  destruct Hm as [i [Hi [Hat Hmin]]]. simpl in Hat.
  apply match_at_year in Hat. destruct Hat as [y [rest [Hd [Hy ->]]]].
  exists i, y. split; [split; [exact Hy | exists rest; exact Hd]|].
  split; [reflexivity|].
  intros i' y' [Hy' [rest' Hd']].
  destruct (le_lt_dec i i') as [H|H]; [exact H|exfalso].
  specialize (Hmin i' H). simpl in Hmin.
  assert (Hsome : match_at year_pattern i' (drop i' s)
                  = Some (MatchObj i' (5 + i') [(1%nat, y')])).
  { apply match_at_year. exists y', rest'. auto. }
  congruence.
Qed.

Lemma academic_year_search_none (s : list N) :
  (forall j a b, ~ academic_year_at s j a b) ->
  re_search academic_year_pattern s = None.
Proof.
  intros Hnone. destruct (re_search academic_year_pattern s) as [m|] eqn:E;
    [exfalso|reflexivity].
  unfold re_search in E. apply search_from_spec in E.
  destruct E as [j [_ [Hat _]]]. simpl in Hat.
  apply match_at_academic_year in Hat.
  destruct Hat as [a [b [rest [Hd [Ha [Hb _]]]]]].
  apply (Hnone j a b). split; [exact Ha|]. split; [exact Hb|].
  exists rest. exact Hd.
Qed.

Lemma academic_year_search_result (s : list N) (m : match_obj) :
  re_search academic_year_pattern s = Some m ->
  exists j a b, academic_year_at s j a b /\ group 1 m = a /\ group 2 m = b.
Proof.
  intros Hm. unfold re_search in Hm. apply search_from_spec in Hm.
  destruct Hm as [j [_ [Hat _]]]. simpl in Hat.
  apply match_at_academic_year in Hat.
  destruct Hat as [a [b [rest [Hd [Ha [Hb ->]]]]]].
  exists j, a, b. split; [|split; reflexivity].
  split; [exact Ha|]. split; [exact Hb|]. exists rest. exact Hd.
Qed.

Lemma no_academic_year_of_search (s : list N) :
  re_search academic_year_pattern s = None ->
  forall j a b, ~ academic_year_at s j a b.
Proof.
  intros Hnone j a b [Ha [Hb [rest Hd]]].
  assert (Hj : (j <= length s)%nat).
  { destruct (le_lt_dec j (length s)) as [H|H]; [exact H|].
    rewrite drop_ge in Hd by lia.
    destruct (digits4_inv a Ha) as [a1 [a2 [a3 [a4 [-> _]]]]].
    discriminate Hd. }
  pose proof (proj1 (search_from_none _ _ _) Hnone j Hj) as Hno.
  rewrite Nat.add_0_l in Hno.
  assert (Hsome : match_at academic_year_pattern j (drop j s)
                  = Some (MatchObj j (9 + j) [(2%nat, b); (1%nat, a)])).
  { apply match_at_academic_year. exists a, b, rest. auto. }
  congruence.
Qed.

(** The semester is 未知学期 exactly when no four decimal digits are directly
    followed by 年 in the text followed by the file name: without such a
    year token, ranges and seasons in the text are ignored; with one, the
    semester begins with digits. *)
Theorem semester_unknown_iff_no_year_token (text_content file_name : list N) :
  field py"semester" (fallback_rule_engine text_content file_name)
  = Some (PStr py"未知学期")
  <-> forall i y, ~ year_token_at (text_content ++ file_name) i y.
Proof.
  split.
  - intros Hsem i y Htoken.
    destruct (year_search_found _ _ _ Htoken) as [ym Hym].
    unfold fallback_rule_engine in Hsem. rewrite Hym in Hsem.
    rewrite season_suffix_app in Hsem. cbn in Hsem.
    assert (Hdigit : forall d, digits4 d ->
              forall rest, d ++ rest <> py"未知学期").
    { intros d Hd rest Heq.
      destruct (digits4_inv d Hd) as [a [b [c [e [-> [Ha _]]]]]].
      injection Heq as -> _. discriminate Ha. }
    destruct (re_search academic_year_pattern (text_content ++ file_name))
      as [m|] eqn:Hm.
    + destruct (academic_year_search_result _ _ Hm)
        as [j [a [b [[Ha _] [G1 G2]]]]].
      rewrite G1, G2 in Hsem. injection Hsem as Hsem.
      rewrite <- app_assoc in Hsem. exact (Hdigit a Ha _ Hsem).
    + destruct (year_search_result _ _ Hym) as [i0 [y0 [[Hy0 _] [G _]]]].
      rewrite G in Hsem. injection Hsem as Hsem.
      exact (Hdigit y0 Hy0 _ Hsem).
  - intros Hnone.
    destruct (re_search year_pattern (text_content ++ file_name))
      as [ym|] eqn:Hym.
    + exfalso. destruct (year_search_result _ _ Hym) as [i [y [Htoken _]]].
      exact (Hnone i y Htoken).
    + unfold fallback_rule_engine. rewrite Hym. reflexivity.
Qed.

(** A range and a season, but the year is written "2023-2024学年". *)
Lemma semester_unknown_iff_no_year_token_witness :
  field py"semester"
    (fallback_rule_engine py"2023-2024学年 春季学期 期末考试" py"paper.pdf")
  = Some (PStr py"未知学期")
  /\ forall i y,
       ~ year_token_at (py"2023-2024学年 春季学期 期末考试" ++ py"paper.pdf") i y.
Proof.
  pose proof (semester_unknown_iff_no_year_token
                py"2023-2024学年 春季学期 期末考试" py"paper.pdf") as H.
  split; [reflexivity|]. apply (proj1 H). reflexivity.
Defined.

(** With a year token and no "YYYY-YYYY" range, the semester is the digits
    of the leftmost year token followed by the season suffix. *)
Theorem semester_from_year_alone
    (text_content file_name : list N) (i : nat) (y : list N) :
  year_token_at (text_content ++ file_name) i y ->
  (forall i' y',
     year_token_at (text_content ++ file_name) i' y' -> (i <= i')%nat) ->
  (forall j a b, ~ academic_year_at (text_content ++ file_name) j a b) ->
  field py"semester" (fallback_rule_engine text_content file_name)
  = Some (PStr (y ++ season_suffix (text_content ++ file_name))).
Proof.
  intros Htoken Hleft Hnone.
  destruct (year_search_found _ _ _ Htoken) as [ym Hym].
  destruct (year_search_result _ _ Hym) as [i0 [y0 [Htoken0 [G Hleft0]]]].
  assert (Hi : i0 = i).
  { pose proof (Hleft _ _ Htoken0). pose proof (Hleft0 _ _ Htoken). lia. }
  subst i0.
  assert (Hy : y0 = y).
  { destruct Htoken as [Hd [rest Hr]]. destruct Htoken0 as [Hd0 [rest0 Hr0]].
    rewrite Hr in Hr0.
    destruct (digits4_inv y Hd) as [a [b [c [e [-> _]]]]].
    destruct (digits4_inv y0 Hd0) as [a0 [b0 [c0 [e0 [-> _]]]]].
    simpl in Hr0. congruence. }
  rewrite Hy in G.
  unfold fallback_rule_engine.
  rewrite Hym, (academic_year_search_none _ Hnone), G.
  rewrite season_suffix_app. reflexivity.
Qed.

(** An autumn paper dated by year only. *)
Lemma semester_from_year_alone_witness :
  field py"semester" (fallback_rule_engine py"2021年秋 期末" py"a.pdf")
  = Some (PStr py"2021秋季").
Proof.
  apply (semester_from_year_alone py"2021年秋 期末" py"a.pdf" 0 py"2021").
  - split; [split; reflexivity|]. eexists. reflexivity.
  - intros; lia.
  - apply no_academic_year_of_search. reflexivity.
Defined.

(** Of the six answer keywords three decide: [has_answer] is 带答案 exactly
    when 答案, 解答 or the letters "ans" occur somewhere in the text followed
    by the file name. *)
Theorem has_answer_decided_by_three_keywords
    (text_content file_name : list N) :
  field py"has_answer" (fallback_rule_engine text_content file_name)
  = Some (PStr (if contains py"答案" (text_content ++ file_name)
                   || contains py"解答" (text_content ++ file_name)
                   || contains py"ans" (text_content ++ file_name)
                then py"带答案" else py"无答案")).
Proof.
  unfold fallback_rule_engine, field, answer_keywords.
  cbn [dict_lookup pystr_eqb N.eqb Pos.eqb andb existsb].
  set (c := text_content ++ file_name).
  assert (H1 : contains py"参考答案" c = true -> contains py"答案" c = true)
    by (apply contains_trans; reflexivity).
  assert (H2 : contains py"含答案" c = true -> contains py"答案" c = true)
    by (apply contains_trans; reflexivity).
  assert (H3 : contains py"-ans" c = true -> contains py"ans" c = true)
    by (apply contains_trans; reflexivity).
  destruct (contains py"答案" c), (contains py"参考答案" c),
    (contains py"解答" c), (contains py"-ans" c), (contains py"含答案" c),
    (contains py"ans" c); try reflexivity;
    try (discriminate (H1 eq_refl)); try (discriminate (H2 eq_refl));
    try (discriminate (H3 eq_refl)).
Qed.

(** ** The classification call *)

Lemma budget_bounds (c0 c1 c2 : attempt_class) :
  (snd (fst (budget 0 [c0; c1; c2])) <= 3)%nat
  /\ (foldr Nat.add 0%nat (snd (budget 0 [c0; c1; c2])) <= 7)%nat.
Proof. destruct c0, c1, c2; simpl; lia. Qed.

(** Whatever the service and the decoder do, [call_ai_api] returns a value
    and raises nothing; it reads no input, sends at most three requests and
    sleeps at most 1 + 2 + 4 time units in all. *)
Theorem call_ai_api_returns_within_budget
    (json_loads : list N -> loads_result) (svc : service)
    (file_name text_content : list N) (w : world) :
  exists v t,
    call_ai_api json_loads svc file_name text_content w
    = (Ok v, World (stdin w) (served w + requests_in t)%nat (trace w ++ t))
    /\ (requests_in t <= 3)%nat
    /\ (total_sleep t <= 7)%nat
    /\ prompts_in t = [].
Proof.
  unfold call_ai_api.
  destruct (unset (OPENAI_BASE_URL svc) || unset (OPENAI_API_KEY svc)).
  { exists PNone, [EvPrint MsgNoConfig]. cbn. rewrite Nat.add_0_r.
    repeat split; lia. }
  destruct (client_init_ok svc).
  2:{ exists PNone, [EvPrint MsgClientInitFailed]. cbn. rewrite Nat.add_0_r.
      repeat split; lia. }
  cbn [negb].
  destruct (retry_loop_run json_loads svc file_name text_content 3 0 w)
    as [t Hrun].
  cbn [seq map] in Hrun.
  pose proof (budget_bounds
                (classify_reply json_loads (respond svc (served w + 0)%nat))
                (classify_reply json_loads (respond svc (served w + 1)%nat))
                (classify_reply json_loads (respond svc (served w + 2)%nat)))
    as [Hused Hwaits].
  destruct (budget 0 _) as [[v used] waits].
  destruct Hrun as [Hloop [Hapi [Hreq [_ Hsl]]]].
  exists v, t. rewrite Hreq. split; [exact Hloop|].
  cbn [fst snd] in Hused, Hwaits. unfold total_sleep. rewrite Hsl.
  repeat split; [exact Hused | exact Hwaits |].
  exact (forallb_api_event_prompts t Hapi).
Qed.

(** Without an endpoint, without a key, or when the client cannot be built,
    [call_ai_api] returns [None] at once: no request is sent and nothing is
    slept. *)
Theorem call_ai_api_disabled_sends_nothing
    (json_loads : list N -> loads_result) (svc : service)
    (file_name text_content : list N) (w : world) :
  unset (OPENAI_BASE_URL svc) = true \/ unset (OPENAI_API_KEY svc) = true
  \/ client_init_ok svc = false ->
  exists m,
    call_ai_api json_loads svc file_name text_content w
    = (Ok PNone, World (stdin w) (served w) (trace w ++ [EvPrint m])).
Proof.
  intros Hoff. unfold call_ai_api.
  destruct (unset (OPENAI_BASE_URL svc)) eqn:Hurl;
    [exists MsgNoConfig; reflexivity|].
  destruct (unset (OPENAI_API_KEY svc)) eqn:Hkey;
    [exists MsgNoConfig; reflexivity|].
  destruct Hoff as [H|[H|H]]; try discriminate H.
  rewrite H. exists MsgClientInitFailed. reflexivity.
Qed.

(** An endpoint without a key: the service would answer, but is not asked. *)
Lemma call_ai_api_disabled_sends_nothing_witness :
  exists m,
    call_ai_api Json.loads
      (Service (Some py"https://example.invalid/v1") (Some []) true
         (fun _ => ReplyContent (Some py"{}")))
      py"a.pdf" py"text" (Examples.console [])
    = (Ok PNone, World [] 0 ([] ++ [EvPrint m])).
Proof.
  apply (call_ai_api_disabled_sends_nothing Json.loads
           (Service (Some py"https://example.invalid/v1") (Some []) true
              (fun _ => ReplyContent (Some py"{}")))
           py"a.pdf" py"text" (Examples.console [])).
  right. left. reflexivity.
Defined.

(** The first reply that parses ends the call: if attempt [k] (0, 1 or 2)
    is the first whose reply parses, its value is returned after exactly
    [k + 1] requests, so a success on the third attempt counts; and if none
    of the three parses, [None] is returned after three requests. *)
Theorem call_ai_api_returns_first_parsed_reply
    (json_loads : list N -> loads_result) (svc : service)
    (file_name text_content : list N) (w : world) :
  configured svc ->
  (forall (k : nat) (v : pyval),
     (k < 3)%nat ->
     (forall j u, (j < k)%nat ->
        classify_reply json_loads (respond svc (served w + j)%nat)
        <> Succeeds u) ->
     classify_reply json_loads (respond svc (served w + k)%nat) = Succeeds v ->
     exists t,
       call_ai_api json_loads svc file_name text_content w
       = (Ok v, World (stdin w) (served w + S k)%nat (trace w ++ t))
       /\ requests_in t = S k)
  /\ ((forall j u, (j < 3)%nat ->
         classify_reply json_loads (respond svc (served w + j)%nat)
         <> Succeeds u) ->
      exists t,
        call_ai_api json_loads svc file_name text_content w
        = (Ok PNone, World (stdin w) (served w + 3)%nat (trace w ++ t))
        /\ requests_in t = 3%nat).
Proof.
  intros [Hurl [Hkey Hinit]].
  unfold call_ai_api. rewrite Hurl, Hkey, Hinit. cbn [orb negb].
  destruct (retry_loop_run json_loads svc file_name text_content 3 0 w)
    as [t Hrun].
  cbn [seq map] in Hrun.
  set (c0 := classify_reply json_loads (respond svc (served w + 0)%nat)) in *.
  set (c1 := classify_reply json_loads (respond svc (served w + 1)%nat)) in *.
  set (c2 := classify_reply json_loads (respond svc (served w + 2)%nat)) in *.
  split.
  - intros k v Hk Hbefore Hat.
    assert (H0 : (1 <= k)%nat -> forall u, c0 <> Succeeds u)
      by (intros ? u; apply Hbefore; lia).
    assert (H1 : (2 <= k)%nat -> forall u, c1 <> Succeeds u)
      by (intros ? u; apply Hbefore; lia).
    exists t.
    destruct k as [|[|[|k]]]; [| | |lia]; fold c0 c1 c2 in Hat.
    + rewrite Hat in Hrun. cbn in Hrun.
      destruct Hrun as [Hloop [_ [Hreq _]]]. auto.
    + specialize (H0 ltac:(lia)).
      destruct c0 as [u| |]; [exfalso; exact (H0 u eq_refl)| |];
        rewrite Hat in Hrun; cbn in Hrun;
        destruct Hrun as [Hloop [_ [Hreq _]]]; auto.
    + specialize (H0 ltac:(lia)). specialize (H1 ltac:(lia)).
      destruct c0 as [u| |]; [exfalso; exact (H0 u eq_refl)| |];
        (destruct c1 as [u| |]; [exfalso; exact (H1 u eq_refl)| |]);
        rewrite Hat in Hrun; cbn in Hrun;
        destruct Hrun as [Hloop [_ [Hreq _]]]; auto.
  - intros Hnone. exists t.
    assert (H0 : forall u, c0 <> Succeeds u) by (intros u; apply Hnone; lia).
    assert (H1 : forall u, c1 <> Succeeds u) by (intros u; apply Hnone; lia).
    assert (H2 : forall u, c2 <> Succeeds u) by (intros u; apply Hnone; lia).
    destruct c0 as [u| |]; [exfalso; exact (H0 u eq_refl)| |];
      (destruct c1 as [u| |]; [exfalso; exact (H1 u eq_refl)| |]);
      (destruct c2 as [u| |]; [exfalso; exact (H2 u eq_refl)| |]);
      cbn in Hrun; destruct Hrun as [Hloop [_ [Hreq _]]]; auto.
Qed.

(** Two failed attempts, then an empty object on the third. *)
Lemma call_ai_api_returns_first_parsed_reply_witness :
  exists t,
    call_ai_api Json.loads Examples.flaky py"scan.pdf" py"scan.pdf"
      (Examples.console [])
    = (Ok (PDict []), World [] 3 ([] ++ t))
    /\ requests_in t = 3%nat.
Proof.
  destruct (call_ai_api_returns_first_parsed_reply
              Json.loads Examples.flaky py"scan.pdf" py"scan.pdf"
              (Examples.console []) ltac:(repeat split)) as [Hfirst _].
  apply (Hfirst 2%nat (PDict [])).
  - lia.
  - intros j u Hj. destruct j as [|[|j]]; [discriminate|discriminate|lia].
  - reflexivity.
Defined.

(** ** Cleaning the reply *)

Lemma endswith_app (p s : list N) : endswith p (s ++ p) = true.
Proof.
  unfold endswith. rewrite rev_app_distr. apply startswith_spec. eauto.
Qed.

Lemma startswith_app (p s : list N) : startswith p (p ++ s) = true.
Proof. apply startswith_spec. eauto. Qed.

(** A reply wrapped as "```json ... ```" is unwrapped exactly: what is left
    is the body without the white space around it. Whatever the reply, the
    cleaned text has no white space at either end. *)
Theorem clean_content_unwraps_json_fence (body content : list N) :
  clean_content (py"```json" ++ body ++ py"```") = strip body
  /\ stripped (clean_content content).
Proof.
  split; [|apply strip_stripped].
  unfold clean_content. rewrite startswith_app.
  rewrite drop_app_length' by reflexivity.
  rewrite endswith_app, length_app.
  replace (length body + length py"```" - 3)%nat with (length body)
    by (simpl; lia).
  rewrite take_app_length. reflexivity.
Qed.

Lemma startswith_app_both (a p s : list N) :
  startswith (a ++ p) (a ++ s) = startswith p s.
Proof.
  induction a as [|x a IH]; [reflexivity|]. simpl.
  rewrite N.eqb_refl, IH. reflexivity.
Qed.

(** Only the opening fence tagged [json] is removed: a reply wrapped in a
    bare "```" fence loses its closing fence and keeps its opening one. *)
Theorem clean_content_keeps_bare_fence (body : list N) :
  startswith py"json" (body ++ py"```") = false ->
  startswith py"```" (clean_content (py"```" ++ body ++ py"```")) = true.
Proof.
  intros Hbare. unfold clean_content.
  change py"```json" with (py"```" ++ py"json").
  rewrite startswith_app_both, Hbare.
  rewrite (app_assoc py"```" body py"```"), endswith_app, length_app.
  replace (length (py"```" ++ body) + length py"```" - 3)%nat
    with (length (py"```" ++ body)) by (simpl; lia).
  rewrite take_app_length. unfold strip.
  rewrite lstrip_fixed by (intros x t H; injection H as <- _; reflexivity).
  destruct (rstrip_spec (py"```" ++ body)) as [sp [Hs [Hsp _]]].
  assert (Hno : forall t, sp <> 0x60 :: t).
  { intros t ->. discriminate Hsp. }
  destruct (rstrip (py"```" ++ body)) as [|a [|b [|c r]]]; simpl in Hs.
  - exfalso. exact (Hno _ (eq_sym Hs)).
  - exfalso. injection Hs as _ Hs. exact (Hno _ (eq_sym Hs)).
  - exfalso. injection Hs as _ _ Hs. exact (Hno _ (eq_sym Hs)).
  - injection Hs as <- <- <- _. reflexivity.
Qed.

(** A bare fence around an object. *)
Lemma clean_content_keeps_bare_fence_witness :
  startswith py"```"
    (clean_content (py"```" ++ py" {} " ++ py"```")) = true.
Proof.
  apply (clean_content_keeps_bare_fence py" {} "). reflexivity.
Defined.

(** ** Manual review *)

Lemma or_default_filled (line default : list N) :
  default <> [] -> stripped default ->
  or_default line default <> [] /\ stripped (or_default line default).
Proof.
  intros Hne Hst. unfold or_default.
  pose proof (strip_stripped line) as Hs.
  destruct (strip line) as [|x t]; [auto|]. split; [discriminate|exact Hs].
Qed.

Lemma literal_stripped (s : list N) :
  (match s with [] => true | x :: _ => negb (isspace x) end
   && match rev s with [] => true | x :: _ => negb (isspace x) end) = true ->
  stripped s.
Proof.
  intros H. apply andb_true_iff in H. destruct H as [Hh Hl]. split.
  - intros x t ->. apply negb_true_iff in Hh. exact Hh.
  - intros t x ->. rewrite rev_app_distr in Hl. simpl in Hl.
    apply negb_true_iff in Hl. exact Hl.
Qed.

(** Given its three answers, the manual review returns a result whose three
    naming fields are the answers without the white space around them, or
    the defaults 期末, 未知学期, 无答案 where an answer is blank; so no field is
    ever empty. It reads exactly three lines. *)
Theorem manual_intervention_fills_every_field
    (file_name text_content : list N) (ai_result : pyval) (w : world)
    (l1 l2 l3 : list N) (rest : list keyed) :
  (truthy ai_result = true -> is_dict ai_result = true) ->
  stdin w = Line l1 :: Line l2 :: Line l3 :: rest ->
  exists t,
    manual_intervention file_name text_content ai_result w
    = (Ok (manual_result l1 l2 l3), World rest (served w) (trace w ++ t))
    /\ prompts_in t = [AskExamType; AskSemester; AskHasAnswer]
    /\ (or_default l1 py"期末" <> [] /\ stripped (or_default l1 py"期末"))
    /\ (or_default l2 py"未知学期" <> []
        /\ stripped (or_default l2 py"未知学期"))
    /\ (or_default l3 py"无答案" <> [] /\ stripped (or_default l3 py"无答案")).
Proof.
  intros Hshow Hin.
  destruct (manual_intervention_run
              (FileTask file_name [] (Examples.folder ∅))
              text_content ai_result w Hshow) as [t [Hok _]].
  destruct (Hok _ _ _ _ Hin) as [Hrun Hprompts].
  exists t. split; [exact Hrun|]. split; [exact Hprompts|].
  repeat split; try (apply or_default_filled; [discriminate|]);
    try (apply or_default_filled; [discriminate|]);
    apply literal_stripped; reflexivity.
Qed.

(** A blank first answer, a padded second one. *)
Lemma manual_intervention_fills_every_field_witness :
  exists t,
    manual_intervention py"a.pdf" py"text" PNone
      (Examples.console [py"  "; py" 2023春季 "; py"带答案"; py"next"])
    = (Ok (manual_result py"  " py" 2023春季 " py"带答案"),
       World [Line py"next"] 0 ([] ++ t))
    /\ prompts_in t = [AskExamType; AskSemester; AskHasAnswer]
    /\ or_default py"  " py"期末" = py"期末"
    /\ or_default py" 2023春季 " py"未知学期" = py"2023春季".
Proof.
  destruct (manual_intervention_fills_every_field py"a.pdf" py"text" PNone
              (Examples.console [py"  "; py" 2023春季 "; py"带答案"; py"next"])
              py"  " py" 2023春季 " py"带答案" [Line py"next"]
              ltac:(discriminate) eq_refl) as [t [Hrun [Hp _]]].
  exists t. repeat split; assumption.
Defined.

(** ** More on the per-file pipeline *)

Lemma manual_intervention_attribute_error
    (file_name text_content : list N) (v : pyval) (w : world) :
  truthy v = true -> is_dict v = false ->
  exists t,
    manual_intervention file_name text_content v w
    = (Raise AttributeError, World (stdin w) (served w) (trace w ++ t))
    /\ prompts_in t = []
    /\ forallb not_rule_engine_notice t = true.
Proof.
  intros Htrue Hdict. unfold manual_intervention, bind, print, emit, ret, raise.
  rewrite Htrue.
  destruct (truthy (PStr text_content)); destruct v; try discriminate;
    cbn [stdin served trace]; eexists;
    (split; [rewrite <- ?app_assoc; reflexivity | split; reflexivity]).
Qed.

(** When the service's reply parses to a value that is truthy and not a
    dict (a non-empty array, a non-empty string, a non-zero number, [true]),
    the file is sent to manual review, which fails with [AttributeError]
    on [ai_result.get] before asking anything: the file gets no result and
    no line of input is read. *)
Theorem truthy_non_dict_reply_fails_the_file
    (json_loads : list N -> loads_result)
    (obj_str : pyval -> outcome (list N)) (svc : service) (f : file_task)
    (w w1 : world) (v : pyval) :
  call_ai_api json_loads svc (file_name f) (effective_text f)
    (after_preamble f w) = (Ok v, w1) ->
  truthy v = true -> is_dict v = false ->
  exists t,
    process_file_with_ai json_loads obj_str svc f false w
    = (Raise AttributeError, World (stdin w) (served w1) (trace w ++ t))
    /\ prompts_in t = []
    /\ forallb not_rule_engine_notice t = true.
Proof.
  intros Hcall Htrue Hdict.
  assert (Hnone : v <> PNone) by (intros ->; discriminate Htrue).
  destruct (classification_events _ _ _ _ _ _ Hcall)
    as [t1 [Hw1 [Hq1 [_ Hp1]]]].
  destruct (manual_intervention_attribute_error (file_name f)
              (effective_text f) v
              (World (stdin w1) (served w1)
                 (trace w1 ++ [EvPrint MsgBadFormat])) Htrue Hdict)
    as [t [Hrun [Hp Hq]]].
  exists (t1 ++ [EvPrint MsgBadFormat] ++ t).
  split.
  - rewrite process_unforced. unfold bind at 1. rewrite Hcall.
    unfold bind at 1. rewrite (escalation_bad_format v w1 Hnone Hdict).
    unfold finish. unfold bind at 1. rewrite Hrun.
    cbn [stdin served trace]. rewrite Hw1. cbn [stdin served trace].
    rewrite <- !app_assoc. reflexivity.
  - rewrite !prompts_in_app, !forallb_app, Hp1, Hp, Hq1, Hq.
    split; reflexivity.
Qed.

(** The service answers with a one-element array. *)
Lemma truthy_non_dict_reply_fails_the_file_witness :
  exists t,
    process_file_with_ai Json.loads str_of_scalar (Examples.always py"[1]")
      Examples.scan false (Examples.console [py"期中"; py"2023"; py""])
    = (Raise AttributeError,
       World [Line py"期中"; Line py"2023"; Line py""] 1 ([] ++ t))
    /\ prompts_in t = []
    /\ forallb not_rule_engine_notice t = true.
Proof.
  edestruct (truthy_non_dict_reply_fails_the_file Json.loads str_of_scalar
               (Examples.always py"[1]") Examples.scan
               (Examples.console [py"期中"; py"2023"; py""]))
    as [t Ht].
  - vm_compute. reflexivity.
  - reflexivity.
  - reflexivity.
  - exists t. exact Ht.
Defined.

(** A forced run: no request, then the manual review. *)
Lemma forced_review_run
    (json_loads : list N -> loads_result)
    (obj_str : pyval -> outcome (list N)) (svc : service) (f : file_task)
    (w : world) :
  exists t,
    requests_in t = 0%nat
    /\ forallb not_rule_engine_notice t = true
    /\ (forall l1 l2 l3 rest,
          stdin w = Line l1 :: Line l2 :: Line l3 :: rest ->
          exists name,
            process_file_with_ai json_loads obj_str svc f true w
            = (named (output_dir f) name (manual_result l1 l2 l3),
               World rest (served w) (trace w ++ t))
            /\ (refused (output_dir f) name = true
                \/ (name ∉ entries (output_dir f))))
    /\ (forall e, console_exn 3 (stdin w) = Some e ->
          exists rest,
            process_file_with_ai json_loads obj_str svc f true w
            = (Raise e, World rest (served w) (trace w ++ t))).
Proof.
  destruct (manual_intervention_run f (effective_text f) PNone
              (after_preamble f w))
    as [t [Hok [Hfail [Hman _]]]]; [discriminate|].
  assert (Hpre : exists t0,
            trace (after_preamble f w) = trace w ++ t0
            /\ requests_in t0 = 0%nat
            /\ forallb not_rule_engine_notice t0 = true).
  { unfold after_preamble. eexists. split; [reflexivity|].
    destruct (negb (truthy (PStr (strip (extracted f))))); split; reflexivity. }
  destruct Hpre as [t0 [Ht0 [Hr0 Hq0]]].
  assert (Hreq : requests_in t = 0%nat).
  { clear Hok Hfail. induction t as [|e t IH]; [reflexivity|].
    simpl in Hman. apply andb_true_iff in Hman. destruct Hman as [He Ht].
    specialize (IH Ht). destruct e as [[]|[]| |]; try discriminate He;
      exact IH. }
  exists (t0 ++ t). split; [rewrite requests_in_app; lia|].
  split.
  { rewrite forallb_app, Hq0.
    exact (forallb_weaken _ _ _ manual_event_quiet Hman). }
  assert (Hproc :
    process_file_with_ai json_loads obj_str svc f true w
    = bind (manual_intervention (file_name f) (effective_text f) PNone)
        (fun r => bind (build_name obj_str (output_dir f) r)
                    (fun name => ret (r, name))) (after_preamble f w)).
  { rewrite process_forced. reflexivity. }
  assert (Hsame : stdin (after_preamble f w) = stdin w) by reflexivity.
  assert (Hserved : served (after_preamble f w) = served w) by reflexivity.
  rewrite Hsame in Hok, Hfail.
  split.
  - intros l1 l2 l3 rest Hin. destruct (Hok _ _ _ _ Hin) as [Hrun _].
    rewrite Hserved, Ht0, <- app_assoc in Hrun.
    destruct (build_name_manual obj_str (output_dir f) l1 l2 l3
                (World rest (served w) (trace w ++ t0 ++ t)))
      as [name [Hname Hstop]].
    exists name. split; [|exact Hstop].
    rewrite Hproc. unfold bind at 1. rewrite Hrun. unfold bind at 1.
    rewrite Hname. unfold named, ret.
    destruct (refused (output_dir f) name); reflexivity.
  - intros e He. destruct (Hfail e He) as [rest Hrun].
    rewrite Hserved, Ht0, <- app_assoc in Hrun.
    exists rest. rewrite Hproc. unfold bind at 1. rewrite Hrun. reflexivity.
Qed.





(** A confidence that is not a number (a string, [null], an array, an
    object) makes the comparison with 0.7 raise [TypeError]; an integer too
    large for a float makes the progress line raise [OverflowError]. In both
    cases the file fails before any question and without a result. *)
Theorem unusable_confidence_fails_the_file
    (json_loads : list N -> loads_result)
    (obj_str : pyval -> outcome (list N)) (svc : service) (f : file_task)
    (w w1 : world) (d : list (list N * pyval)) (v : pyval) :
  call_ai_api json_loads svc (file_name f) (effective_text f)
    (after_preamble f w) = (Ok (PDict d), w1) ->
  dict_lookup py"confidence" d = Some v ->
  (not_a_number v = true ->
   process_file_with_ai json_loads obj_str svc f false w
   = (Raise TypeError, w1))
  /\ (forall z, v = PInt z -> (2 ^ 1024 <= Z.abs z)%Z ->
      process_file_with_ai json_loads obj_str svc f false w
      = (Raise OverflowError, w1)).
Proof.
  intros Hcall Hv. split.
  - intros Hnan. rewrite process_unforced. unfold bind at 1. rewrite Hcall.
    unfold bind at 1. unfold escalation, dict_get. rewrite Hv.
    destruct v; try discriminate Hnan; reflexivity.
  - intros z -> Hbig. rewrite process_unforced. unfold bind at 1.
    rewrite Hcall. unfold bind at 1. unfold escalation, dict_get.
    rewrite Hv. cbn [is_none lt_float].
    assert (Hfmt : format_2f (PInt z) = Raise OverflowError).
    { unfold format_2f.
      assert (Hle : (2 ^ 1024 - 2 ^ 970 <=? Z.abs z)%Z = true).
      { apply Z.leb_le. assert (0 < 2 ^ 970)%Z by (apply Z.pow_pos_nonneg; lia).
        lia. }
      rewrite Hle. reflexivity. }
    unfold bind, lift. rewrite Hfmt.
    destruct (negb (Qle_bool float_0_7 (inject_Z z))); reflexivity.
Qed.

(** The confidence comes back as the string "0.9". *)
Lemma unusable_confidence_fails_the_file_witness :
  fst (process_file_with_ai Json.loads str_of_scalar
         (Examples.always
            (Examples.json
               py"{'exam_type': '期中', 'semester': '2023', 'has_answer': '带答案', 'confidence': '0.9', 'reasoning': 'r'}"))
         Examples.scan false (Examples.console []))
  = Raise TypeError.
Proof.
  edestruct (unusable_confidence_fails_the_file Json.loads str_of_scalar
               (Examples.always
                  (Examples.json
                     py"{'exam_type': '期中', 'semester': '2023', 'has_answer': '带答案', 'confidence': '0.9', 'reasoning': 'r'}"))
               Examples.scan (Examples.console []))
    as [Htype _].
  - vm_compute. reflexivity.
  - reflexivity.
  - rewrite (Htype eq_refl). reflexivity.
Defined.

(** ** Termination and the names given *)

Lemma bind_Ok_inv {A B} (m : io A) (k : A -> io B) (w w' : world) (b : B) :
  bind m k w = (Ok b, w') ->
  exists a w1, m w = (Ok a, w1) /\ k a w1 = (Ok b, w').
Proof.
  unfold bind. destruct (m w) as [[a|e|] w1]; intros H;
    [eauto | discriminate H | discriminate H].
Qed.

Lemma halts_bind {A B} (m : io A) (k : A -> io B) :
  halts m -> (forall a, halts (k a)) -> halts (bind m k).
Proof.
  intros Hm Hk w. unfold bind. specialize (Hm w).
  destruct (m w) as [[a|e|] w1]; simpl in *;
    [apply Hk | discriminate | congruence].
Qed.

Lemma halts_ret {A} (a : A) : halts (ret a).
Proof. intros w. discriminate. Qed.

Lemma halts_raise {A} (e : exn) : halts (@raise A e).
Proof. intros w. discriminate. Qed.

Lemma halts_emit (e : event) : halts (emit e).
Proof. intros w. discriminate. Qed.

Lemma halts_input (p : prompt) : halts (input p).
Proof.
  intros w. unfold input. destruct (stdin w) as [|[line|] rest]; discriminate.
Qed.

Lemma halts_lift {A} (o : outcome A) : o <> Diverges -> halts (lift o).
Proof. intros H w. exact H. Qed.

Lemma format_value_run (obj_str : pyval -> outcome (list N)) (v : pyval)
    (w : world) :
  format_value obj_str v w
  = (match v with PStr s => Ok s | _ => obj_str v end, w).
Proof. destruct v; reflexivity. Qed.

(** What choosing a name can end in: an exception, a [str()] that does not
    return, or the first free candidate of the stem of the result. *)
Lemma build_name_cases (obj_str : pyval -> outcome (list N))
    (dir : directory) (r : pyval) (w : world) :
  (exists e, build_name obj_str dir r w = (Raise e, w))
  \/ (build_name obj_str dir r w = (Diverges, w)
      /\ exists v, obj_str v = Diverges)
  \/ (exists stem n,
        result_stem obj_str r = Some stem
        /\ build_name obj_str dir r w = (Ok (candidate stem n), w)
        /\ refused dir (candidate stem n) = false
        /\ (candidate stem n ∉ entries dir)
        /\ (forall j, (j < n)%nat ->
              refused dir (candidate stem j) = false
              /\ candidate stem j ∈ entries dir)
        /\ exists head, stem = head ++ py"-带答案"
                        \/ stem = head ++ py"-无答案").
Proof.
  unfold build_name, bind, subscript, ret, raise, result_stem, text_of.
  destruct r as [| | | | | |d]; try (left; eexists; reflexivity).
  destruct (dict_lookup py"exam_type" d) as [ve|];
    [|left; eexists; reflexivity].
  destruct (dict_lookup py"semester" d) as [vs|];
    [|left; eexists; reflexivity].
  destruct (dict_lookup py"has_answer" d) as [vh|];
    [|left; eexists; reflexivity].
  rewrite (format_value_run obj_str ve w).
  destruct (match ve with PStr s => Ok s | _ => obj_str ve end)
    as [e|x|] eqn:Fe.
  2:{ left. eexists. reflexivity. }
  2:{ right. left. split; [reflexivity|].
      destruct ve; try discriminate Fe; eauto. }
  rewrite (format_value_run obj_str vs w).
  destruct (match vs with PStr s => Ok s | _ => obj_str vs end)
    as [s|x|] eqn:Fs.
  2:{ left. eexists. reflexivity. }
  2:{ right. left. split; [reflexivity|].
      destruct vs; try discriminate Fs; eauto. }
  set (tag := if pyval_is_str py"带答案" vh then py"-带答案" else py"-无答案").
  assert (Hname :
    (if pyval_is_str py"带答案" vh
     then e ++ py"-" ++ s ++ py"-带答案.pdf"
     else e ++ py"-" ++ s ++ py"-无答案.pdf")
    = (e ++ py"-" ++ s ++ tag) ++ py".pdf").
  { unfold tag. destruct (pyval_is_str py"带答案" vh);
      repeat (rewrite <- app_assoc; simpl); reflexivity. }
  rewrite Hname.
  destruct (unique_name_spec dir (e ++ py"-" ++ s ++ tag) w)
    as [n [_ [Hbusy [Hstop Hrun]]]].
  rewrite Hrun.
  destruct (refused dir (candidate (e ++ py"-" ++ s ++ tag) n)) eqn:Hread;
    [left; eexists; reflexivity|].
  right. right.
  exists (e ++ py"-" ++ s ++ tag), n.
  split; [reflexivity|]. split; [reflexivity|]. split; [exact Hread|].
  split; [destruct Hstop as [H|H]; [discriminate H | exact H]|].
  split; [exact Hbusy|].
  exists (e ++ py"-" ++ s). unfold tag.
  destruct (pyval_is_str py"带答案" vh); [left | right];
    rewrite <- !app_assoc; reflexivity.
Qed.

Lemma build_name_halts (obj_str : pyval -> outcome (list N))
    (dir : directory) (r : pyval) :
  (forall v, obj_str v <> Diverges) -> halts (build_name obj_str dir r).
Proof.
  intros Hstr w.
  destruct (build_name_cases obj_str dir r w)
    as [[e H] | [[_ [v Hv]] | [stem [n [_ [H _]]]]]].
  - rewrite H. discriminate.
  - exfalso. exact (Hstr v Hv).
  - rewrite H. discriminate.
Qed.

Lemma call_ai_api_halts (json_loads : list N -> loads_result)
    (svc : service) (file_name text_content : list N) :
  halts (call_ai_api json_loads svc file_name text_content).
Proof.
  intros w.
  destruct (call_ai_api_returns json_loads svc file_name text_content w)
    as [v [t [H _]]].
  rewrite H. discriminate.
Qed.

Lemma lt_float_halts (v : pyval) (x : Q) : lt_float v x <> Diverges.
Proof. destruct v as [| | |[]| | |]; discriminate. Qed.

Lemma format_2f_halts (v : pyval) : format_2f v <> Diverges.
Proof.
  destruct v; try discriminate. simpl.
  destruct (2 ^ 1024 - 2 ^ 970 <=? Z.abs z)%Z; discriminate.
Qed.

Ltac halts_step :=
  first
    [ apply halts_bind; [|intros ?]
    | apply halts_emit
    | apply halts_input
    | apply halts_ret
    | apply halts_raise
    | apply halts_lift; first [apply lt_float_halts | apply format_2f_halts]
    | match goal with
      | |- halts (if ?c then _ else _) => destruct c
      | |- halts (match ?x with _ => _ end) => destruct x
      end ].

Lemma escalation_halts (v : pyval) : halts (escalation v).
Proof. unfold escalation, print. repeat halts_step. Qed.

Lemma manual_intervention_halts (file_name text_content : list N)
    (v : pyval) :
  halts (manual_intervention file_name text_content v).
Proof.
  unfold manual_intervention, input_or_default, print. repeat halts_step.
Qed.

Lemma process_file_with_ai_halts
    (json_loads : list N -> loads_result)
    (obj_str : pyval -> outcome (list N)) (svc : service) (f : file_task)
    (force_manual : bool) :
  (forall v, obj_str v <> Diverges) ->
  halts (process_file_with_ai json_loads obj_str svc f force_manual).
Proof.
  intros Hstr w.
  assert (Hfin : forall v um, halts (finish obj_str f v um)).
  { intros v um. unfold finish.
    apply halts_bind.
    - destruct um; [apply manual_intervention_halts|].
      destruct (truthy v && is_dict v); [apply halts_ret|].
      unfold print. repeat halts_step.
    - intros r. apply halts_bind; [apply build_name_halts; exact Hstr|].
      intros name. apply halts_ret. }
  destruct force_manual.
  - rewrite process_forced. apply Hfin.
  - rewrite process_unforced.
    apply (halts_bind (call_ai_api json_loads svc (file_name f)
                         (effective_text f))).
    + apply call_ai_api_halts.
    + intros v. apply halts_bind; [apply escalation_halts|].
      intros um. apply Hfin.
Qed.

(** Every run of [process_file_with_ai] ends, in a result or in an
    exception, provided [str()] itself returns or raises: the loop that
    looks for a free name always finds one, because the names it tries are
    pairwise different and the directory is finite. *)
Theorem process_file_with_ai_terminates
    (json_loads : list N -> loads_result)
    (obj_str : pyval -> outcome (list N)) (svc : service) (f : file_task)
    (force_manual : bool) (w : world) :
  (forall v, obj_str v <> Diverges) ->
  fst (process_file_with_ai json_loads obj_str svc f force_manual w)
  <> Diverges.
Proof.
  intros Hstr.
  exact (process_file_with_ai_halts json_loads obj_str svc f force_manual
           Hstr w).
Qed.

(** The reference [str()] always returns. *)
Lemma process_file_with_ai_terminates_witness :
  fst (process_file_with_ai Json.loads str_of_scalar
         (Examples.always py"{}") Examples.scan false
         (Examples.console [py"n"]))
  <> Diverges.
Proof.
  apply (process_file_with_ai_terminates Json.loads str_of_scalar
           (Examples.always py"{}") Examples.scan false
           (Examples.console [py"n"])).
  intros v. destruct v as [|[]| |[]| | |]; discriminate.
Defined.

Lemma endswith_pdf_candidate (stem : list N) (k : nat) :
  endswith py".pdf" (candidate stem k) = true.
Proof.
  destruct k; unfold candidate.
  - apply endswith_app.
  - rewrite !app_assoc. apply endswith_app.
Qed.

(** A run that returns a result and a name chose the name for that result. *)
Lemma process_named (json_loads : list N -> loads_result)
    (obj_str : pyval -> outcome (list N)) (svc : service) (f : file_task)
    (force_manual : bool) (w wf : world) (r : pyval) (name : list N) :
  process_file_with_ai json_loads obj_str svc f force_manual w
  = (Ok (r, name), wf) ->
  exists w2 w3, build_name obj_str (output_dir f) r w2 = (Ok name, w3).
Proof.
  intros Hrun. unfold process_file_with_ai in Hrun.
  apply bind_Ok_inv in Hrun. destruct Hrun as [? [? [_ Hrun]]].
  apply bind_Ok_inv in Hrun. destruct Hrun as [? [? [_ Hrun]]].
  apply bind_Ok_inv in Hrun. destruct Hrun as [? [? [_ Hrun]]].
  apply bind_Ok_inv in Hrun. destruct Hrun as [? [? [_ Hrun]]].
  apply bind_Ok_inv in Hrun. destruct Hrun as [fr [w2 [_ Hrun]]].
  apply bind_Ok_inv in Hrun. destruct Hrun as [n [w3 [Hb Hret]]].
  injection Hret as <- <- _. eauto.
Qed.

(** Whatever path a file takes through the pipeline, the name it ends with
    is the first free candidate for the result it ends with: with [stem]
    the "{exam_type}-{semester}-{带答案|无答案}" of that result, the name is
    "stem.pdf", or "stem_k.pdf" with "stem.pdf", "stem_1.pdf", ...,
    "stem_(k-1).pdf" all in the output directory; it is absent from the
    directory and ends in ".pdf". *)
Theorem assigned_name_is_first_free_candidate
    (json_loads : list N -> loads_result)
    (obj_str : pyval -> outcome (list N)) (svc : service) (f : file_task)
    (force_manual : bool) (w wf : world) (r : pyval) (name : list N) :
  process_file_with_ai json_loads obj_str svc f force_manual w
  = (Ok (r, name), wf) ->
  exists stem k,
    result_stem obj_str r = Some stem
    /\ name = candidate stem k
    /\ (name ∉ entries (output_dir f))
    /\ (forall j, (j < k)%nat -> candidate stem j ∈ entries (output_dir f))
    /\ endswith py".pdf" name = true.
Proof.
  intros Hrun.
  destruct (process_named _ _ _ _ _ _ _ _ _ Hrun) as [w2 [w3 Hb]].
  destruct (build_name_cases obj_str (output_dir f) r w2)
    as [[e H] | [[H _] | [stem [n [Hstem [H [_ [Hfree [Hbusy _]]]]]]]]];
    rewrite H in Hb; try discriminate Hb.
  injection Hb as <- _.
  exists stem, n. split; [exact Hstem|]. split; [reflexivity|].
  split; [exact Hfree|]. split; [intros j Hj; apply (Hbusy j Hj)|].
  apply endswith_pdf_candidate.
Qed.

(** The rule-engine path over a directory that holds the base name and the
    name with [_1]: the name given is the one with [_2]. *)
Lemma assigned_name_is_first_free_candidate_witness :
  exists stem k,
    result_stem str_of_scalar (fallback_rule_engine py"scan.pdf" py"scan.pdf")
    = Some stem
    /\ py"期末-未知学期-无答案_2.pdf" = candidate stem k
    /\ (py"期末-未知学期-无答案_2.pdf"
        ∉ entries (Examples.folder {[ py"期末-未知学期-无答案.pdf";
                                      py"期末-未知学期-无答案_1.pdf" ]}))
    /\ (forall j, (j < k)%nat ->
          candidate stem j
          ∈ entries (Examples.folder {[ py"期末-未知学期-无答案.pdf";
                                        py"期末-未知学期-无答案_1.pdf" ]}))
    /\ endswith py".pdf" py"期末-未知学期-无答案_2.pdf" = true.
Proof.
  eapply (assigned_name_is_first_free_candidate
            Json.loads str_of_scalar (Examples.always py"{}")
            (FileTask py"scan.pdf" []
               (Examples.folder {[ py"期末-未知学期-无答案.pdf";
                                   py"期末-未知学期-无答案_1.pdf" ]}))
            false (Examples.console [py"n"])).
  vm_compute. reflexivity.
Defined.

(** The name of a result that has a stem is looked for from "stem.pdf". *)
Lemma build_name_of_stem (obj_str : pyval -> outcome (list N))
    (dir : directory) (r : pyval) (stem : list N) (w : world) :
  result_stem obj_str r = Some stem ->
  build_name obj_str dir r w = unique_name dir (stem ++ py".pdf") w.
Proof.
  unfold build_name, bind, subscript, ret, raise, result_stem, text_of.
  destruct r as [| | | | | |d]; try discriminate.
  destruct (dict_lookup py"exam_type" d) as [ve|]; [|discriminate].
  destruct (dict_lookup py"semester" d) as [vs|]; [|discriminate].
  destruct (dict_lookup py"has_answer" d) as [vh|]; [|discriminate].
  rewrite (format_value_run obj_str ve w).
  destruct (match ve with PStr s => Ok s | _ => obj_str ve end)
    as [e|x|]; try discriminate.
  rewrite (format_value_run obj_str vs w).
  destruct (match vs with PStr s => Ok s | _ => obj_str vs end)
    as [s|x|]; try discriminate.
  intros Hstem. injection Hstem as <-.
  destruct (pyval_is_str py"带答案" vh);
    repeat (rewrite <- app_assoc; simpl); reflexivity.
Qed.

(** The output directory is asked about one candidate after the other, and
    a lookup that fails ends the naming: when [Path.exists()] raises on a
    candidate (a name longer than the file system takes, a directory that
    may not be searched) before a free name was found, the file ends in
    [OSError] and gets no name; otherwise it gets the first free
    candidate. *)
Theorem failed_lookup_ends_naming_with_OSError
    (obj_str : pyval -> outcome (list N)) (dir : directory) (r : pyval)
    (stem : list N) (w : world) :
  result_stem obj_str r = Some stem ->
  exists n,
    (n <= size (entries dir))%nat
    /\ (forall j, (j < n)%nat ->
          refused dir (candidate stem j) = false
          /\ candidate stem j ∈ entries dir)
    /\ ((refused dir (candidate stem n) = true
         /\ build_name obj_str dir r w = (Raise OSError, w))
        \/ (refused dir (candidate stem n) = false
            /\ (candidate stem n ∉ entries dir)
            /\ build_name obj_str dir r w = (Ok (candidate stem n), w))).
Proof.
  intros Hstem. rewrite (build_name_of_stem obj_str dir r stem w Hstem).
  destruct (unique_name_spec dir stem w) as [n [Hn [Hbusy [Hstop Hrun]]]].
  exists n. split; [exact Hn|]. split; [exact Hbusy|].
  rewrite Hrun.
  destruct (refused dir (candidate stem n)) eqn:Hread.
  - left. split; reflexivity.
  - right. split; [reflexivity|].
    split; [destruct Hstop as [H|H]; [discriminate H | exact H]|].
    reflexivity.
Qed.

(** A directory that holds the base name and cannot be asked about names of
    more than eighteen characters: the second candidate cannot be looked
    up. *)
Lemma failed_lookup_ends_naming_with_OSError_witness :
  build_name str_of_scalar
    (Directory {[ py"期中-2023秋季-带答案.pdf" ]}
       (fun name => (18 <? length name)%nat))
    (manual_result py"期中" py"2023秋季" py"带答案") (World [] 0 [])
  = (Raise OSError, World [] 0 []).
Proof.
  destruct (failed_lookup_ends_naming_with_OSError str_of_scalar
              (Directory {[ py"期中-2023秋季-带答案.pdf" ]}
                 (fun name => (18 <? length name)%nat))
              (manual_result py"期中" py"2023秋季" py"带答案")
              py"期中-2023秋季-带答案" (World [] 0 []) eq_refl)
    as [n [Hn [_ [[_ Hrun] | [Hread [Hfree _]]]]]].
  - exact Hrun.
  - exfalso. vm_compute in Hn.
    assert (n = 0 \/ n = 1)%nat as [-> | ->] by lia.
    + apply Hfree. vm_compute. reflexivity.
    + vm_compute in Hread. discriminate Hread.
Defined.

(** ** The path checker and its command line *)

Section CheckerFacts.

Import PathChecker.

Lemma List_last_default {A} (c a b : A) (l : list A) :
  List.last (c :: l) a = List.last (c :: l) b.
Proof.
  revert c. induction l as [|d l IH]; intros c; [reflexivity|].
  change (List.last (d :: l) a = List.last (d :: l) b). apply IH.
Qed.

Lemma last_cons_last {A} (a : A) (l : list A) :
  last (a :: l) = Some (List.last l a).
Proof.
  revert a. induction l as [|b l IH]; intros a; [reflexivity|].
  change (last (a :: b :: l)) with (last (b :: l)). rewrite IH.
  destruct l as [|c l]; [reflexivity|].
  f_equal. change (List.last (c :: l) b = List.last (c :: l) a).
  apply List_last_default.
Qed.

Lemma checker_place (file_path : list N) :
  checker file_path
  = match place_of file_path with
    | Skipped => Ok (Some (true, py"跳过"))
    | ExamPaper name =>
      Ok (Some (false, py"试卷命名 " ++ name ++ py" 不符合规范"))
    | Notes => Ok (Some (true, py"课程笔记"))
    | CourseFile => Raise TypeError
    end.
Proof.
  unfold checker, place_of.
  pose proof (split_components 0x2F file_path) as Hall.
  destruct (split 0x2F file_path) as [|top [|second rest]] eqn:Hs;
    [reflexivity | reflexivity |].
  cbn [length Nat.ltb Nat.leb item lookup list_lookup obind].
  destruct (in_list top [py".git"; py".github"; py"script"]);
    [reflexivity|].
  destruct (pystr_eqb second py"试卷") eqn:Hexam.
  - unfold last_item.
    assert (Hlast : last (top :: second :: rest)
                    = Some (List.last rest second)).
    { change (last (top :: second :: rest)) with (last (second :: rest)).
      apply last_cons_last. }
    rewrite Hlast. cbn [obind].
    assert (Hname : forallb not_slash (List.last rest second) = true).
    { exact (last_components _ _ _ Hall Hlast). }
    destruct (exam_patterns_need_slash _ Hname) as [H1 H2].
    rewrite H1, H2. reflexivity.
  - destruct (pystr_eqb second py"笔记"); reflexivity.
Qed.

(** The thirty lines of [checker] decide on the first two components of the
    path alone.  There are four outcomes: skipped, notes, a rejected exam
    paper, and [TypeError]; the labels 试卷, 文件, 课件 and 作业 are never
    returned, no path is accepted as an exam paper, and the function never
    runs off its end. *)
Theorem checker_decides_on_first_two_components (file_path : list N) :
  checker file_path
  = match place_of file_path with
    | Skipped => Ok (Some (true, py"跳过"))
    | ExamPaper name =>
      Ok (Some (false, py"试卷命名 " ++ name ++ py" 不符合规范"))
    | Notes => Ok (Some (true, py"课程笔记"))
    | CourseFile => Raise TypeError
    end.
Proof. exact (checker_place file_path). Qed.

Lemma split_nonempty (sep : N) (s : list N) : split sep s <> [].
Proof.
  destruct s as [|c s]; simpl; [discriminate|].
  destruct (c =? sep); [discriminate|].
  destruct (split sep s); discriminate.
Qed.

Lemma split_without_sep (sep : N) (s : list N) :
  contains [sep] s = false -> split sep s = [s].
Proof.
  induction s as [|c s IH]; intros H; [reflexivity|].
  simpl in H. rewrite andb_true_r in H.
  apply orb_false_iff in H. destruct H as [Hc Hs].
  simpl. rewrite N.eqb_sym, Hc, (IH Hs). reflexivity.
Qed.

Lemma split_at_first_sep (sep : N) (s : list N) :
  contains [sep] s = true ->
  exists top s', s = top ++ sep :: s' /\ split sep s = top :: split sep s'.
Proof.
  induction s as [|c s IH]; intros H; [discriminate H|].
  simpl in H. rewrite andb_true_r in H. simpl.
  destruct (c =? sep) eqn:Hc.
  - apply N.eqb_eq in Hc. subst c. exists [], s. split; reflexivity.
  - rewrite N.eqb_sym, Hc in H. simpl in H.
    destruct (IH H) as [top [s' [-> Hsp]]].
    exists (c :: top), s'. split; [reflexivity|]. rewrite Hsp. reflexivity.
Qed.

(** A path is skipped exactly when it has no slash or lies under ".git",
    ".github" or "script"; every such path is valid for the checker. *)
Theorem checker_skips_top_level_and_tool_folders (file_path : list N) :
  checker file_path = Ok (Some (true, py"跳过"))
  <-> contains py"/" file_path = false
      \/ startswith py".git/" file_path = true
      \/ startswith py".github/" file_path = true
      \/ startswith py"script/" file_path = true.
Proof.
  rewrite checker_place. split.
  - intros H.
    destruct (contains py"/" file_path) eqn:Hc; [right | left; reflexivity].
    destruct (split_at_first_sep 0x2F file_path Hc) as [top [s' [-> Hs]]].
    unfold place_of in H. rewrite Hs in H.
    destruct (split 0x2F s') as [|second rest] eqn:Hs';
      [exfalso; exact (split_nonempty _ _ Hs')|].
    destruct (in_list top [py".git"; py".github"; py"script"]) eqn:Hin.
    + unfold in_list in Hin. simpl in Hin.
      rewrite orb_false_r in Hin.
      apply orb_true_iff in Hin. destruct Hin as [Hin|Hin];
        [|apply orb_true_iff in Hin; destruct Hin as [Hin|Hin]];
        apply pystr_eqb_eq in Hin; subst top.
      * left. reflexivity.
      * right. left. reflexivity.
      * right. right. reflexivity.
    + destruct (pystr_eqb second py"试卷"); [discriminate H|].
      destruct (pystr_eqb second py"笔记"); discriminate H.
  - intros [H | [H | [H | H]]].
    + unfold place_of. rewrite (split_without_sep _ _ H). reflexivity.
    + apply startswith_spec in H. destruct H as [post ->].
      unfold place_of. simpl.
      destruct (split 0x2F post) as [|second rest] eqn:Hs';
        [exfalso; exact (split_nonempty _ _ Hs') | reflexivity].
    + apply startswith_spec in H. destruct H as [post ->].
      unfold place_of. simpl.
      destruct (split 0x2F post) as [|second rest] eqn:Hs';
        [exfalso; exact (split_nonempty _ _ Hs') | reflexivity].
    + apply startswith_spec in H. destruct H as [post ->].
      unfold place_of. simpl.
      destruct (split 0x2F post) as [|second rest] eqn:Hs';
        [exfalso; exact (split_nonempty _ _ Hs') | reflexivity].
Qed.

Lemma check_paths_run (path_exists : list N -> outcome bool)
    (present : list N -> bool) (paths : list (list N))
    (invalid_files : list (list N * list N)) :
  (forall p, p ∈ paths -> path_exists p = Ok (present p)) ->
  CheckerMain.check_paths path_exists paths invalid_files
  = if existsb course_file (filter (fun p => present p = true) paths)
    then Raise TypeError
    else Ok (invalid_files
               ++ omap complaint (filter (fun p => present p = true) paths)).
Proof.
  revert invalid_files.
  induction paths as [|p paths IH]; intros acc Hex.
  - simpl. rewrite app_nil_r. reflexivity.
  - assert (Hrest : forall q, q ∈ paths -> path_exists q = Ok (present q)).
    { intros q Hq. apply Hex. right. exact Hq. }
    cbn [CheckerMain.check_paths]. rewrite (Hex p) by left.
    cbn [obind]. rewrite filter_cons.
    destruct (present p) eqn:Hp.
    + rewrite decide_True by reflexivity.
      cbn [negb existsb omap list_omap]. rewrite checker_place.
      unfold course_file at 1. unfold complaint at 1.
      destruct (place_of (CheckerMain.replace 0x5C 0x2F p)) as [|name| |];
        cbn [obind negb orb].
      * apply IH. exact Hrest.
      * rewrite (IH _ Hrest).
        destruct (existsb _ _); [reflexivity|].
        rewrite <- app_assoc. reflexivity.
      * apply IH. exact Hrest.
      * reflexivity.
    + rewrite decide_False by discriminate.
      cbn [negb]. apply IH. exact Hrest.
Qed.

(** How the command line ends.  It raises [TypeError] when it is given no
    path (the usage line is printed first, then [sys.exit(status=0)] fails)
    and when one of the paths that exist names a course file (nothing is
    printed, whatever was found before); in every other case it returns. *)
Theorem checker_main_ends_in_TypeError_on_course_files
    (path_exists : list N -> outcome bool) (present : list N -> bool)
    (argv : list (list N)) :
  (forall p, p ∈ tail argv -> path_exists p = Ok (present p)) ->
  let existing := filter (fun p => present p = true) (tail argv) in
  (length argv < 2 ->
     CheckerMain.main path_exists argv
     = ([CheckerMain.usage_line], Raise TypeError))%nat
  /\ (2 <= length argv -> existsb course_file existing = true ->
      CheckerMain.main path_exists argv = ([], Raise TypeError))%nat
  /\ (2 <= length argv -> existsb course_file existing = false ->
      snd (CheckerMain.main path_exists argv) = Ok tt)%nat.
Proof.
  intros Hex existing. unfold CheckerMain.main.
  rewrite (check_paths_run path_exists present _ _ Hex). fold existing.
  split; [|split].
  - intros Hlen. apply Nat.ltb_lt in Hlen. rewrite Hlen. reflexivity.
  - intros Hlen Hc. apply Nat.ltb_ge in Hlen. rewrite Hlen, Hc. reflexivity.
  - intros Hlen Hc. apply Nat.ltb_ge in Hlen. rewrite Hlen, Hc.
    destruct ([] ++ omap complaint existing); reflexivity.
Qed.

(** Every path exists; the second one is a slide of a course. *)
Lemma checker_main_ends_in_TypeError_on_course_files_witness :
  CheckerMain.main (fun _ => Ok true)
    [py"check_paths.py"; py"离散数学/试卷/期中-22级.pdf";
     py"离散数学/2023秋/课件/01-引言.pdf"]
  = ([], Raise TypeError).
Proof.
  apply (checker_main_ends_in_TypeError_on_course_files
           (fun _ => Ok true) (fun _ => true)
           [py"check_paths.py"; py"离散数学/试卷/期中-22级.pdf";
            py"离散数学/2023秋/课件/01-引言.pdf"]);
    [reflexivity | simpl; lia | vm_compute; reflexivity].
Defined.

(** When no existing path names a course file, the command line reports
    exactly the existing paths filed under 试卷, in the order given and as
    they were written on the command line, between the header and the two
    closing lines; with none of them it prints the line of success alone.
    Paths that do not exist, skipped paths and notes are never listed. *)
Theorem checker_main_reports_existing_exam_papers
    (path_exists : list N -> outcome bool) (present : list N -> bool)
    (argv : list (list N)) :
  (forall p, p ∈ tail argv -> path_exists p = Ok (present p)) ->
  (2 <= length argv)%nat ->
  let existing := filter (fun p => present p = true) (tail argv) in
  existsb course_file existing = false ->
  CheckerMain.main path_exists argv
  = (match omap complaint existing with
     | [] => [CheckerMain.valid_line]
     | invalid_files =>
       [CheckerMain.invalid_header]
         ++ map (fun fr => CheckerMain.report_line (fst fr) (snd fr))
              invalid_files
         ++ [CheckerMain.warning_line; CheckerMain.guide_line]
     end, Ok tt).
Proof.
  intros Hex Hlen existing Hc. unfold CheckerMain.main.
  rewrite (check_paths_run path_exists present _ _ Hex). fold existing.
  apply Nat.ltb_ge in Hlen. rewrite Hlen, Hc. rewrite app_nil_l.
  destruct (omap complaint existing); reflexivity.
Qed.

(** One exam paper written with backslashes, one deleted file, one note. *)
Lemma checker_main_reports_existing_exam_papers_witness :
  CheckerMain.main
    (fun p => Ok (negb (pystr_eqb p py"离散数学/试卷/old.pdf")))
    [py"check_paths.py"; py"离散数学\试卷\期中-22级.pdf";
     py"离散数学/试卷/old.pdf"; py"离散数学/笔记/a.md"]
  = ([CheckerMain.invalid_header;
      CheckerMain.report_line py"离散数学\试卷\期中-22级.pdf"
        py"试卷命名 期中-22级.pdf 不符合规范";
      CheckerMain.warning_line; CheckerMain.guide_line], Ok tt).
Proof.
  etransitivity.
  - apply (checker_main_reports_existing_exam_papers
             (fun p => Ok (negb (pystr_eqb p py"离散数学/试卷/old.pdf")))
             (fun p => negb (pystr_eqb p py"离散数学/试卷/old.pdf"))
             [py"check_paths.py"; py"离散数学\试卷\期中-22级.pdf";
              py"离散数学/试卷/old.pdf"; py"离散数学/笔记/a.md"]);
      [reflexivity | simpl; lia | vm_compute; reflexivity].
  - vm_compute. reflexivity.
Defined.

(** Paths that do not exist change nothing, as long as one argument is
    left: the command line behaves as if they had not been given. *)
Theorem checker_main_ignores_deleted_files
    (path_exists : list N -> outcome bool) (present : list N -> bool)
    (script : list N) (paths : list (list N)) :
  (forall p, p ∈ paths -> path_exists p = Ok (present p)) ->
  filter (fun p => present p = true) paths <> [] ->
  CheckerMain.main path_exists (script :: paths)
  = CheckerMain.main path_exists
      (script :: filter (fun p => present p = true) paths).
Proof.
  intros Hex Hne. unfold CheckerMain.main.
  assert (Hl1 : (length (script :: paths) <? 2)%nat = false).
  { destruct paths; [exfalso; apply Hne; reflexivity | reflexivity]. }
  assert (Hl2 : (length (script :: filter (fun p => present p = true) paths)
                 <? 2)%nat = false).
  { destruct (filter (fun p => present p = true) paths);
      [exfalso; apply Hne; reflexivity | reflexivity]. }
  rewrite Hl1, Hl2. cbn [tail].
  rewrite (check_paths_run path_exists present paths [] Hex).
  rewrite (check_paths_run path_exists present
             (filter (fun p => present p = true) paths) []).
  - rewrite list_filter_filter.
    rewrite (list_filter_iff (fun p => present p = true /\ present p = true)
               (fun p => present p = true)) by (intros p; tauto).
    reflexivity.
  - intros p Hp. apply Hex. apply list_elem_of_filter in Hp. tauto.
Qed.

Lemma checker_main_ignores_deleted_files_witness :
  CheckerMain.main
    (fun p => Ok (negb (pystr_eqb p py"离散数学/试卷/old.pdf")))
    [py"check_paths.py"; py"离散数学/试卷/old.pdf"; py"README.md"]
  = CheckerMain.main
      (fun p => Ok (negb (pystr_eqb p py"离散数学/试卷/old.pdf")))
      [py"check_paths.py"; py"README.md"].
Proof.
  etransitivity.
  - apply (checker_main_ignores_deleted_files
             (fun p => Ok (negb (pystr_eqb p py"离散数学/试卷/old.pdf")))
             (fun p => negb (pystr_eqb p py"离散数学/试卷/old.pdf"))
             py"check_paths.py" [py"离散数学/试卷/old.pdf"; py"README.md"]);
      [reflexivity | vm_compute; discriminate].
  - vm_compute. reflexivity.
Defined.

End CheckerFacts.

(** ** Reading the head of a document *)

Section ExtractFacts.

Import Extract.

Lemma docx_loop_spec (ts : list (list N)) (rest : list (attempt (list N)))
    (acc : list N) :
  (length acc <= 800)%nat ->
  rest = [] \/ (800 < length (acc ++ joined ts))%nat ->
  exists text,
    docx_loop (map Got ts ++ rest) acc = Got text
    /\ take 800 text = take 800 (acc ++ joined ts).
Proof.
  revert acc. induction ts as [|t ts IH]; intros acc Hacc Hcase.
  - destruct Hcase as [-> | Hlong].
    + exists acc. split; [reflexivity|].
      unfold joined. simpl. rewrite app_nil_r. reflexivity.
    + unfold joined in Hlong. simpl in Hlong. rewrite app_nil_r in Hlong.
      lia.
  - assert (Hj : acc ++ joined (t :: ts)
                 = (acc ++ (t ++ [10])) ++ joined ts).
    { unfold joined. simpl. rewrite <- !app_assoc. reflexivity. }
    rewrite Hj in *. cbn [map app docx_loop].
    destruct (800 <? length (acc ++ (t ++ [10%N])))%nat eqn:Hlen.
    + apply Nat.ltb_lt in Hlen.
      exists (acc ++ (t ++ [10])). split; [reflexivity|].
      symmetry. apply take_app_le. lia.
    + apply Nat.ltb_ge in Hlen. apply IH; assumption.
Qed.

(** The text taken from a Word document is the first 800 characters of its
    first fifteen paragraphs, each followed by a line feed.  Leaving the
    loop early changes nothing, and a paragraph that comes after the text
    has passed 800 characters is not even read: whatever it is, readable or
    not, the result is the same. *)
Theorem docx_head_is_800_characters_of_15_paragraphs
    (docx_paragraphs : list N -> attempt (list (attempt (list N))))
    (file_path : list N) (texts : list (list N))
    (rest : list (attempt (list N))) :
  docx_paragraphs file_path = Got (map Got texts ++ rest) ->
  (length texts <= 15)%nat ->
  (length texts = 15 \/ rest = [] \/ 800 < length (joined texts))%nat ->
  extract_info_from_docx docx_paragraphs file_path
  = (take 800 (joined texts), []).
Proof.
  intros Hdoc Hlen Hcase. unfold extract_info_from_docx. rewrite Hdoc.
  assert (Htake : take 15 (map Got texts ++ rest)
                  = map (@Got (list N)) texts
                      ++ take (15 - length texts) rest).
  { rewrite take_app. rewrite length_map.
    rewrite take_ge by (rewrite length_map; lia). reflexivity. }
  rewrite Htake.
  destruct (docx_loop_spec texts (take (15 - length texts) rest) [])
    as [text [Hrun Htext]].
  - simpl. lia.
  - destruct Hcase as [H | [H | H]].
    + left. rewrite H. reflexivity.
    + left. rewrite H. destruct (15 - length texts)%nat; reflexivity.
    + right. exact H.
  - rewrite Hrun, Htext. reflexivity.
Qed.

(** Two paragraphs and nothing else. *)
Lemma docx_head_is_800_characters_of_15_paragraphs_witness :
  extract_info_from_docx
    (fun _ => Got [Got py"离散数学"; Got py"期中考试"]) py"a.docx"
  = (py"离散数学" ++ [10] ++ py"期中考试" ++ [10], []).
Proof.
  apply (docx_head_is_800_characters_of_15_paragraphs
           (fun _ => Got [Got py"离散数学"; Got py"期中考试"]) py"a.docx"
           [py"离散数学"; py"期中考试"] []);
    [reflexivity | simpl; lia | right; left; reflexivity].
Defined.

(** Whatever the two libraries do, [get_file_info] hands back at most 800
    characters and prints at most one line, and when it prints (a read
    failed) the text is empty. *)
Theorem get_file_info_is_bounded_and_never_fails
    (pdf_first_page : list N -> attempt (option (list N)))
    (docx_paragraphs : list N -> attempt (list (attempt (list N))))
    (file_path : list N) :
  let r := get_file_info pdf_first_page docx_paragraphs file_path in
  (length (fst r) <= 800)%nat
  /\ (length (snd r) <= 1)%nat
  /\ (snd r <> [] -> fst r = []).
Proof.
  unfold get_file_info, extract_info_from_pdf, extract_info_from_docx.
  destruct (pystr_eqb (lower (suffix file_path)) py".pdf").
  - destruct (pdf_first_page file_path) as [[text|]|e]; simpl.
    + rewrite length_take. split; [lia|]. split; [lia|]. congruence.
    + split; [lia|]. split; [lia|]. congruence.
    + split; [lia|]. split; [lia|]. reflexivity.
  - destruct (pystr_eqb (lower (suffix file_path)) py".doc"
              || pystr_eqb (lower (suffix file_path)) py".docx").
    + destruct (docx_paragraphs file_path) as [ps|e]; simpl.
      * destruct (docx_loop (take 15 ps) []) as [text|e]; simpl.
        -- rewrite length_take. split; [lia|]. split; [lia|]. congruence.
        -- split; [lia|]. split; [lia|]. reflexivity.
      * split; [lia|]. split; [lia|]. reflexivity.
    + simpl. split; [lia|]. split; [lia|]. congruence.
Qed.

Lemma path_name_app (dir name : list N) :
  contains py"/" name = false ->
  path_name (dir ++ py"/" ++ name) = name.
Proof.
  intros Hname. unfold path_name.
  induction dir as [|c dir IH].
  - simpl. rewrite (split_without_sep _ _ Hname). reflexivity.
  - simpl. simpl in IH.
    destruct (c =? 47).
    + destruct (split 47 (dir ++ 47 :: name)) as [|w ws] eqn:Hs;
        [exfalso; exact (split_nonempty _ _ Hs)|].
      exact IH.
    + destruct (split 47 (dir ++ 47 :: name)) as [|w ws] eqn:Hs;
        [exfalso; exact (split_nonempty _ _ Hs)|].
      destruct ws as [|w' ws].
      * exfalso. clear IH.
        assert (Hc : contains py"/" (dir ++ 47 :: name) = true).
        { apply contains_spec. exists dir, name. reflexivity. }
        destruct (split_at_first_sep _ _ Hc) as [top [s' [_ Hs2]]].
        rewrite Hs in Hs2. injection Hs2 as _ Hs2.
        symmetry in Hs2. exact (split_nonempty _ _ Hs2).
      * exact IH.
Qed.

Lemma rfind_last_dot (stem ext : list N) :
  forallb (fun c => negb (c =? 46)) ext = true ->
  rfind 46 (stem ++ 46 :: ext) = Some (length stem).
Proof.
  intros Hdot. unfold rfind. rewrite rev_app_distr. simpl rev.
  rewrite <- app_assoc.
  assert (Hgen : forall r tail0,
            forallb (fun c => negb (c =? 46)) r = true ->
            rfind_rev 46 (r ++ 46 :: tail0) = Some (length tail0)).
  { induction r as [|x r IHr]; intros tail0 Hr; simpl.
    - reflexivity.
    - simpl in Hr. apply andb_true_iff in Hr. destruct Hr as [Hx Hr].
      apply negb_true_iff in Hx. rewrite Hx. apply IHr. exact Hr. }
  change (rev ext ++ [46] ++ rev stem) with (rev ext ++ 46 :: rev stem).
  rewrite (Hgen (rev ext) (rev stem)).
  - rewrite length_rev. reflexivity.
  - apply forallb_forall. intros x Hx. apply in_rev in Hx.
    rewrite forallb_forall in Hdot. apply Hdot. exact Hx.
Qed.

Lemma contains_char_false (c : N) (s : list N) :
  contains [c] s = false <-> forallb (fun x => negb (x =? c)) s = true.
Proof.
  induction s as [|x s IH]; [simpl; tauto|].
  simpl. rewrite andb_true_r, orb_false_iff, andb_true_iff, negb_true_iff.
  rewrite (N.eqb_sym c x). tauto.
Qed.

Lemma suffix_of_extension (dir stem ext : list N) :
  stem <> [] -> contains py"/" (stem ++ 46 :: ext) = false ->
  ext <> [] -> forallb (fun c => negb (c =? 46)) ext = true ->
  suffix (dir ++ py"/" ++ stem ++ 46 :: ext) = 46 :: ext.
Proof.
  intros Hstem Hslash Hext Hdot. unfold suffix.
  rewrite (path_name_app dir _ Hslash).
  rewrite (rfind_last_dot stem ext Hdot).
  assert (H0 : (0 <? length stem)%nat = true).
  { apply Nat.ltb_lt. destruct stem; [congruence | simpl; lia]. }
  assert (H1 : (length stem <? length (stem ++ 46%N :: ext) - 1)%nat = true).
  { apply Nat.ltb_lt. rewrite length_app. simpl.
    destruct ext; [congruence | simpl; lia]. }
  rewrite H0, H1. simpl andb. cbv iota.
  rewrite drop_app_length. reflexivity.
Qed.

Lemma suffix_of_bare_extension (dir ext : list N) :
  contains py"/" (46 :: ext) = false ->
  forallb (fun c => negb (c =? 46)) ext = true ->
  suffix (dir ++ py"/" ++ 46 :: ext) = [].
Proof.
  intros Hslash Hdot. unfold suffix.
  rewrite (path_name_app dir _ Hslash).
  pose proof (rfind_last_dot [] ext Hdot) as Hfind. simpl in Hfind.
  rewrite Hfind. reflexivity.
Qed.

Lemma lower_char (c d : N) :
  (if (65 <=? c) && (c <=? 90) then c + 32 else c) = d ->
  (d = 46 -> c = 46) /\ (d <> 46 -> c <> 46) /\ (d <> 47 -> c <> 47).
Proof.
  destruct ((65 <=? c) && (c <=? 90)) eqn:Hc; intros <-.
  - apply andb_true_iff in Hc. destruct Hc as [H1 H2].
    apply N.leb_le in H1. apply N.leb_le in H2. lia.
  - tauto.
Qed.

(** An extension that reads ".pdf", ".doc" or ".docx" in lower case is a
    dot followed by letters. *)
Lemma extension_shape (ext : list N) :
  lower ext = py".pdf" \/ lower ext = py".doc" \/ lower ext = py".docx" ->
  exists e, ext = 46 :: e /\ e <> []
            /\ forallb (fun c => negb (c =? 46)) e = true
            /\ contains py"/" ext = false.
Proof.
  intros H.
  assert (Hall : exists c0 e, ext = c0 :: e /\ e <> [] /\ c0 = 46
                 /\ Forall (fun c => c <> 46 /\ c <> 47) e).
  { destruct H as [H | [H | H]];
      destruct ext as [|c0 [|c1 [|c2 [|c3 [|c4 [|c5 e]]]]]];
      try discriminate H; unfold lower in H; simpl map in H;
      injection H as H0 H1 H2 H3;
      try match goal with
          | G : (if _ then _ else _) :: _ = _ |- _ => injection G as G ?
          end;
      apply lower_char in H0, H1, H2, H3;
      (eexists _, _; split; [reflexivity|]; split; [discriminate|];
       split; [apply H0; reflexivity|]);
      repeat (apply Forall_cons; split;
              [first [ split; [apply H1 | apply H1]; discriminate
                     | split; [apply H2 | apply H2]; discriminate
                     | split; [apply H3 | apply H3]; discriminate
                     | match goal with
                       | G : (if _ then _ else _) = _ |- _ =>
                         apply lower_char in G;
                         split; [apply G | apply G]; discriminate
                       end ] |]);
      apply Forall_nil_2. }
  destruct Hall as [c0 [e [-> [Hne [-> Hall]]]]].
  exists e. split; [reflexivity|]. split; [exact Hne|].
  split.
  - apply forallb_forall. intros x Hx. apply negb_true_iff, N.eqb_neq.
    rewrite Forall_forall in Hall. apply Hall. apply list_elem_of_In.
    exact Hx.
  - apply contains_char_false. simpl. apply forallb_forall.
    intros x Hx. apply negb_true_iff, N.eqb_neq.
    rewrite Forall_forall in Hall. apply Hall. apply list_elem_of_In.
    exact Hx.
Qed.

(** A file is read by its extension, in any letter case: as a PDF for
    ".pdf", as a Word document for ".doc" and ".docx".  A file whose whole
    name is such an extension has no suffix for [pathlib] and is not read
    at all, although the patterns of [main] find it. *)
Theorem get_file_info_reads_by_extension
    (pdf_first_page : list N -> attempt (option (list N)))
    (docx_paragraphs : list N -> attempt (list (attempt (list N))))
    (dir stem ext : list N) :
  stem <> [] -> contains py"/" stem = false ->
  (lower ext = py".pdf" ->
     get_file_info pdf_first_page docx_paragraphs
       (dir ++ py"/" ++ stem ++ ext)
     = extract_info_from_pdf pdf_first_page (dir ++ py"/" ++ stem ++ ext))
  /\ (lower ext = py".doc" \/ lower ext = py".docx" ->
      get_file_info pdf_first_page docx_paragraphs
        (dir ++ py"/" ++ stem ++ ext)
      = extract_info_from_docx docx_paragraphs
          (dir ++ py"/" ++ stem ++ ext))
  /\ (lower ext = py".pdf" \/ lower ext = py".doc"
        \/ lower ext = py".docx" ->
      get_file_info pdf_first_page docx_paragraphs (dir ++ py"/" ++ ext)
      = ([], [])).
Proof.
  intros Hstem Hslash.
  assert (Hsuf : lower ext = py".pdf" \/ lower ext = py".doc"
                 \/ lower ext = py".docx" ->
                 suffix (dir ++ py"/" ++ stem ++ ext) = ext
                 /\ suffix (dir ++ py"/" ++ ext) = []).
  { intros H. destruct (extension_shape ext H) as [e [-> [Hne [Hdot Hs]]]].
    split.
    - apply suffix_of_extension; try assumption.
      apply contains_char_false. rewrite forallb_app.
      apply contains_char_false in Hslash. apply contains_char_false in Hs.
      change (forallb (fun x => negb (x =? 47)) stem = true) in Hslash.
      rewrite Hslash. exact Hs.
    - apply suffix_of_bare_extension; assumption. }
  split; [|split].
  - intros H. destruct (Hsuf (or_introl H)) as [H1 _].
    unfold get_file_info. rewrite H1, H. reflexivity.
  - intros H. destruct (Hsuf (or_intror H)) as [H1 _].
    unfold get_file_info. rewrite H1.
    destruct H as [H | H]; rewrite H; reflexivity.
  - intros H. destruct (Hsuf H) as [_ H2].
    unfold get_file_info. rewrite H2. reflexivity.
Qed.

(** An upper-case extension, and a file named after its extension. *)
Lemma get_file_info_reads_by_extension_witness :
  get_file_info (fun _ => Got (Some py"期中考试")) (fun _ => Got [])
    py"离散数学/试卷/A.PDF"
  = extract_info_from_pdf (fun _ => Got (Some py"期中考试"))
      py"离散数学/试卷/A.PDF".
Proof.
  apply (get_file_info_reads_by_extension
           (fun _ => Got (Some py"期中考试")) (fun _ => Got [])
           py"离散数学/试卷" py"A" py".PDF");
    [discriminate | reflexivity | reflexivity].
Defined.

Lemma split_app_last (sep : N) (a b : list N) :
  contains [sep] b = false ->
  exists init l,
    split sep a = init ++ [l] /\ split sep (a ++ b) = init ++ [l ++ b].
Proof.
  intros Hb. induction a as [|c a IH].
  - exists [], []. split; [reflexivity|].
    simpl. apply split_without_sep. exact Hb.
  - destruct IH as [init [l [Ha Hab]]]. simpl. rewrite Ha, Hab.
    destruct (c =? sep).
    + exists ([] :: init), l. split; reflexivity.
    + destruct init as [|w init]; simpl.
      * exists [], (c :: l). split; reflexivity.
      * exists ((c :: w) :: init), l. split; reflexivity.
Qed.

Lemma path_name_app_r (a b : list N) :
  contains py"/" b = false -> path_name (a ++ b) = path_name a ++ b.
Proof.
  intros Hb. unfold path_name.
  destruct (split_app_last 0x2F a b Hb) as [init [l [Ha Hab]]].
  rewrite Ha, Hab, !List.last_last. reflexivity.
Qed.

Lemma str_of_nat_plain (k : nat) :
  Forall (fun c => c <> 46 /\ c <> 47) (str_of_nat k).
Proof.
  unfold str_of_nat.
  generalize (Nat.to_uint k). intros d.
  destruct d as [|d|d|d|d|d|d|d|d|d|d]; simpl;
    try (apply Forall_nil_2);
    (apply Forall_cons; split; [split; discriminate|]);
    induction d as [|d IH|d IH|d IH|d IH|d IH|d IH|d IH|d IH|d IH|d IH];
    simpl; try (apply Forall_nil_2);
    (apply Forall_cons; split; [split; discriminate | exact IH]).
Qed.

Lemma plain_no_char (c : N) (s : list N) :
  Forall (fun x => x <> c) s -> forallb (fun x => negb (x =? c)) s = true.
Proof.
  intros H. apply forallb_forall. intros x Hx.
  apply negb_true_iff, N.eqb_neq. rewrite Forall_forall in H.
  apply H. apply list_elem_of_In. exact Hx.
Qed.

(** The suffix of a name built from a stem that ends in an answer tag. *)
Lemma suffix_of_candidate (prefix head tag : list N) (k : nat) :
  tag = py"-带答案" \/ tag = py"-无答案" ->
  suffix (prefix ++ candidate (head ++ tag) k) = py".pdf".
Proof.
  intros Htag.
  set (tail0 := match k with
                | O => []
                | S _ => py"_" ++ str_of_nat k
                end).
  assert (Hcand : candidate (head ++ tag) k
                  = head ++ (tag ++ tail0) ++ 46 :: py"pdf").
  { unfold candidate, tail0. destruct k;
      repeat (rewrite <- app_assoc; simpl); reflexivity. }
  assert (Hplain : Forall (fun c => c <> 46 /\ c <> 47) (tag ++ tail0)).
  { apply Forall_app. split.
    - destruct Htag as [-> | ->];
        repeat (apply Forall_cons; split; [split; discriminate|]);
        apply Forall_nil_2.
    - unfold tail0. destruct k; [apply Forall_nil_2|].
      apply Forall_app. split; [|apply str_of_nat_plain].
      apply Forall_cons. split; [split; discriminate | apply Forall_nil_2]. }
  assert (Hslash : contains py"/" ((tag ++ tail0) ++ 46 :: py"pdf") = false).
  { apply contains_char_false. rewrite forallb_app.
    rewrite (plain_no_char 47 (tag ++ tail0)); [reflexivity|].
    eapply Forall_impl; [exact Hplain|]. intros x [_ Hx]. exact Hx. }
  unfold suffix. rewrite Hcand. rewrite (app_assoc prefix).
  rewrite (path_name_app_r _ _ Hslash).
  set (base := path_name (prefix ++ head)).
  rewrite (app_assoc base).
  assert (Hfind : rfind 46 ((base ++ tag ++ tail0) ++ 46 :: py"pdf")
                  = Some (length (base ++ tag ++ tail0))).
  { apply rfind_last_dot. reflexivity. }
  rewrite Hfind.
  assert (Hpos : (0 < length (base ++ tag ++ tail0))%nat).
  { rewrite !length_app.
    destruct Htag as [-> | ->]; simpl; lia. }
  assert (H0 : (0 <? length (base ++ tag ++ tail0))%nat = true).
  { apply Nat.ltb_lt. exact Hpos. }
  assert (H1 : (length (base ++ tag ++ tail0)
                <? length ((base ++ tag ++ tail0) ++ 46%N :: py"pdf") - 1)%nat
               = true).
  { apply Nat.ltb_lt. rewrite (length_app (base ++ tag ++ tail0)).
    simpl. lia. }
  rewrite H0, H1. simpl andb. cbv iota.
  rewrite drop_app_length. reflexivity.
Qed.

(** Every name the pipeline chooses has the suffix ".pdf" for [pathlib],
    under whatever directory it is put.  The test
    [new_path.suffix.lower() != '.pdf'] made after a Word file was copied is
    therefore never true, and [with_suffix] never runs: a Word file that
    could not be converted is stored unchanged under a name ending in
    ".pdf". *)
Theorem chosen_name_always_has_pdf_suffix
    (json_loads : list N -> loads_result)
    (obj_str : pyval -> outcome (list N)) (svc : service) (f : file_task)
    (force_manual : bool) (w wf : world) (r : pyval) (name : list N)
    (output_path : list N) :
  process_file_with_ai json_loads obj_str svc f force_manual w
  = (Ok (r, name), wf) ->
  pystr_eqb (lower (suffix (output_path ++ py"/" ++ name))) py".pdf" = true.
Proof.
  intros Hrun.
  destruct (process_named _ _ _ _ _ _ _ _ _ Hrun) as [w2 [w3 Hb]].
  destruct (build_name_cases obj_str (output_dir f) r w2)
    as [[e H] | [[H _] | [stem [n [_ [H [_ [_ [_ [head Hstem]]]]]]]]]];
    rewrite H in Hb; try discriminate Hb.
  injection Hb as <- _.
  rewrite (app_assoc output_path).
  assert (Hsuf : suffix ((output_path ++ py"/") ++ candidate stem n)
                 = py".pdf").
  { destruct Hstem as [-> | ->]; apply suffix_of_candidate; auto. }
  rewrite Hsuf. reflexivity.
Qed.

(** The name given by the rule engine to an unreadable scan. *)
Lemma chosen_name_always_has_pdf_suffix_witness :
  pystr_eqb
    (lower (suffix (py"离散数学/试卷/重命名_AI" ++ py"/"
                      ++ py"期末-未知学期-无答案.pdf")))
    py".pdf" = true.
Proof.
  eapply (chosen_name_always_has_pdf_suffix
            Json.loads str_of_scalar (Examples.always py"{}")
            Examples.scan false (Examples.console [py"n"])).
  vm_compute. reflexivity.
Defined.

End ExtractFacts.

(** ** The whole run *)

Section RunFacts.

Import Run.

Lemma count_app (p : run_event -> bool) (a b : list run_event) :
  count p (a ++ b) = (count p a + count p b)%nat.
Proof. unfold count. rewrite List.filter_app, length_app. reflexivity. Qed.

Lemma count_inner (p : run_event -> bool) (t : list event) :
  (forall e, p (Inner e) = false) -> count p (map Inner t) = 0%nat.
Proof.
  intros Hp. unfold count. induction t as [|e t IH]; [reflexivity|].
  simpl. rewrite Hp. exact IH.
Qed.

Lemma announced_app (a b : list run_event) :
  announced (a ++ b) = announced a ++ announced b.
Proof. unfold announced. apply omap_app. Qed.

Lemma announced_inner (t : list event) :
  forallb (fun e => match e with
                    | EvPrint (MsgProcessing _) => false
                    | _ => true
                    end) t = true ->
  announced (map Inner t) = [].
Proof.
  induction t as [|e t IH]; [reflexivity|].
  simpl. intros H. apply andb_true_iff in H. destruct H as [He Ht].
  unfold announced in *. simpl.
  destruct e as [[]| | |]; try discriminate He; exact (IH Ht).
Qed.

Lemma count_requests_inner (t : list event) :
  forallb (fun e => match e with EvRequest _ _ => false | _ => true end) t
  = true ->
  count is_request (map Inner t) = 0%nat.
Proof.
  induction t as [|e t IH]; [reflexivity|].
  simpl. intros H. apply andb_true_iff in H. destruct H as [He Ht].
  unfold count in *. simpl.
  destruct e as [| | |]; try discriminate He; exact (IH Ht).
Qed.

(** A lifted computation ends as it does alone, on the input and the
    service of the run, and appends its events. *)
Lemma lift_io_run {A} (m : io A) (rw : run_world) :
  let r := m (World (rstdin rw) (rserved rw) []) in
  lift_io m rw
  = (fst r, RunWorld (stdin (snd r)) (served (snd r))
              (rtrace rw ++ map Inner (trace (snd r)))).
Proof.
  unfold lift_io. destruct (m (World (rstdin rw) (rserved rw) [])) as [o w].
  reflexivity.
Qed.

Lemma escalation_events (v : pyval) : adds escalation_event (escalation v).
Proof.
  unfold escalation.
  repeat first
    [ apply adds_bind; [|intros ?]
    | apply adds_emit; reflexivity
    | apply adds_input; reflexivity
    | apply adds_ret
    | apply adds_lift
    | match goal with
      | |- adds _ (if ?c then _ else _) => destruct c
      | |- adds _ (match ?x with _ => _ end) => destruct x
      end ].
Qed.

Lemma call_ai_api_adds (json_loads : list N -> loads_result)
    (svc : service) (file_name text_content : list N) :
  adds api_event (call_ai_api json_loads svc file_name text_content).
Proof.
  intros w.
  destruct (call_ai_api_returns json_loads svc file_name text_content w)
    as [v [t [H Ht]]].
  exists t. rewrite H. split; [reflexivity | exact Ht].
Qed.

Lemma adds_after_emit {A} (P : event -> bool) (e : event)
    (k : unit -> io A) :
  adds P (k tt) ->
  forall w, exists t,
    trace (snd (bind (emit e) k w)) = trace w ++ e :: t
    /\ forallb P t = true.
Proof.
  intros Hk w. unfold bind, emit.
  destruct (Hk (World (stdin w) (served w) (trace w ++ [e]))) as [t [Ht HP]].
  exists t. rewrite Ht. simpl. rewrite <- app_assoc. split; [reflexivity|].
  exact HP.
Qed.

(** The events of one file: the announcement, then events of the service,
    of the decision and of the manual review. *)
Lemma process_events (P : event -> bool)
    (json_loads : list N -> loads_result)
    (obj_str : pyval -> outcome (list N)) (svc : service) (f : file_task)
    (force_manual : bool) :
  (forall e, manual_event e = true -> P e = true) ->
  (force_manual = false ->
   forall e, api_event e = true \/ escalation_event e = true ->
             P e = true) ->
  P (EvPrint MsgUnreadable) = true ->
  P (EvPrint MsgPreview) = true ->
  P (EvPrint MsgUseRuleEngine) = true ->
  forall w, exists t,
    trace (snd (process_file_with_ai json_loads obj_str svc f
                  force_manual w))
    = trace w ++ EvPrint (MsgProcessing (file_name f)) :: t
    /\ forallb P t = true.
Proof.
  intros Hman Hauto H1 H2 H3.
  unfold process_file_with_ai. unfold print at 1.
  apply adds_after_emit.
  apply adds_bind.
  { destruct (negb (truthy (PStr (strip (extracted f))))).
    - apply adds_bind; [apply adds_emit; exact H1 | intros ?; apply adds_ret].
    - apply adds_ret. }
  intros text. apply adds_bind; [apply adds_emit; exact H2|]. intros _.
  apply adds_bind.
  { destruct force_manual; simpl negb; cbv iota.
    - apply adds_ret.
    - apply adds_bind.
      + apply (adds_weaken api_event); [|apply call_ai_api_adds].
        intros e He. apply Hauto; [reflexivity | left; exact He].
      + intros v. apply adds_bind; [|intros ?; apply adds_ret].
        apply (adds_weaken escalation_event); [|apply escalation_events].
        intros e He. apply Hauto; [reflexivity | right; exact He]. }
  intros decided. apply adds_bind.
  { destruct (snd decided).
    - apply (adds_weaken manual_event); [exact Hman|].
      apply manual_intervention_adds.
    - destruct (truthy (fst decided) && is_dict (fst decided)).
      + apply adds_ret.
      + apply adds_bind; [apply adds_emit; exact H3 | intros ?; apply adds_ret]. }
  intros r. apply adds_bind; [apply build_name_adds|].
  intros name. apply adds_ret.
Qed.

Lemma format_reasoning_run (obj_str : pyval -> outcome (list N))
    (r : pyval) (rw : run_world) :
  let reasoning :=
    match r with
    | PDict d =>
      format_value obj_str (dict_get py"reasoning" (PStr py"N/A") d)
    | _ => raise AttributeError
    end in
  exists o, lift_io reasoning rw = (o, rw)
            /\ ((forall v, obj_str v <> Diverges) -> o <> Diverges).
Proof.
  destruct rw as [i s t]. simpl.
  destruct r as [| | | | | |d]; unfold lift_io; simpl;
    try (eexists; rewrite app_nil_r; split; [reflexivity | discriminate]).
  rewrite format_value_run. simpl. rewrite app_nil_r.
  eexists. split; [reflexivity|]. intros Hstr.
  destruct (dict_get py"reasoning" (PStr py"N/A") d); try apply Hstr.
  discriminate.
Qed.

(** What the file operations print: one store failure, or the new name
    followed by the reasoning or by a failure to format it. Only an
    exception that is not an [Exception] leaves them. *)
Lemma file_operations_run (obj_str : pyval -> outcome (list N))
    (f : found_file) (r : pyval) (name : list N) (rw : run_world) :
  exists o t,
    file_operations obj_str f r name rw
    = (o, RunWorld (rstdin rw) (rserved rw) (rtrace rw ++ t))
    /\ (o = Ok tt \/ o = Diverges
        \/ exists e, o = Raise e /\ is_Exception e = false)
    /\ ((forall v, obj_str v <> Diverges) -> o <> Diverges)
    /\ (o = Ok tt ->
        (count is_renamed t + count is_store_failure t = 1)%nat)
    /\ (count is_renamed t + count is_store_failure t <= 1)%nat
    /\ count is_file_error t = 0%nat
    /\ count is_interrupted t = 0%nat
    /\ count is_request t = 0%nat
    /\ announced t = [].
Proof.
  unfold file_operations.
  destruct (found_store f name) as [u|reason].
  - destruct (format_reasoning_run obj_str r (say (MsgRenamed name) rw))
      as [o [Ho Hstr]].
    simpl in Ho. rewrite Ho.
    destruct o as [text|e|].
    + exists (Ok tt), [Said (MsgRenamed name); Said (MsgReasoning text)].
      unfold say. simpl. rewrite <- app_assoc.
      split; [reflexivity|]. split; [left; reflexivity|].
      split; [discriminate|]. split; [reflexivity|].
      split; [unfold count; simpl; lia|]. repeat split.
    + destruct (is_Exception e) eqn:He.
      * exists (Ok tt),
          [Said (MsgRenamed name);
           Said (MsgFileOpFailed (ReasoningFailed e))].
        unfold say. simpl. rewrite <- app_assoc.
        split; [reflexivity|]. split; [left; reflexivity|].
        split; [discriminate|]. split; [reflexivity|].
        split; [unfold count; simpl; lia|]. repeat split.
      * exists (Raise e), [Said (MsgRenamed name)].
        split; [reflexivity|].
        split; [right; right; exists e; split; [reflexivity | exact He]|].
        split; [discriminate|]. split; [discriminate|].
        split; [unfold count; simpl; lia|]. repeat split.
    + exists Diverges, [Said (MsgRenamed name)].
      split; [reflexivity|]. split; [right; left; reflexivity|].
      split; [intros H; exfalso; exact (Hstr H eq_refl)|].
      split; [discriminate|].
      split; [unfold count; simpl; lia|]. repeat split.
  - exists (Ok tt), [Said (MsgFileOpFailed (StoreFailed reason))].
    split; [reflexivity|]. split; [left; reflexivity|].
    split; [discriminate|]. split; [reflexivity|].
    split; [unfold count; simpl; lia|]. repeat split.
Qed.

(** One file of the loop. *)
Lemma process_file_run (json_loads : list N -> loads_result)
    (obj_str : pyval -> outcome (list N)) (svc : service) (f : found_file)
    (force_manual : bool) (rw : run_world) :
  exists o rw' t,
    process_file json_loads obj_str svc f force_manual rw = (o, rw')
    /\ rtrace rw' = rtrace rw ++ t
    /\ ((forall v, obj_str v <> Diverges) -> o <> Diverges)
    /\ (o = Ok tt ->
        (count is_renamed t + count is_store_failure t = 1)%nat)
    /\ (forall e, o = Raise e -> is_Exception e = true ->
        (count is_renamed t + count is_store_failure t = 0)%nat)
    /\ (count is_renamed t + count is_store_failure t <= 1)%nat
    /\ count is_file_error t = 0%nat
    /\ count is_interrupted t = 0%nat
    /\ (force_manual = true -> count is_request t = 0%nat)
    /\ announced t = [Extract.path_name (found_path f)].
Proof.
  unfold process_file. rewrite lift_io_run. cbv zeta.
  set (w0 := World (rstdin rw) (rserved rw) []).
  set (m := process_file_with_ai json_loads obj_str svc (task f)
              force_manual).
  destruct (process_events
              (fun e => match e with
                        | EvPrint (MsgProcessing _) => false
                        | _ => true
                        end)
              json_loads obj_str svc (task f) force_manual) with (w := w0)
    as [t0 [Ht0 Hquiet]];
    try reflexivity.
  { intros e He. destruct e as [[]|[]| |]; try discriminate He; reflexivity. }
  { intros _ e [He|He]; destruct e as [[]|[]| |]; try discriminate He;
      reflexivity. }
  fold m in Ht0. simpl in Ht0.
  assert (Hreq : force_manual = true ->
                 count is_request (map Inner (trace (snd (m w0)))) = 0%nat).
  { intros ->.
    destruct (process_events
                (fun e => match e with EvRequest _ _ => false | _ => true end)
                json_loads obj_str svc (task f) true) with (w := w0)
      as [t1 [Ht1 Hnone]]; try reflexivity.
    { intros e He. destruct e as [[]|[]| |]; try discriminate He;
        reflexivity. }
    { discriminate. }
    apply count_requests_inner. unfold m. rewrite Ht1. simpl.
    exact Hnone. }
  assert (Hhalt : (forall v, obj_str v <> Diverges) ->
                  fst (m w0) <> Diverges).
  { intros Hstr.
    exact (process_file_with_ai_halts json_loads obj_str svc (task f)
             force_manual Hstr w0). }
  assert (Hann : announced (map Inner (trace (snd (m w0))))
                 = [Extract.path_name (found_path f)]).
  { rewrite Ht0. simpl. unfold announced at 1. simpl.
    fold (announced (map Inner t0)). rewrite (announced_inner t0 Hquiet).
    reflexivity. }
  assert (Hin0 : forall p, (forall e, p (Inner e) = false) ->
                 count p (map Inner (trace (snd (m w0)))) = 0%nat).
  { intros p Hp. apply count_inner. exact Hp. }
  destruct (m w0) as [[[r name]|e|] w1]; simpl fst in *; simpl snd in *.
  - destruct (file_operations_run obj_str f r name
                (RunWorld (stdin w1) (served w1)
                   (rtrace rw ++ map Inner (trace w1))))
      as [o [t [Hrun [Ho [Hstr [Hone [Hmost [Herr [Hint [Hrq Han]]]]]]]]]].
    exists o, (RunWorld (stdin w1) (served w1)
                 ((rtrace rw ++ map Inner (trace w1)) ++ t)),
           (map Inner (trace w1) ++ t).
    simpl in Hrun. split; [exact Hrun|].
    split; [simpl; rewrite app_assoc; reflexivity|].
    split; [exact Hstr|].
    split.
    { intros Hok. rewrite !count_app, !Hin0 by reflexivity.
      simpl. exact (Hone Hok). }
    split.
    { intros e He Hexc.
      destruct Ho as [-> | [-> | [e' [-> He']]]]; try discriminate He.
      injection He as <-. congruence. }
    split; [rewrite !count_app, !Hin0 by reflexivity; simpl; exact Hmost|].
    split; [rewrite count_app, Hin0 by reflexivity; exact Herr|].
    split; [rewrite count_app, Hin0 by reflexivity; exact Hint|].
    split; [intros Hf; rewrite count_app, (Hreq Hf); exact Hrq|].
    rewrite announced_app, Hann, Han. reflexivity.
  - exists (Raise e), (RunWorld (stdin w1) (served w1)
                         (rtrace rw ++ map Inner (trace w1))),
           (map Inner (trace w1)).
    split; [reflexivity|]. split; [reflexivity|].
    split; [discriminate|]. split; [discriminate|].
    split; [intros ? _ _; rewrite !Hin0 by reflexivity; reflexivity|].
    split; [rewrite !Hin0 by reflexivity; simpl; lia|].
    split; [apply Hin0; reflexivity|].
    split; [apply Hin0; reflexivity|].
    split; [exact Hreq | exact Hann].
  - exists Diverges, (RunWorld (stdin w1) (served w1)
                        (rtrace rw ++ map Inner (trace w1))),
           (map Inner (trace w1)).
    split; [reflexivity|]. split; [reflexivity|].
    split; [intros Hstr; exfalso; exact (Hhalt Hstr eq_refl)|].
    split; [discriminate|].
    split; [intros ? _ _; rewrite !Hin0 by reflexivity; reflexivity|].
    split; [rewrite !Hin0 by reflexivity; simpl; lia|].
    split; [apply Hin0; reflexivity|].
    split; [apply Hin0; reflexivity|].
    split; [exact Hreq | exact Hann].
Qed.

(** The loop over the files.  It returns with the counter; the files it
    has visited are the first ones of the list, all of them unless it was
    interrupted, and each of them was counted, reported as an error, or is
    the one interrupted. *)
Lemma process_all_run (json_loads : list N -> loads_result)
    (obj_str : pyval -> outcome (list N)) (svc : service)
    (files : list found_file) (force_manual : bool) (c : nat)
    (rw : run_world) :
  exists o rw' t,
    process_all json_loads obj_str svc files force_manual c rw = (o, rw')
    /\ rtrace rw' = rtrace rw ++ t
    /\ ((forall v, obj_str v <> Diverges) -> exists k, o = Ok k)
    /\ (forall k, o = Ok k ->
        exists seen rest,
          files = seen ++ rest
          /\ announced t
             = map (fun f => Extract.path_name (found_path f)) seen
          /\ (count is_interrupted t = 0%nat -> rest = [])
          /\ (count is_interrupted t <= 1)%nat
          /\ (k + count is_file_error t + count is_interrupted t
              = c + length seen)%nat
          /\ (k <= c + count is_renamed t + count is_store_failure t)%nat
          /\ (c + count is_renamed t + count is_store_failure t
              <= k + count is_interrupted t)%nat)
    /\ (force_manual = true -> count is_request t = 0%nat).
Proof.
  revert c rw. induction files as [|f files IH]; intros c rw.
  - exists (Ok c), rw, []. simpl. rewrite app_nil_r.
    split; [reflexivity|]. split; [reflexivity|].
    split; [intros _; eauto|].
    split; [|reflexivity].
    intros k Hk. injection Hk as <-. exists [], [].
    unfold count. simpl. repeat split; lia.
  - destruct (process_file_run json_loads obj_str svc f force_manual rw)
      as [o1 [rw1 [t1 [Hrun [Ht1 [Hhalt [Hone [Hzero [Hmost [Herr [Hint
           [Hreq Hann]]]]]]]]]]]].
    cbn [process_all]. rewrite Hrun.
    destruct o1 as [[]|e|].
    + destruct (IH (S c) rw1) as [o [rw' [t [Hall [Ht [Hstr [Hk Hrq]]]]]]].
      exists o, rw', (t1 ++ t).
      split; [exact Hall|].
      split; [rewrite Ht, Ht1, app_assoc; reflexivity|].
      split; [exact Hstr|].
      split.
      * intros k Hok.
        destruct (Hk k Hok)
          as [seen [rest [Hfiles [H1 [H2 [H3 [H4 [H5 H6]]]]]]]].
        specialize (Hone eq_refl).
        exists (f :: seen), rest.
        rewrite !count_app, announced_app, Hann, H1, Herr, Hint.
        split; [rewrite Hfiles; reflexivity|].
        split; [reflexivity|].
        split; [exact H2|].
        split; [exact H3|].
        simpl length. simpl plus. repeat split; lia.
      * intros Hf. rewrite count_app, (Hreq Hf), (Hrq Hf). reflexivity.
    + destruct (is_Exception e) eqn:Hexc.
      * destruct (IH c (say (MsgFileError (Extract.path_name (found_path f))
                               e) rw1))
          as [o [rw' [t [Hall [Ht [Hstr [Hk Hrq]]]]]]].
        exists o, rw',
          (t1 ++ [Said (MsgFileError (Extract.path_name (found_path f)) e)]
              ++ t).
        split; [exact Hall|].
        split.
        { rewrite Ht. unfold say. simpl. rewrite Ht1, <- !app_assoc.
          reflexivity. }
        split; [exact Hstr|].
        split.
        -- intros k Hok.
           destruct (Hk k Hok)
             as [seen [rest [Hfiles [H1 [H2 [H3 [H4 [H5 H6]]]]]]]].
           specialize (Hzero e eq_refl Hexc).
           exists (f :: seen), rest.
           rewrite !count_app, !announced_app, Hann, H1, Herr, Hint.
           change (count is_file_error [Said (MsgFileError
                     (Extract.path_name (found_path f)) e)]) with 1%nat.
           change (count is_renamed [Said (MsgFileError
                     (Extract.path_name (found_path f)) e)]) with 0%nat.
           change (count is_store_failure [Said (MsgFileError
                     (Extract.path_name (found_path f)) e)]) with 0%nat.
           change (count is_interrupted [Said (MsgFileError
                     (Extract.path_name (found_path f)) e)]) with 0%nat.
           split; [rewrite Hfiles; reflexivity|].
           split; [reflexivity|].
           split; [exact H2|].
           split; [exact H3|].
           simpl length. simpl plus. repeat split; lia.
        -- intros Hf. rewrite !count_app, (Hreq Hf), (Hrq Hf). reflexivity.
      * exists (Ok c), (say MsgInterrupted rw1),
          (t1 ++ [Said MsgInterrupted]).
        split; [reflexivity|].
        split; [unfold say; simpl; rewrite Ht1, <- app_assoc; reflexivity|].
        split; [intros _; eauto|].
        split.
        -- intros k Hok. injection Hok as <-.
           exists [f], files.
           rewrite !count_app, announced_app, Hann, Herr, Hint.
           change (count is_file_error [Said MsgInterrupted]) with 0%nat.
           change (count is_renamed [Said MsgInterrupted]) with 0%nat.
           change (count is_store_failure [Said MsgInterrupted]) with 0%nat.
           change (count is_interrupted [Said MsgInterrupted]) with 1%nat.
           split; [reflexivity|]. split; [reflexivity|].
           split; [intros H; discriminate H|].
           simpl length. simpl plus. repeat split; lia.
        -- intros Hf. rewrite count_app, (Hreq Hf). reflexivity.
    + exists Diverges, rw1, t1.
      split; [reflexivity|]. split; [exact Ht1|].
      split; [intros Hstr; exfalso; exact (Hhalt Hstr eq_refl)|].
      split; [discriminate | exact Hreq].
Qed.

(** [main] once the directory is there and files were found: what comes
    before the loop is harmless, and the answer to the question decides
    [force_manual]. *)
Lemma main_with_files (json_loads : list N -> loads_result)
    (obj_str : pyval -> outcome (list N)) (svc : service) (u : unit)
    (rglob : list N -> list found_file) (rw : run_world) :
  files_of rglob <> [] ->
  exists pre,
    count is_file_error pre = 0%nat /\ count is_renamed pre = 0%nat
    /\ count is_store_failure pre = 0%nat /\ count is_request pre = 0%nat
    /\ count is_interrupted pre = 0%nat
    /\ announced pre = []
    /\ main json_loads obj_str svc (Extract.Got u) rglob rw
       = match process_all json_loads obj_str svc (files_of rglob)
                 (forced_by (rstdin rw)) 0
                 (RunWorld (tail (rstdin rw)) (rserved rw)
                    (rtrace rw ++ pre)) with
         | (Ok k, rw2) =>
           (Returned,
            say MsgSavedIn
              (say (MsgDone k (length (files_of rglob))) rw2))
         | (_, rw2) => (Unfinished, rw2)
         end.
Proof.
  intros Hfiles. unfold main, forced_by.
  destruct (files_of rglob) as [|f fs] eqn:Hf; [congruence|].
  set (n := length (f :: fs)).
  destruct (unset (OPENAI_BASE_URL svc) || unset (OPENAI_API_KEY svc));
    unfold ask_all, say; cbn [rstdin rserved rtrace];
    destruct (rstdin rw) as [|[line|] rest].
  - exists [Said MsgEnvMissing; Said MsgEnvRuleEngine; Said (MsgFound n);
            AskedAll; Said MsgNoInput].
    repeat (split; [reflexivity|]).
    cbn [tail]. rewrite <- !app_assoc. reflexivity.
  - exists [Said MsgEnvMissing; Said MsgEnvRuleEngine; Said (MsgFound n);
            AskedAll].
    repeat (split; [reflexivity|]).
    cbn [tail]. rewrite <- !app_assoc. reflexivity.
  - exists [Said MsgEnvMissing; Said MsgEnvRuleEngine; Said (MsgFound n);
            AskedAll; Said MsgNoInput].
    repeat (split; [reflexivity|]).
    cbn [tail]. rewrite <- !app_assoc. reflexivity.
  - exists [Said (MsgFound n); AskedAll; Said MsgNoInput].
    repeat (split; [reflexivity|]).
    cbn [tail]. rewrite <- !app_assoc. reflexivity.
  - exists [Said (MsgFound n); AskedAll].
    repeat (split; [reflexivity|]).
    cbn [tail]. rewrite <- !app_assoc. reflexivity.
  - exists [Said (MsgFound n); AskedAll; Said MsgNoInput].
    repeat (split; [reflexivity|]).
    cbn [tail]. rewrite <- !app_assoc. reflexivity.
Qed.



(** The events of a whole run. *)
Lemma main_run (json_loads : list N -> loads_result)
    (obj_str : pyval -> outcome (list N)) (svc : service)
    (mkdir : Extract.attempt unit) (rglob : list N -> list found_file)
    (rw : run_world) :
  let r := main json_loads obj_str svc mkdir rglob rw in
  exists t,
    rtrace (snd r) = rtrace rw ++ t
    /\ (forced_by (rstdin rw) = true -> count is_request t = 0%nat)
    /\ (fst r = Returned ->
        exists seen rest,
          files_of rglob = seen ++ rest
          /\ announced t
             = map (fun f => Extract.path_name (found_path f)) seen
          /\ (count is_interrupted t = 0%nat -> rest = [])
          /\ (count is_interrupted t <= 1)%nat)
    /\ (fst r = Returned -> files_of rglob <> [] ->
        exists body k seen rest,
          t = body ++ [Said (MsgDone k (length (files_of rglob)));
                       Said MsgSavedIn]
          /\ files_of rglob = seen ++ rest
          /\ (count is_interrupted body = 0%nat -> rest = [])
          /\ (count is_interrupted body <= 1)%nat
          /\ (k + count is_file_error body + count is_interrupted body
              = length seen)%nat
          /\ (k <= count is_renamed body + count is_store_failure body)%nat
          /\ (count is_renamed body + count is_store_failure body
              <= k + count is_interrupted body)%nat).
Proof.
  cbv zeta. destruct mkdir as [u|reason].
  2:{ unfold main.
      destruct (unset (OPENAI_BASE_URL svc) || unset (OPENAI_API_KEY svc)).
      - exists [Said MsgEnvMissing; Said MsgEnvRuleEngine].
        unfold say. simpl. rewrite <- app_assoc.
        split; [reflexivity|]. split; [reflexivity|].
        split; discriminate.
      - exists []. rewrite app_nil_r.
        split; [reflexivity|]. split; [reflexivity|].
        split; discriminate. }
  destruct (files_of rglob) as [|f0 fs] eqn:Hf.
  { unfold main. rewrite Hf.
    destruct (unset (OPENAI_BASE_URL svc) || unset (OPENAI_API_KEY svc)).
    - exists [Said MsgEnvMissing; Said MsgEnvRuleEngine; Said MsgNoFiles].
      unfold say. simpl. rewrite <- !app_assoc.
      split; [reflexivity|]. split; [reflexivity|].
      split; [|congruence].
      intros _. exists [], []. unfold count. simpl.
      repeat split; lia.
    - exists [Said MsgNoFiles].
      split; [reflexivity|]. split; [reflexivity|].
      split; [|congruence].
      intros _. exists [], []. unfold count. simpl.
      repeat split; lia. }
  rewrite <- Hf.
  destruct (main_with_files json_loads obj_str svc u rglob rw)
    as [pre [P1 [P2 [P3 [P4 [P5 [P6 Hmain]]]]]]]; [congruence|].
  rewrite Hmain.
  destruct (process_all_run json_loads obj_str svc (files_of rglob)
              (forced_by (rstdin rw)) 0
              (RunWorld (tail (rstdin rw)) (rserved rw) (rtrace rw ++ pre)))
    as [o [rw' [t [Hall [Ht [_ [Hk Hrq]]]]]]].
  rewrite Hall. simpl in Ht.
  destruct o as [k|e|].
  - destruct (Hk k eq_refl)
      as [seen [rest [Hfiles [H1 [H2 [H3 [H4 [H5 H6]]]]]]]].
    exists (pre ++ t ++ [Said (MsgDone k (length (files_of rglob)));
                         Said MsgSavedIn]).
    unfold say. simpl. rewrite Ht, <- !app_assoc.
    split; [reflexivity|].
    split.
    { intros Hforce. rewrite !count_app, P4, (Hrq Hforce). reflexivity. }
    assert (Hend : forall p,
              p (Said (MsgDone k (length (files_of rglob)))) = false ->
              p (Said MsgSavedIn) = false ->
              count p (pre ++ t ++ [Said (MsgDone k (length (files_of rglob)));
                                    Said MsgSavedIn])
              = (count p pre + count p t)%nat).
    { intros p Hp1 Hp2. rewrite !count_app. unfold count at 3. simpl.
      rewrite Hp1, Hp2. simpl. lia. }
    split.
    { intros _. exists seen, rest.
      split; [exact Hfiles|].
      split.
      { rewrite !announced_app, P6, H1. simpl. rewrite app_nil_r.
        reflexivity. }
      rewrite (Hend is_interrupted eq_refl eq_refl), P5. simpl.
      split; [exact H2 | exact H3]. }
    intros _ _. exists (pre ++ t), k, seen, rest.
    split; [rewrite <- app_assoc; reflexivity|].
    split; [exact Hfiles|].
    rewrite !count_app, P1, P2, P3, P5. simpl.
    split; [exact H2|]. split; [exact H3|].
    repeat split; lia.
  - exists (pre ++ t). simpl. rewrite Ht, <- app_assoc.
    split; [reflexivity|].
    split; [|split; discriminate].
    intros Hforce. rewrite count_app, P4, (Hrq Hforce). reflexivity.
  - exists (pre ++ t). simpl. rewrite Ht, <- app_assoc.
    split; [reflexivity|].
    split; [|split; discriminate].
    intros Hforce. rewrite count_app, P4, (Hrq Hforce). reflexivity.
Qed.

(** The count printed at the end.  Every file the loop came to was counted,
    has an error line of its own, or is the one at which Ctrl-C stopped the
    loop ("用户中断处理", printed at most once); the files after that one
    are not visited.  The count is at most the number of files announced as
    renamed or whose conversion or copy failed, and differs from it by at
    most the interrupted file.  So a run that was not interrupted counts
    exactly the files that reached a name, and count and error lines add up
    to the number of files found. *)
Theorem main_counts_files_up_to_an_interrupt
    (json_loads : list N -> loads_result)
    (obj_str : pyval -> outcome (list N)) (svc : service)
    (mkdir : Extract.attempt unit) (rglob : list N -> list found_file)
    (rw : run_world) :
  fst (main json_loads obj_str svc mkdir rglob rw) = Returned ->
  files_of rglob <> [] ->
  exists body k seen rest,
    rtrace (snd (main json_loads obj_str svc mkdir rglob rw))
    = rtrace rw ++ body
        ++ [Said (MsgDone k (length (files_of rglob))); Said MsgSavedIn]
    /\ files_of rglob = seen ++ rest
    /\ (count is_interrupted body <= 1)%nat
    /\ (k + count is_file_error body + count is_interrupted body
        = length seen)%nat
    /\ (k <= count is_renamed body + count is_store_failure body)%nat
    /\ (count is_renamed body + count is_store_failure body
        <= k + count is_interrupted body)%nat
    /\ (count is_interrupted body = 0%nat ->
        (k + count is_file_error body = length (files_of rglob))%nat
        /\ (k = count is_renamed body + count is_store_failure body)%nat).
Proof.
  intros Hret Hfiles.
  destruct (main_run json_loads obj_str svc mkdir rglob rw)
    as [t [Ht [_ [_ Hcount]]]].
  destruct (Hcount Hret Hfiles)
    as [body [k [seen [rest [-> [Hf [H1 [H2 [H3 [H4 H5]]]]]]]]]].
  exists body, k, seen, rest. split; [exact Ht|].
  split; [exact Hf|]. split; [exact H2|]. split; [exact H3|].
  split; [exact H4|]. split; [exact H5|].
  intros Hnone. specialize (H1 Hnone). subst rest.
  rewrite app_nil_r in Hf. rewrite Hf. split; lia.
Qed.

(** Two files: the first gets its name, Ctrl-C comes at the question asked
    for the second.  One file is counted out of two, with no error line. *)
Lemma main_counts_files_up_to_an_interrupt_witness :
  exists body k seen rest,
    rtrace (snd (main Json.loads str_of_scalar (Examples.always py"{}")
                   (Extract.Got tt) RunExamples.rglob
                   (Run.RunWorld [Line py"n"; Line py"n"; CtrlC] 0 [])))
    = [] ++ body ++ [Said (MsgDone k 2); Said MsgSavedIn]
    /\ files_of RunExamples.rglob = seen ++ rest
    /\ (count is_interrupted body <= 1)%nat
    /\ (k + count is_file_error body + count is_interrupted body
        = length seen)%nat
    /\ (k <= count is_renamed body + count is_store_failure body)%nat
    /\ (count is_renamed body + count is_store_failure body
        <= k + count is_interrupted body)%nat
    /\ (count is_interrupted body = 0%nat ->
        (k + count is_file_error body = 2)%nat
        /\ (k = count is_renamed body + count is_store_failure body)%nat).
Proof.
  apply (main_counts_files_up_to_an_interrupt
           Json.loads str_of_scalar (Examples.always py"{}")
           (Extract.Got tt) RunExamples.rglob
           (Run.RunWorld [Line py"n"; Line py"n"; CtrlC] 0 []));
    [vm_compute; reflexivity | vm_compute; discriminate].
Defined.

(** The files are announced once each, in the order found, whatever
    happens to the files before: an [Exception] in one file never keeps the
    loop from the next.  Those announced are the first files found, and all
    of them unless Ctrl-C stopped the loop. *)
Theorem main_visits_files_in_order_up_to_an_interrupt
    (json_loads : list N -> loads_result)
    (obj_str : pyval -> outcome (list N)) (svc : service)
    (mkdir : Extract.attempt unit) (rglob : list N -> list found_file)
    (rw : run_world) :
  fst (main json_loads obj_str svc mkdir rglob rw) = Returned ->
  exists t seen rest,
    rtrace (snd (main json_loads obj_str svc mkdir rglob rw))
    = rtrace rw ++ t
    /\ files_of rglob = seen ++ rest
    /\ announced t
       = map (fun f => Extract.path_name (found_path f)) seen
    /\ (count is_interrupted t = 0%nat ->
        announced t
        = map (fun f => Extract.path_name (found_path f)) (files_of rglob)).
Proof.
  intros Hret.
  destruct (main_run json_loads obj_str svc mkdir rglob rw)
    as [t [Ht [_ [Hann _]]]].
  destruct (Hann Hret) as [seen [rest [Hf [Ha [Hnone _]]]]].
  exists t, seen, rest. split; [exact Ht|]. split; [exact Hf|].
  split; [exact Ha|].
  intros Hzero. rewrite (Hnone Hzero), app_nil_r in Hf.
  rewrite Hf. exact Ha.
Qed.

(** A forced run on a console that ends after the first answer. *)
Lemma main_visits_files_in_order_up_to_an_interrupt_witness :
  exists t seen rest,
    rtrace (snd (main Json.loads str_of_scalar (Examples.unreachable)
                   (Extract.Got tt) RunExamples.rglob
                   (RunExamples.console [py"y"])))
    = [] ++ t
    /\ files_of RunExamples.rglob = seen ++ rest
    /\ announced t
       = map (fun f => Extract.path_name (found_path f)) seen
    /\ (count is_interrupted t = 0%nat ->
        announced t = [py"scan.pdf"; py"notes.docx"]).
Proof.
  apply (main_visits_files_in_order_up_to_an_interrupt
           Json.loads str_of_scalar (Examples.unreachable)
           (Extract.Got tt) RunExamples.rglob (RunExamples.console [py"y"])).
  vm_compute. reflexivity.
Defined.

(** Answering "y" (in either case, with spaces around) to the question
    asked before the first file keeps the whole run off the service: not
    one request is sent, however many files there are. *)
Theorem forced_run_never_calls_the_service
    (json_loads : list N -> loads_result)
    (obj_str : pyval -> outcome (list N)) (svc : service)
    (mkdir : Extract.attempt unit) (rglob : list N -> list found_file)
    (rw : run_world) (line : list N) (rest : list keyed) :
  rstdin rw = Line line :: rest ->
  lower_is_y (strip line) = true ->
  exists t,
    rtrace (snd (main json_loads obj_str svc mkdir rglob rw))
    = rtrace rw ++ t
    /\ count is_request t = 0%nat.
Proof.
  intros Hin Hy.
  destruct (main_run json_loads obj_str svc mkdir rglob rw)
    as [t [Ht [Hreq _]]].
  exists t. split; [exact Ht|]. apply Hreq. rewrite Hin. exact Hy.
Qed.

Lemma forced_run_never_calls_the_service_witness :
  exists t,
    rtrace (snd (main Json.loads str_of_scalar (Examples.always py"{}")
                   (Extract.Got tt) RunExamples.rglob
                   (RunExamples.console [py" Y "; py"期中"])))
    = [] ++ t
    /\ count is_request t = 0%nat.
Proof.
  apply (forced_run_never_calls_the_service
           Json.loads str_of_scalar (Examples.always py"{}")
           (Extract.Got tt) RunExamples.rglob
           (RunExamples.console [py" Y "; py"期中"]) py" Y "
           [Line py"期中"]);
    reflexivity.
Defined.

(** Ctrl-C during the manual review of a file ends the whole run, not
    only the file: when it comes at one of the three questions of a forced
    review, the loop prints "用户中断处理" and returns with the counter as it
    was; the file was announced, nothing was renamed, no request was sent,
    and the files after it are not looked at. *)
Theorem interrupt_during_manual_review_ends_the_loop
    (json_loads : list N -> loads_result)
    (obj_str : pyval -> outcome (list N)) (svc : service)
    (f : found_file) (files : list found_file) (c : nat) (rw : run_world) :
  console_exn 3 (rstdin rw) = Some KeyboardInterrupt ->
  exists rest t,
    process_all json_loads obj_str svc (f :: files) true c rw
    = (Ok c,
       RunWorld rest (rserved rw) (rtrace rw ++ t ++ [Said MsgInterrupted]))
    /\ announced t = [Extract.path_name (found_path f)]
    /\ count is_request t = 0%nat
    /\ count is_renamed t = 0%nat
    /\ count is_file_error t = 0%nat.
Proof.
  intros Hkey.
  destruct (process_file_run json_loads obj_str svc f true rw)
    as [o [rw' [t' [Hrun [Ht' [_ [_ [_ [_ [Herr [_ [Hreq Hann]]]]]]]]]]]].
  destruct (forced_review_run json_loads obj_str svc (task f)
              (World (rstdin rw) (rserved rw) []))
    as [t [_ [_ [_ Hfail]]]].
  destruct (Hfail KeyboardInterrupt Hkey) as [rest Hproc].
  assert (Hfile :
    process_file json_loads obj_str svc f true rw
    = (Raise KeyboardInterrupt,
       RunWorld rest (rserved rw) (rtrace rw ++ map Inner t))).
  { unfold process_file. rewrite lift_io_run. cbv zeta. rewrite Hproc.
    reflexivity. }
  rewrite Hfile in Hrun. injection Hrun as <- <-.
  cbn [rtrace] in Ht'. apply app_inv_head in Ht'. subst t'.
  exists rest, (map Inner t).
  split.
  { cbn [process_all]. rewrite Hfile. cbn [is_Exception]. unfold say.
    cbn [rstdin rserved rtrace]. rewrite <- app_assoc. reflexivity. }
  split; [exact Hann|]. split; [exact (Hreq eq_refl)|].
  split; [apply count_inner; reflexivity | exact Herr].
Qed.

(** Two files, a forced run, and Ctrl-C at the second question of the
    first file. *)
Lemma interrupt_during_manual_review_ends_the_loop_witness :
  exists rest t,
    process_all Json.loads str_of_scalar (Examples.unreachable)
      [RunExamples.scan; RunExamples.notes] true 0
      (RunWorld [Line py"期中"; CtrlC; Line py"y"] 0 [])
    = (Ok 0%nat,
       RunWorld rest 0 ([] ++ t ++ [Said MsgInterrupted]))
    /\ announced t = [Extract.path_name (found_path RunExamples.scan)]
    /\ count is_request t = 0%nat
    /\ count is_renamed t = 0%nat
    /\ count is_file_error t = 0%nat.
Proof.
  apply (interrupt_during_manual_review_ends_the_loop
           Json.loads str_of_scalar (Examples.unreachable)
           RunExamples.scan [RunExamples.notes] 0
           (RunWorld [Line py"期中"; CtrlC; Line py"y"] 0 [])).
  reflexivity.
Defined.

End RunFacts.
